(** * Row-to-invoice transformation of [app.py]

    A shallow embedding of the processing route [processar_notas] and of
    its helper [limpar_moeda], with the Python and pandas primitives they
    call, followed by the properties of the specification.

    Text.  A Python [str] is modelled by [string], one element per
    character, the element's code being the character's code point; the
    model therefore covers text whose code points are below 256 (Latin-1),
    which is enough for the Portuguese headers and placeholders of the
    program.  Non-ASCII characters of the source's literals are written
    with their code point (["227"%char] is a-tilde).

    Numbers.  A Python [float] is an IEEE 754 binary64 value, modelled by
    [spec_float] at precision 53 and maximal exponent 1024; a Python [int]
    is a [Z].

    Effects.  A computation that may raise returns a [resultado]; the
    exception is kept as the message the route reports.  The clock is a
    function from the rank of a reading to the instant read, and each
    iteration of the loop takes two readings.  The table is the one the
    pandas readers deliver: its header labels, its rows, and the index
    label of each row, which is the position of the row unless the
    reader took a column of the file as index.  A row holds Python
    objects, or numpy scalars when all the columns are integer or
    boolean.  What openpyxl, the pandas readers and the JSON encoder do
    is not modelled: it is a parameter ([Bibliotecas]). *)

From Stdlib Require Import ZArith List Bool Ascii String Lia.
From Stdlib Require Import Floats.SpecFloat.
Import ListNotations.

Local Open Scope string_scope.
Local Open Scope Z_scope.

(* ================================================================== *)
(** * Python text primitives *)
(* ================================================================== *)

Module Py.

(** Code point of a character. *)
Definition ord (c : ascii) : Z := Z.of_N (N_of_ascii c).

(** [str.isspace] on one character, for code points below 256: the
    characters TAB..CR, FS..US, space, NEL and NBSP. *)
Definition isspace (c : ascii) : bool :=
  let n := ord c in
  ((9 <=? n) && (n <=? 13)) || ((28 <=? n) && (n <=? 32))
  || (n =? 133) || (n =? 160).

(** The C-locale [Py_ISSPACE]: TAB..CR and space. *)
Definition c_isspace (c : ascii) : bool :=
  let n := ord c in ((9 <=? n) && (n <=? 13)) || (n =? 32).

Definition isdigit (c : ascii) : bool :=
  let n := ord c in (48 <=? n) && (n <=? 57).

Definition digit_value (c : ascii) : Z := ord c - 48.

(** [s.lstrip()], [s.rstrip()] and [s.strip()], parameterised by the
    whitespace predicate. *)
Fixpoint lstrip_with (sp : ascii -> bool) (s : string) : string :=
  match s with
  | EmptyString => EmptyString
  | String c r => if sp c then lstrip_with sp r else s
  end.

Fixpoint rstrip_with (sp : ascii -> bool) (s : string) : string :=
  match s with
  | EmptyString => EmptyString
  | String c r =>
      match rstrip_with sp r with
      | EmptyString => if sp c then EmptyString else String c EmptyString
      | r' => String c r'
      end
  end.

Definition strip (s : string) : string :=
  rstrip_with isspace (lstrip_with isspace s).

(** [s.replace(old, new)] for a non-empty [old]: leftmost, non-overlapping
    occurrences, scanned once.  [skip] counts the characters of the current
    occurrence still to be dropped.  (The program only replaces the
    non-empty patterns ['R$'], ['.'], [','] and [' '].) *)
Fixpoint replace_from (old new : string) (skip : nat) (s : string) : string :=
  match s with
  | EmptyString => EmptyString
  | String c r =>
      match skip with
      | S k => replace_from old new k r
      | O =>
          if prefix old s
          then new ++ replace_from old new (Nat.pred (String.length old)) r
          else String c (replace_from old new O r)
      end
  end.

Definition replace (old new s : string) : string := replace_from old new O s.

(** [s.lower()] below code point 256: A..Z and the accented capitals
    U+00C0..U+00DE except the multiplication sign move up by 32. *)
Definition lower_char (c : ascii) : ascii :=
  let n := ord c in
  if ((65 <=? n) && (n <=? 90))
     || ((192 <=? n) && (n <=? 222) && negb (n =? 215))
  then ascii_of_N (Z.to_N (n + 32)) else c.

Fixpoint lower (s : string) : string :=
  match s with
  | EmptyString => EmptyString
  | String c r => String (lower_char c) (lower r)
  end.

(** The slice [s[:n]]. *)
Fixpoint slice_to (n : nat) (s : string) : string :=
  match n, s with
  | S k, String c r => String c (slice_to k r)
  | _, _ => EmptyString
  end.

(** Decimal digits of a natural number, and [str(int)]. *)
Definition digit_char (d : Z) : ascii := ascii_of_N (Z.to_N (48 + d)).

Fixpoint digits_fuel (fuel : nat) (n : Z) (acc : string) : string :=
  match fuel with
  | O => acc
  | S k =>
      let acc' := String (digit_char (n mod 10)) acc in
      if n <? 10 then acc' else digits_fuel k (n / 10) acc'
  end.

(** [Z.log2 n + 1] decimal digits are never needed; the fuel is ample. *)
Definition digits (n : Z) : string :=
  digits_fuel (S (Z.to_nat (Z.log2 n))) n EmptyString.

Definition str_int (n : Z) : string :=
  if n <? 0 then String "-" (digits (- n)) else digits n.

(** Value of a string of decimal digits, most significant first. *)
Fixpoint digits_value_from (acc : Z) (s : string) : Z :=
  match s with
  | EmptyString => acc
  | String c r => digits_value_from (10 * acc + digit_value c) r
  end.

Definition digits_value (s : string) : Z := digits_value_from 0 s.

(** Longest prefix of decimal digits, and the rest. *)
Fixpoint span_digits (s : string) : string * string :=
  match s with
  | EmptyString => (EmptyString, EmptyString)
  | String c r =>
      if isdigit c
      then let '(ds, rest) := span_digits r in (String c ds, rest)
      else (EmptyString, s)
  end.

(** Zero-padding to a width, as [%02d] and [%04d] do. *)
Fixpoint zeros (n : nat) : string :=
  match n with O => EmptyString | S k => String "0" (zeros k) end.

Definition zfill (w : nat) (s : string) : string :=
  zeros (w - String.length s) ++ s.

End Py.

(* ================================================================== *)
(** * Python floats *)
(* ================================================================== *)

Module PyFloat.

Definition prec : Z := 53.
Definition emax : Z := 1024.

Definition zero : spec_float := S754_zero false.

(** Nearest binary64 (ties to even) of [m * 10^e] with [0 <= m], signed by
    [neg]: what a correctly rounded [strtod] returns.  Out of range, the
    result is an infinity or a zero; no error is raised. *)
Definition of_decimal (neg : bool) (m e : Z) : spec_float :=
  if m <=? 0 then S754_zero neg
  else if 0 <=? e then
    binary_normalize prec emax (if neg then - (m * 10 ^ e) else m * 10 ^ e)
      0 neg
  else
    let '(q, e', l) := SFdiv_core_binary prec emax m 0 (10 ^ (- e)) 0 in
    binary_round_aux prec emax neg q e' l.

(** [float(n)] for an [int]: correctly rounded, [OverflowError] when the
    result would not be finite. *)
Definition of_int (n : Z) : option spec_float :=
  match binary_normalize prec emax n 0 false with
  | S754_infinity _ => None
  | f => Some f
  end.

Definition sub (x y : spec_float) : spec_float := SFsub prec emax x y.

(** ** [float(str)] *)

(** The conversion of the text to ASCII that precedes parsing: code points
    below 127 are kept, other whitespace becomes a space, and the text is
    cut after the first other character, replaced by [?]. *)
Fixpoint to_ascii (s : string) : string :=
  match s with
  | EmptyString => EmptyString
  | String c r =>
      if Py.ord c <? 127 then String c (to_ascii r)
      else if Py.isspace c then String " " (to_ascii r)
      else "?"
  end.

(** Underscores are dropped when each one stands between two digits;
    otherwise the text is rejected. *)
Fixpoint drop_underscores (prev : ascii) (s : string) : option string :=
  match s with
  | EmptyString => if Ascii.eqb prev "_" then None else Some EmptyString
  | String c r =>
      if Ascii.eqb c "_" then
        if Py.isdigit prev then drop_underscores c r else None
      else if Ascii.eqb prev "_" && negb (Py.isdigit c) then None
      else option_map (String c) (drop_underscores c r)
  end.

Definition read_sign (s : string) : bool * string :=
  match s with
  | String c r =>
      if Ascii.eqb c "-" then (true, r)
      else if Ascii.eqb c "+" then (false, r)
      else (false, s)
  | EmptyString => (false, s)
  end.

(** Optional exponent part: consumed only when a digit follows. *)
Definition read_exponent (s : string) : Z * string :=
  match s with
  | String c r =>
      if Ascii.eqb c "e" || Ascii.eqb c "E" then
        let '(eneg, r1) := read_sign r in
        let '(ds, r2) := Py.span_digits r1 in
        match ds with
        | EmptyString => (0, s)
        | _ => ((if eneg then - Py.digits_value ds else Py.digits_value ds), r2)
        end
      else (0, s)
  | EmptyString => (0, s)
  end.

(** A decimal numeral at the head of the text: sign, digits, optional
    point and digits (one digit at least overall), optional exponent.
    Returns the value and the unread rest. *)
Definition read_decimal (s : string) : option (spec_float * string) :=
  let '(neg, s1) := read_sign s in
  let '(ip, s2) := Py.span_digits s1 in
  let '(fp, s3) :=
    match s2 with
    | String c r =>
        if Ascii.eqb c "." then Py.span_digits r else (EmptyString, s2)
    | EmptyString => (EmptyString, s2)
    end in
  match ip ++ fp with
  | EmptyString => None
  | ds =>
      let '(ex, s4) := read_exponent s3 in
      Some (of_decimal neg (Py.digits_value ds)
              (ex - Z.of_nat (String.length fp)), s4)
  end.

(** [inf], [infinity] and [nan], in any letter case, with optional sign. *)
Definition ascii_lower (c : ascii) : ascii :=
  let n := Py.ord c in
  if (65 <=? n) && (n <=? 90) then ascii_of_N (Z.to_N (n + 32)) else c.

Fixpoint match_nocase (pat s : string) : option string :=
  match pat, s with
  | EmptyString, _ => Some s
  | String p pr, String c r =>
      if Ascii.eqb (ascii_lower c) p then match_nocase pr r else None
  | String _ _, EmptyString => None
  end.

Definition read_inf_nan (s : string) : option (spec_float * string) :=
  let '(neg, s1) := read_sign s in
  match match_nocase "inf" s1 with
  | Some r =>
      match match_nocase "inity" r with
      | Some r' => Some (S754_infinity neg, r')
      | None => Some (S754_infinity neg, r)
      end
  | None =>
      match match_nocase "nan" s1 with
      | Some r => Some (S754_nan, r)
      | None => None
      end
  end.

(** [float(s)]; [None] stands for [ValueError]. *)
Definition of_str (s : string) : option spec_float :=
  match drop_underscores "000" (to_ascii s) with
  | None => None
  | Some t =>
      let u := Py.rstrip_with Py.c_isspace (Py.lstrip_with Py.c_isspace t) in
      let parsed :=
        match read_decimal u with
        | Some r => Some r
        | None => read_inf_nan u
        end in
      match parsed with
      | Some (f, EmptyString) => Some f
      | _ => None
      end
  end.

(** ** [format(x, ',.2f')] *)

(** [n / d] rounded to the nearest integer, ties to even ([0 <= n],
    [0 < d]). *)
Definition div_half_even (n d : Z) : Z :=
  let q := n / d in
  match (2 * (n mod d)) ?= d with
  | Lt => q
  | Gt => q + 1
  | Eq => if Z.even q then q else q + 1
  end.

(** The magnitude [m * 2^e] in hundredths, correctly rounded. *)
Definition hundredths (m : positive) (e : Z) : Z :=
  if 0 <=? e then Zpos m * 2 ^ e * 100
  else div_half_even (Zpos m * 100) (2 ^ (- e)).

(** A comma before every group of three digits, counted from the right. *)
Fixpoint group_thousands (s : string) : string :=
  match s with
  | EmptyString => EmptyString
  | String c r =>
      let n := String.length r in
      if (0 <? n)%nat && (n mod 3 =? 0)%nat
      then String c (String "," (group_thousands r))
      else String c (group_thousands r)
  end.

Definition sign_text (neg : bool) : string := if neg then "-" else "".

Definition format_2f (f : spec_float) : string :=
  match f with
  | S754_nan => "nan"
  | S754_infinity s => sign_text s ++ "inf"
  | S754_zero s => sign_text s ++ "0.00"
  | S754_finite s m e =>
      let c := hundredths m e in
      sign_text s ++ group_thousands (Py.digits (c / 100)) ++ "."
        ++ Py.zfill 2 (Py.digits (c mod 100))
  end.

End PyFloat.

(* ================================================================== *)
(** * [datetime] *)
(* ================================================================== *)

Module Datetime.

Record t : Type := mk
  { year : Z; month : Z; day : Z;
    hour : Z; minute : Z; second : Z; microsecond : Z }.

Definition is_leap (y : Z) : bool :=
  ((y mod 4 =? 0) && negb (y mod 100 =? 0)) || (y mod 400 =? 0).

Definition days_in_month (y m : Z) : Z :=
  if m =? 2 then (if is_leap y then 29 else 28)
  else if (m =? 4) || (m =? 6) || (m =? 9) || (m =? 11) then 30
  else 31.

(** The dates [datetime] accepts. *)
Definition valid_date (y m d : Z) : bool :=
  (1 <=? y) && (y <=? 9999) && (1 <=? m) && (m <=? 12)
  && (1 <=? d) && (d <=? days_in_month y m).

(** [d.strftime("%d/%m/%Y")]: day and month on two digits; the year as the
    C library prints it, without padding (only years below 1000 are
    concerned). *)
Definition strftime_dmY (d : t) : string :=
  Py.zfill 2 (Py.str_int (day d)) ++ "/"
  ++ Py.zfill 2 (Py.str_int (month d)) ++ "/" ++ Py.str_int (year d).

(** [str(d)]: ISO form with a space, the microseconds when not zero. *)
Definition str (d : t) : string :=
  Py.zfill 4 (Py.str_int (year d)) ++ "-" ++ Py.zfill 2 (Py.str_int (month d))
  ++ "-" ++ Py.zfill 2 (Py.str_int (day d)) ++ " "
  ++ Py.zfill 2 (Py.str_int (hour d)) ++ ":"
  ++ Py.zfill 2 (Py.str_int (minute d)) ++ ":"
  ++ Py.zfill 2 (Py.str_int (second d))
  ++ (if microsecond d =? 0 then ""
      else "." ++ Py.zfill 6 (Py.str_int (microsecond d))).

(** ** [datetime.strptime(s, '%Y-%m-%d')]

    The format compiles to the regular expression
    [(\d\d\d\d)-(1[0-2]|0[1-9]|[1-9])-(3[0-1]|[1-2]\d|0[1-9]|[1-9]| [1-9])],
    matched at the start of the text, alternatives tried left to right with
    backtracking; the whole text must be consumed and the date must
    exist. *)

Definition in_range (lo hi c : ascii) : bool :=
  (Py.ord lo <=? Py.ord c) && (Py.ord c <=? Py.ord hi).

Definition re_two (lo1 hi1 lo2 hi2 : ascii) (s : string)
  : option (Z * string) :=
  match s with
  | String a (String b r) =>
      if in_range lo1 hi1 a && in_range lo2 hi2 b
      then Some (10 * Py.digit_value a + Py.digit_value b, r) else None
  | _ => None
  end.

Definition re_one (lo hi : ascii) (s : string) : option (Z * string) :=
  match s with
  | String a r => if in_range lo hi a then Some (Py.digit_value a, r) else None
  | _ => None
  end.

Definition re_space_one (s : string) : option (Z * string) :=
  match s with
  | String " " r => re_one "1" "9" r
  | _ => None
  end.

Definition re_m : list (string -> option (Z * string)) :=
  [re_two "1" "1" "0" "2"; re_two "0" "0" "1" "9"; re_one "1" "9"].

Definition re_d : list (string -> option (Z * string)) :=
  [re_two "3" "3" "0" "1"; re_two "1" "2" "0" "9"; re_two "0" "0" "1" "9";
   re_one "1" "9"; re_space_one].

(** First alternative after which the continuation [k] succeeds. *)
Fixpoint re_alts {A : Type} (alts : list (string -> option (Z * string)))
    (k : Z -> string -> option A) (s : string) : option A :=
  match alts with
  | [] => None
  | alt :: more =>
      match alt s with
      | Some (v, r) =>
          match k v r with
          | Some x => Some x
          | None => re_alts more k s
          end
      | None => re_alts more k s
      end
  end.

Definition re_literal {A : Type} (c : ascii) (k : string -> option A)
    (s : string) : option A :=
  match s with
  | String a r => if Ascii.eqb a c then k r else None
  | EmptyString => None
  end.

Definition re_Y {A : Type} (k : Z -> string -> option A) (s : string)
  : option A :=
  match s with
  | String a (String b (String c (String d r))) =>
      if Py.isdigit a && Py.isdigit b && Py.isdigit c && Py.isdigit d
      then k (Py.digits_value (String a (String b (String c (String d "")))))
             r
      else None
  | _ => None
  end.

(** The match of the compiled format: the fields and the unread rest. *)
Definition match_Ymd (s : string) : option (Z * Z * Z * string) :=
  re_Y (fun y =>
    re_literal "-" (re_alts re_m (fun m =>
      re_literal "-" (re_alts re_d (fun d r => Some (y, m, d, r)))))) s.

(** [None] stands for [ValueError]. *)
Definition strptime_Ymd (s : string) : option t :=
  match match_Ymd s with
  | Some (y, m, d, EmptyString) =>
      if valid_date y m d then Some (mk y m d 0 0 0 0) else None
  | _ => None
  end.

End Datetime.

(* ================================================================== *)
(** * Cell values, exceptions and tables *)
(* ================================================================== *)

(** The objects a cell of a pandas row holds, and [None].  The row of a
    table whose columns are not all of one numeric type is object-typed
    and holds Python objects.  In a table whose columns are all integer
    (all boolean) [iterrows] delivers the cells as [numpy.int64]
    ([numpy.bool_]) scalars, which are instances neither of [int] nor of
    [float]: they are [VInt64] and [VBool_].  A [numpy.float64] is an
    instance of [float] and behaves as one everywhere in the program: it
    is a [VFloat].  These are the objects of the cells of a CSV or of a
    worksheet of numbers, texts and dates; what else a reader can put in
    a cell (the missing date [NaT], a [time]) is not modelled, and the
    properties that range over [valor] are about the objects listed
    here. *)
Inductive valor : Type :=
  | VNone
  | VBool (b : bool)
  | VInt (n : Z)
  | VFloat (f : spec_float)
  | VStr (s : string)
  | VDatetime (d : Datetime.t)
  | VInt64 (n : Z)
  | VBool_ (b : bool).

(** The missing-cell marker of pandas is the float NaN. *)
Definition NaN : valor := VFloat S754_nan.

(** A computation that returns or raises; the exception is kept as its
    message, which is all the route reports. *)
Inductive resultado (A : Type) : Type :=
  | Ok (a : A)
  | Exc (e : string).

Arguments Ok {A} a.
Arguments Exc {A} e.

Definition bind {A B : Type} (r : resultado A) (k : A -> resultado B)
  : resultado B :=
  match r with
  | Ok a => k a
  | Exc e => Exc e
  end.

Notation "x <- r ;; k" := (bind r (fun x => k))
  (at level 61, r at next level, right associativity).

(** A [DataFrame]: the header labels, the rows as [iterrows] delivers
    them, each row giving the cells in header order, and the index,
    [index i] being the label of the row at position [i].  With the
    default index the label of a row is its position; when the data rows
    of a CSV have one field more than the header, [read_csv] takes the
    first field of each row as its label, so that labels are arbitrary
    and can repeat.  Labels are integers here: on a label that is a text
    or a date, line 227 raises on [1000 + index]. *)
Record DataFrame : Type := mkDataFrame
  { columns : list string;
    linhas : list (list valor);
    index : nat -> Z }.

(** [k in df.columns]. *)
Definition contem (k : string) (cols : list string) : bool :=
  existsb (String.eqb k) cols.

Fixpoint posicao (k : string) (cols : list string) : option nat :=
  match cols with
  | [] => None
  | c :: r => if String.eqb k c then Some O else option_map S (posicao k r)
  end.

(** [row.get(k, default)] on the row of a frame whose header labels are
    [cols], for a label [k] that occurs at most once in [cols]; a cell
    the reader did not fill is NaN.  (The readers deliver distinct
    labels, but two of them can coincide once stripped at line 170.  On
    a label that occurs twice [row.get] is a [Series] of the cells, on
    which [pd.notna] and [or] raise and which [limpar_moeda] turns into
    0.0: this is not what [row_get] gives, so the properties that read a
    cell are stated for labels that occur once, or for iterations that
    return.) *)
Definition row_get (cols : list string) (row : list valor) (k : string)
    (default : valor) : valor :=
  match posicao k cols with
  | Some i => nth i row NaN
  | None => default
  end.

(** [pd.notna(v)]. *)
Definition notna (v : valor) : bool :=
  match v with
  | VNone => false
  | VFloat S754_nan => false
  | _ => true
  end.

(** Truth value of an object, as [or] tests it. *)
Definition truthy (v : valor) : bool :=
  match v with
  | VNone => false
  | VBool b => b
  | VInt n => negb (n =? 0)
  | VFloat (S754_zero _) => false
  | VFloat _ => true
  | VStr s => negb (String.eqb s "")
  | VDatetime _ => true
  | VInt64 n => negb (n =? 0)
  | VBool_ b => b
  end.

Definition py_or (a b : valor) : valor := if truthy a then a else b.

(** [v == s] for a text literal [s]. *)
Definition eq_str (v : valor) (s : string) : bool :=
  match v with
  | VStr t => String.eqb t s
  | _ => false
  end.

(** [s.endswith(suf)]. *)
Fixpoint endswith (suf s : string) : bool :=
  String.eqb suf s
  || match s with
     | EmptyString => false
     | String _ r => endswith suf r
     end.

(** ** Text literals of the source that are not ASCII *)

Definition Razao_Social : string := "Raz" ++ String "227" "o Social".
Definition Titulo : string := "T" ++ String "237" "tulo".
Definition Especie : string := "Esp" ++ String "233" "cie".
Definition Servico : string := "Servi" ++ String "231" "o".
Definition txt_banner : string :=
  "MD SISTEMAS - NOTA FISCAL DE SERVI" ++ String "199" "O".
Definition txt_numero : string := "N" ++ String "250" "mero da Nota:".
Definition txt_emissao : string := "Data Emiss" ++ String "227" "o:".
Definition txt_tomador : string :=
  "DADOS DO TOMADOR DE SERVI" ++ String "199" "O".
Definition txt_razao : string := Razao_Social ++ " / Nome:".
Definition txt_descricao : string :=
  "Descri" ++ String "231" (String "227" "o (") ++ Especie ++ ")".
Definition txt_liquido : string := "VALOR L" ++ String "205" "QUIDO:".

(** A worksheet: the value assignments [ws[coord] = v], latest first.
    Fonts, fills, borders, merges, number formats and widths carry no
    value and are left out. *)
Definition planilha : Type := list (string * valor).

Fixpoint celula (ws : planilha) (coord : string) : option valor :=
  match ws with
  | [] => None
  | (c, v) :: r => if String.eqb c coord then Some v else celula r coord
  end.

(** The record appended to the result for one row. *)
Record item_dados : Type := mkItem
  { temp_id : Z;
    nome_arquivo : string;
    respFin : valor;
    origem : valor;
    cpf : valor;
    titulo : valor;
    especie : valor;
    vDevido : string;
    vReceb : string;
    vDesc : string;
    pContas : valor;
    cpfResp : valor;
    data : string;
    venc : string;
    arquivo : string }.

(** The upload and the request. *)
Record arquivo_enviado : Type := mkArquivo
  { filename : string;
    conteudo : string }.

Record requisicao : Type := mkRequisicao
  { files : list (string * arquivo_enviado);
    form : list (string * string) }.

Fixpoint dict_get {A : Type} (d : list (string * A)) (k : string)
  : option A :=
  match d with
  | [] => None
  | (k', v) :: r => if String.eqb k' k then Some v else dict_get r k
  end.

(** What the route answers: the JSON list of records, or an error body
    with its HTTP status. *)
Inductive resposta : Type :=
  | Json (itens : list item_dados)
  | ErroHttp (error : string) (status : Z).

(* ================================================================== *)
(** * The program *)
(* ================================================================== *)

(** Library behaviour the program relies on and that is taken as given:
    [repr] of a float, the binding of a value to a worksheet cell by
    openpyxl ([Some e] when it raises), the serialisation of the workbook
    followed by base64, the three file readers of pandas, and the text
    of the [TypeError] that [jsonify] raises on records it cannot
    serialise. *)
Class Bibliotecas : Type := mkBibliotecas
  { repr_float : spec_float -> string;
    vincular : valor -> option string;
    salvar_base64 : planilha -> resultado string;
    read_csv_utf8 : string -> resultado DataFrame;
    read_csv_latin1_sep : string -> resultado DataFrame;
    read_excel : string -> resultado DataFrame;
    erro_jsonify : list item_dados -> string }.

Section Programa.

Context `{Bibliotecas}.

(** [str(v)], which is also what an f-string field prints. *)
Definition str (v : valor) : string :=
  match v with
  | VNone => "None"
  | VBool true => "True"
  | VBool false => "False"
  | VInt n => Py.str_int n
  | VFloat f => repr_float f
  | VStr s => s
  | VDatetime d => Datetime.str d
  | VInt64 n => Py.str_int n
  | VBool_ true => "True"
  | VBool_ false => "False"
  end.

(** ** [limpar_moeda] *)

(** The text handed to [float] in [limpar_moeda]. *)
Definition texto_limpo (s : string) : string :=
  Py.strip (Py.replace "," "." (Py.replace "." "" (Py.replace "R$" "" s))).

(** The test [isinstance(valor, (int, float))] holds of the Python
    numbers and fails on every other object, the numpy integers and
    booleans included, which therefore go through their text. *)
Definition limpar_moeda (v : valor) : valor :=
  match v with
  | VBool _ | VInt _ | VFloat _ => v
  | _ =>
      match PyFloat.of_str (texto_limpo (str v)) with
      | Some f => VFloat f
      | None => VFloat PyFloat.zero
      end
  end.

(** ** Arithmetic and formatting on the cleaned amounts *)

Definition overflow_msg : string := "int too large to convert to float".

(** [float(v)] for a Python number.  (The amounts the program formats
    and subtracts are results of [limpar_moeda], which are Python
    numbers; every other object is refused here.) *)
Definition to_float (v : valor) : resultado spec_float :=
  match v with
  | VFloat f => Ok f
  | VInt n =>
      match PyFloat.of_int n with
      | Some f => Ok f
      | None => Exc overflow_msg
      end
  | VBool b =>
      match PyFloat.of_int (if b then 1 else 0) with
      | Some f => Ok f
      | None => Exc overflow_msg
      end
  | _ => Exc "unsupported operand type"
  end.

Definition to_int (v : valor) : option Z :=
  match v with
  | VInt n => Some n
  | VBool b => Some (if b then 1 else 0)
  | _ => None
  end.

(** [a - b]: integer subtraction on integers and booleans, float
    subtraction as soon as one side is a float. *)
Definition py_sub (a b : valor) : resultado valor :=
  match to_int a, to_int b with
  | Some x, Some y => Ok (VInt (x - y))
  | _, _ =>
      x <- to_float a ;;
      y <- to_float b ;;
      Ok (VFloat (PyFloat.sub x y))
  end.

(** [f"R$ {v:,.2f}".replace('.', ',')]. *)
Definition formatar_moeda (v : valor) : resultado string :=
  f <- to_float v ;;
  Ok (Py.replace "." "," ("R$ " ++ PyFloat.format_2f f)).

(** ** Emission date (lines 186-204) *)

Definition data_emissao (cols : list string) (row : list valor)
    (agora : Datetime.t) (modo_data data_custom : string) : string :=
  let padrao := Datetime.strftime_dmY agora in
  if String.eqb modo_data "escolher" && negb (String.eqb data_custom "")
  then
    match Datetime.strptime_Ymd data_custom with
    | Some data_obj => Datetime.strftime_dmY data_obj
    | None => padrao
    end
  else if String.eqb modo_data "venda" then
    if contem "Data" cols && notna (row_get cols row "Data" VNone) then
      match row_get cols row "Data" VNone with
      | VDatetime d => Datetime.strftime_dmY d
      | data_raw => str data_raw
      end
    else padrao
  else padrao.

(** ** Customer name (lines 206-220) *)

Definition buscas : list string :=
  ["Resp. Fin"; "Resp Fin"; "Resp. Fin."; "Nome"; "Cliente"; Razao_Social].

Definition chaves_limpas : list string :=
  ["respfin"; "nome"; "cliente"; "razaosocial"].

(** The first loop: [nome] is the value held when the loop is entered. *)
Fixpoint laco_buscas (cols : list string) (row : list valor)
    (bs : list string) (nome : valor) : valor :=
  match bs with
  | [] => nome
  | b :: r =>
      if contem b cols && notna (row_get cols row b VNone)
      then row_get cols row b VNone
      else laco_buscas cols row r nome
  end.

Definition limpa (col : string) : string :=
  Py.replace " " "" (Py.replace "." "" (Py.lower col)).

(** The second loop, over the header labels in their order. *)
Fixpoint laco_colunas (cols : list string) (row : list valor)
    (cs : list string) (nome : valor) : valor :=
  match cs with
  | [] => nome
  | col :: r =>
      if contem (limpa col) chaves_limpas
         && notna (row_get cols row col VNone)
      then row_get cols row col VNone
      else laco_colunas cols row r nome
  end.

Definition nome_cliente (cols : list string) (row : list valor) : valor :=
  let nome := laco_buscas cols row buscas (VStr "Consumidor") in
  if eq_str nome "Consumidor"
  then laco_colunas cols row cols nome
  else nome.

(** ** The record of a row (lines 222-241) *)

Definition val_devido (cols : list string) (row : list valor) : valor :=
  limpar_moeda (row_get cols row "V. Devido" (VInt 0)).

Definition val_receb (cols : list string) (row : list valor) : valor :=
  limpar_moeda (row_get cols row "V. Receb" (VInt 0)).

Definition val_desc (cols : list string) (row : list valor) : valor :=
  limpar_moeda (row_get cols row "V. Desc" (VInt 0)).

(** [f"NF-{1000+index} - {str(nome_cliente)[:30]}"]. *)
Definition montar_nome_arquivo (index : Z) (nome : valor) : string :=
  "NF-" ++ Py.str_int (1000 + index) ++ " - " ++ Py.slice_to 30 (str nome).

(** The dictionary literal, its entries evaluated in order; [agora] is the
    clock reading taken for the default of ['venc']. *)
Definition montar_item (cols : list string) (index : Z) (row : list valor)
    (emissao : string) (agora : Datetime.t) : resultado item_dados :=
  let nome := nome_cliente cols row in
  v_devido <- formatar_moeda (val_devido cols row) ;;
  v_receb <- formatar_moeda (val_receb cols row) ;;
  v_desc <- formatar_moeda (val_desc cols row) ;;
  Ok {| temp_id := index;
        nome_arquivo := montar_nome_arquivo index nome;
        respFin := nome;
        origem := row_get cols row "Origem" (VStr "-");
        cpf := py_or (row_get cols row "CPF/CNPJ" VNone)
                 (py_or (row_get cols row "CPF" VNone) (VStr "-"));
        titulo := row_get cols row Titulo (VStr Servico);
        especie := row_get cols row Especie (VStr "NF-e");
        vDevido := v_devido;
        vReceb := v_receb;
        vDesc := v_desc;
        pContas := row_get cols row "P. Contas" (VStr "Fidelizado");
        cpfResp := row_get cols row "CPF Resp"
                     (row_get cols row "CPF/CNPJ" (VStr "-"));
        data := emissao;
        venc := str (row_get cols row "Venc"
                       (VStr (Datetime.strftime_dmY agora)));
        arquivo := "" |}.

(** ** The worksheet of a row (lines 243-302) *)

(** [ws[coord] = v]. *)
Definition atribuir (ws : planilha) (coord : string) (v : valor)
  : resultado planilha :=
  match vincular v with
  | Some e => Exc e
  | None => Ok ((coord, v) :: ws)
  end.

(** [f"{row.get('Espécie', 'Serviço')} - {row.get('Título', '')}"]. *)
Definition descricao (cols : list string) (row : list valor) : string :=
  str (row_get cols row Especie (VStr Servico)) ++ " - "
  ++ str (row_get cols row Titulo (VStr "")).

Definition montar_planilha (cols : list string) (index : Z)
    (row : list valor) (item : item_dados) : resultado planilha :=
  ws <- atribuir [] "A1" (VStr txt_banner) ;;
  ws <- atribuir ws "A4" (VStr txt_numero) ;;
  ws <- atribuir ws "B4" (VInt (1000 + index)) ;;
  ws <- atribuir ws "C4" (VStr txt_emissao) ;;
  ws <- atribuir ws "D4" (VStr (data item)) ;;
  ws <- atribuir ws "A6" (VStr txt_tomador) ;;
  ws <- atribuir ws "A8" (VStr txt_razao) ;;
  ws <- atribuir ws "B8" (nome_cliente cols row) ;;
  ws <- atribuir ws "A9" (VStr "CPF / CNPJ:") ;;
  ws <- atribuir ws "B9" (cpf item) ;;
  ws <- atribuir ws "A10" (VStr "Origem:") ;;
  ws <- atribuir ws "B10" (origem item) ;;
  ws <- atribuir ws "A12" (VStr "DETALHES DO PAGAMENTO") ;;
  ws <- atribuir ws "A14" (VStr txt_descricao) ;;
  ws <- atribuir ws "B14" (VStr "Vencimento") ;;
  ws <- atribuir ws "C14" (VStr "Desconto") ;;
  ws <- atribuir ws "D14" (VStr "Valor Total") ;;
  ws <- atribuir ws "A15" (VStr (descricao cols row)) ;;
  ws <- atribuir ws "B15" (VStr (venc item)) ;;
  ws <- atribuir ws "C15" (val_desc cols row) ;;
  ws <- atribuir ws "D15" (val_devido cols row) ;;
  ws <- atribuir ws "C17" (VStr txt_liquido) ;;
  liquido <- py_sub (val_devido cols row) (val_desc cols row) ;;
  atribuir ws "D17" liquido.

(** ** One iteration of the loop (lines 181-316)

    [agora1] and [agora2] are the two readings of [datetime.now()] the
    iteration takes: for the default emission date and for the default
    due date. *)
Definition processar_linha (cols : list string) (modo_data data_custom : string)
    (index : Z) (row : list valor) (agora1 agora2 : Datetime.t)
  : resultado (item_dados * planilha) :=
  let emissao := data_emissao cols row agora1 modo_data data_custom in
  item <- montar_item cols index row emissao agora2 ;;
  ws <- montar_planilha cols index row item ;;
  arquivo_base64 <- salvar_base64 ws ;;
  Ok ({| temp_id := temp_id item;
         nome_arquivo := nome_arquivo item;
         respFin := respFin item;
         origem := origem item;
         cpf := cpf item;
         titulo := titulo item;
         especie := especie item;
         vDevido := vDevido item;
         vReceb := vReceb item;
         vDesc := vDesc item;
         pContas := pContas item;
         cpfResp := cpfResp item;
         data := data item;
         venc := venc item;
         arquivo := arquivo_base64 |}, ws).

(** ** The loop and the route (lines 149-322)

    [indice i] is the index label of the row at position [i], which
    [iterrows] delivers with the row.  [relogio n] is the [n]-th reading
    of the clock; the row at position [i] takes readings [2 i] and
    [2 i + 1].  [feitos] is [resultado_processamento] as it stands when
    the iteration starts. *)
Fixpoint laco_linhas (cols : list string) (indice : nat -> Z)
    (modo_data data_custom : string)
    (relogio : nat -> Datetime.t) (i : nat) (rows : list (list valor))
    (feitos : list item_dados) : resultado (list item_dados) :=
  match rows with
  | [] => Ok feitos
  | row :: resto =>
      r <- processar_linha cols modo_data data_custom (indice i) row
             (relogio (2 * i)%nat) (relogio (2 * i + 1)%nat) ;;
      laco_linhas cols indice modo_data data_custom relogio (S i) resto
        (feitos ++ [fst r])
  end.

(** [jsonify] (line 318).  The encoder accepts [None], the Python
    numbers (NaN included), texts and datetimes, and raises [TypeError]
    on a numpy integer or boolean; the cells that reach the record as
    they are stand under seven keys. *)
Definition serializavel (v : valor) : bool :=
  match v with
  | VInt64 _ | VBool_ _ => false
  | _ => true
  end.

Definition item_serializavel (item : item_dados) : bool :=
  serializavel (respFin item) && serializavel (origem item)
  && serializavel (cpf item) && serializavel (titulo item)
  && serializavel (especie item) && serializavel (pContas item)
  && serializavel (cpfResp item).

Definition jsonify (itens : list item_dados)
  : resultado (list item_dados) :=
  if forallb item_serializavel itens then Ok itens
  else Exc (erro_jsonify itens).

(** Reading of the upload (lines 161-168). *)
Definition ler_arquivo (file : arquivo_enviado) : resultado DataFrame :=
  if endswith ".csv" (filename file) then
    match read_csv_utf8 (conteudo file) with
    | Ok df => Ok df
    | Exc _ => read_csv_latin1_sep (conteudo file)
    end
  else read_excel (conteudo file).

(** The two form fields (lines 157-158). *)
Definition modo_data (form : list (string * string)) : string :=
  match dict_get form "modoData" with
  | Some m => m
  | None => "atual"
  end.

Definition data_custom (form : list (string * string)) : string :=
  match dict_get form "dataCustom" with
  | Some d => d
  | None => ""
  end.

(** The body of the [try] once the upload is found (lines 154-318). *)
Definition corpo (file : arquivo_enviado) (form : list (string * string))
    (relogio : nat -> Datetime.t) : resultado (list item_dados) :=
  df <- ler_arquivo file ;;
  resultado_processamento <-
    laco_linhas (map Py.strip (columns df)) (index df) (modo_data form)
      (data_custom form) relogio O (linhas df) [] ;;
  jsonify resultado_processamento.

Definition processar_notas (req : requisicao) (relogio : nat -> Datetime.t)
  : resposta :=
  match dict_get (files req) "file" with
  | None => ErroHttp "Nenhum arquivo enviado" 400
  | Some file =>
      match corpo file (form req) relogio with
      | Ok resultado_processamento => Json resultado_processamento
      | Exc e => ErroHttp e 500
      end
  end.

End Programa.

(* ================================================================== *)
(** * Vocabulary of the properties *)
(* ================================================================== *)

(** Every character of the text satisfies [p]. *)
Fixpoint all_chars (p : ascii -> bool) (s : string) : bool :=
  match s with
  | EmptyString => true
  | String c r => p c && all_chars p r
  end.




(** A non-empty run of decimal digits. *)
Definition digit_group (g : string) : bool :=
  negb (String.eqb g "") && all_chars Py.isdigit g.



(** The numbers among the values. *)
Definition numero (v : valor) : bool :=
  match v with
  | VBool _ | VInt _ | VFloat _ => true
  | _ => false
  end.


(** The binary64 nearest to 1234.56. *)
Definition f_1234_56 : spec_float := S754_finite false 5429652300748554 (-42).

(** The iteration of the loop at position [i], with the index label of
    the row and its clock readings. *)
Definition linha_em `{Bibliotecas} (cols : list string) (indice : nat -> Z)
    (m d : string) (relogio : nat -> Datetime.t) (i : nat)
    (row : list valor) : resultado (item_dados * planilha) :=
  processar_linha cols m d (indice i) row
    (relogio (2 * i)%nat) (relogio (2 * i + 1)%nat).

(** The request that differs from [req] by leaving the date mode to its
    default. *)
Definition sem_modo (req : requisicao) : requisicao :=
  {| files := files req; form := [] |}.



(** The date [y]-[m]-[d] as the form sends it, and as the records carry
    it. *)
Definition data_iso (y m d : Z) : string :=
  Py.zfill 4 (Py.digits y) ++ "-" ++ Py.zfill 2 (Py.digits m) ++ "-"
  ++ Py.zfill 2 (Py.digits d).

Definition data_br (y m d : Z) : string :=
  Py.zfill 2 (Py.digits d) ++ "/" ++ Py.zfill 2 (Py.digits m) ++ "/"
  ++ Py.digits y.




(** Replacement of a one-character pattern, character by character. *)
Fixpoint subst_char (c : ascii) (new s : string) : string :=
  match s with
  | EmptyString => EmptyString
  | String a r =>
      if Ascii.eqb c a then new ++ subst_char c new r
      else String a (subst_char c new r)
  end.

(** The characters of a plain decimal numeral. *)
Definition plain (c : ascii) : bool := Py.isdigit c || Ascii.eqb "." c.

Definition no_digit_head (s : string) : bool :=
  match s with
  | EmptyString => true
  | String c _ => negb (Py.isdigit c)
  end.

(** The test of the first loop on a candidate header. *)
Definition achado (cols : list string) (row : list valor) (b : string)
  : bool :=
  contem b cols && notna (row_get cols row b VNone).

(** The test of the second loop on a header label. *)
Definition achado_limpo (cols : list string) (row : list valor)
    (col : string) : bool :=
  contem (limpa col) chaves_limpas && notna (row_get cols row col VNone).

(** What [limpar_moeda] reads in the display form of a float: the
    amount printed, below 1000.00 in magnitude, and 0.0 from there on. *)
Definition ida_e_volta (f : spec_float) : spec_float :=
  match f with
  | S754_finite s m e =>
      if PyFloat.hundredths m e <? 100000
      then PyFloat.of_decimal s (PyFloat.hundredths m e) (-2)
      else PyFloat.zero
  | _ => f
  end.

(** The characters of a grouped numeral, and of a signed plain one. *)
Definition grouped (c : ascii) : bool := Py.isdigit c || Ascii.eqb "," c.

Definition signed (c : ascii) : bool := plain c || Ascii.eqb "-" c.

(** ** Sample data *)

Definition agora_exemplo : Datetime.t := Datetime.mk 2026 11 4 10 30 0 0.

Definition relogio_exemplo (n : nat) : Datetime.t := agora_exemplo.

Definition tabela_exemplo : DataFrame :=
  {| columns := [" Nome "; "V. Devido"; "V. Desc"];
     linhas := [[VStr "Maria"; VStr "R$ 1.234,56"; VStr "R$ 34,56"];
                [VStr "Pedro"; VInt 10; NaN]];
     index := Z.of_nat |}.

Definition erro_int64 : string :=
  "Object of type int64 is not JSON serializable".

(** Libraries that accept everything, and libraries whose serialisation
    fails. *)
Definition bibliotecas_exemplo : Bibliotecas :=
  {| repr_float := fun _ => "0.0";
     vincular := fun _ => None;
     salvar_base64 := fun _ => Ok "UEsDBA==";
     read_csv_utf8 := fun _ => Ok tabela_exemplo;
     read_csv_latin1_sep := fun _ => Ok tabela_exemplo;
     read_excel := fun _ => Ok tabela_exemplo;
     erro_jsonify := fun _ => erro_int64 |}.

Definition bibliotecas_falha : Bibliotecas :=
  {| repr_float := fun _ => "0.0";
     vincular := fun _ => None;
     salvar_base64 := fun _ => Exc "falha ao salvar";
     read_csv_utf8 := fun _ => Ok tabela_exemplo;
     read_csv_latin1_sep := fun _ => Ok tabela_exemplo;
     read_excel := fun _ => Ok tabela_exemplo;
     erro_jsonify := fun _ => erro_int64 |}.

(** A table with sale dates and tax ids, and libraries whose UTF-8
    reader rejects the upload and whose Latin-1 reader delivers that
    table. *)
Definition tabela_datas : DataFrame :=
  {| columns := ["Cliente"; "Data"; "CPF/CNPJ"; "CPF"];
     linhas := [[VStr "Ana"; VDatetime (Datetime.mk 2024 3 5 0 0 0 0);
                 NaN; VStr "12345678900"];
                [VStr "Rui"; VStr "2024-03-05"; VStr "987"; NaN];
                [VStr "Lia"; NaN; NaN; NaN]];
     index := Z.of_nat |}.

Definition bibliotecas_latin1 : Bibliotecas :=
  {| repr_float := fun _ => "nan";
     vincular := fun _ => None;
     salvar_base64 := fun _ => Ok "UEsDBA==";
     read_csv_utf8 := fun _ => Exc "codec can't decode byte 0xe3";
     read_csv_latin1_sep := fun _ => Ok tabela_datas;
     read_excel := fun _ => Exc "File is not a zip file";
     erro_jsonify := fun _ => erro_int64 |}.

(** The table [read_csv] delivers for the text
    ['Nome,V. Devido\n7,Ana,10\n9,Bia,20'], whose data rows have one field
    more than the header: the first field of each row is its label. *)
Definition tabela_rotulos : DataFrame :=
  {| columns := ["Nome"; "V. Devido"];
     linhas := [[VStr "Ana"; VInt 10]; [VStr "Bia"; VInt 20]];
     index := fun i => match i with O => 7 | _ => 9 end |}.

Definition bibliotecas_rotulos : Bibliotecas :=
  {| repr_float := fun _ => "0.0";
     vincular := fun _ => None;
     salvar_base64 := fun _ => Ok "UEsDBA==";
     read_csv_utf8 := fun _ => Ok tabela_rotulos;
     read_csv_latin1_sep := fun _ => Ok tabela_rotulos;
     read_excel := fun _ => Ok tabela_rotulos;
     erro_jsonify := fun _ => erro_int64 |}.

Definition requisicao_exemplo (modo custom : string) : requisicao :=
  {| files := [("file", {| filename := "notas.csv"; conteudo := "" |})];
     form := [("modoData", modo); ("dataCustom", custom)] |}.

(** ** Proof steps used throughout *)

(** Inspection of the 256 characters. *)
Ltac by_char c :=
  destruct c as [[] [] [] [] [] [] [] []]; vm_compute;
  intros; try reflexivity; try discriminate.

(** From a class lemma stated as a conjunction of tests, the test asked
    for. *)
Ltac class_of lemma :=
  let c := fresh "c" in
  let Hc := fresh "Hc" in
  intros c Hc; apply lemma in Hc;
  repeat (apply andb_true_iff in Hc as [Hc ?]); assumption.

(* ================================================================== *)
(** * The store routes (lines 19-144) *)
(* ================================================================== *)

Module Banco.

#[local] Unset Elimination Schemes.

(** A value decoded from JSON, as [request.json] delivers it (an object
    is the [dict], its keys distinct). *)
Inductive json : Type :=
  | JNull
  | JBool (b : bool)
  | JInt (n : Z)
  | JFloat (f : spec_float)
  | JStr (s : string)
  | JArr (l : list json)
  | JObj (o : list (string * json)).

#[local] Set Elimination Schemes.

(** What sqlite keeps in a column and hands back. *)
Inductive sqlval : Type :=
  | SNull
  | SInt (n : Z)
  | SReal (f : spec_float)
  | SText (s : string).

(** The exceptions the routes can meet in their own code. *)
Inductive excecao : Type :=
  | KeyError (chave : string)
  | NaoIndexavel (alvo : json)
  | NaoIteravel (alvo : json)
  | IntegrityError.

(** Library behaviour taken as given: the MD5 digest, in hexadecimal, of
    the UTF-8 bytes of a text; the text an f-string prints for a float, a
    list or a dict; [json.dumps] and [json.loads]; what a TEXT column
    keeps of a bound Python value, or the exception of the binding; the
    integer an INTEGER column is compared with when the other side is a
    bound text, if the text denotes one; and the text of [str(e)]. *)
Class Servicos : Type := mkServicos
  { md5_hex_utf8 : string -> string;
    repr_outro : json -> string;
    json_dumps : json -> string;
    json_loads : string -> resultado json;
    guardar_texto : json -> resultado sqlval;
    inteiro_do_texto : string -> option Z;
    texto_excecao : excecao -> string }.

(** A row of the table [notas] (lines 26-38). *)
Record nota : Type := mkNota
  { id : Z;
    empresa : sqlval;
    data : sqlval;
    valor : sqlval;
    status : sqlval;
    is_cadastrado : Z;
    arquivo_base64 : sqlval;
    detalhes_json : string;
    hash_registro : string }.

(** The table, its rows in insertion order, and the largest id ever
    given, which AUTOINCREMENT remembers. *)
Record banco : Type := mkBanco
  { notas : list nota;
    seq : Z }.

(** [init_db] (lines 22-40): the table is created when the file has none. *)
Definition init_db (arquivo_db : option banco) : banco :=
  match arquivo_db with
  | Some b => b
  | None => {| notas := []; seq := 0 |}
  end.

(** The dictionary [get_notas] builds for a row (lines 74-83). *)
Module Saida.
Record t : Type := mk
  { id : Z;
    empresa : sqlval;
    data : sqlval;
    valor : sqlval;
    status : sqlval;
    isCadastrado : bool;
    arquivoBase64 : sqlval;
    detalhesCompletos : json }.
End Saida.

(** The answers of the three routes: the list (200), the report of a
    save (201), the acknowledgement of an update (200), an error (500). *)
Inductive resposta : Type :=
  | Lista (notas : list Saida.t)
  | Salvo (message : string) (duplicates : Z)
  | Mensagem (message : string)
  | Erro (error : string).

(** Truth value of a decoded value. *)
Definition verdadeiro (j : json) : bool :=
  match j with
  | JNull => false
  | JBool b => b
  | JInt n => negb (n =? 0)
  | JFloat (S754_zero _) => false
  | JFloat _ => true
  | JStr s => negb (String.eqb s "")
  | JArr l => match l with [] => false | _ => true end
  | JObj o => match o with [] => false | _ => true end
  end.

(** [ORDER BY id DESC]. *)
Fixpoint inserir_desc (n : nota) (l : list nota) : list nota :=
  match l with
  | [] => [n]
  | m :: r => if id m <=? id n then n :: l else m :: inserir_desc n r
  end.

Definition ordenar_desc (l : list nota) : list nota :=
  fold_right inserir_desc [] l.

(** [SELECT id FROM notas WHERE hash_registro = ?] finds a row. *)
Definition existe_hash (h : string) (b : banco) : bool :=
  existsb (fun n => String.eqb (hash_registro n) h) (notas b).

Definition maior_id (l : list nota) : Z :=
  fold_right (fun n m => Z.max (id n) m) 0 l.

Definition ja : string := "j" ++ String "225" "".

Section Rotas.

Context `{Servicos}.

Definition levantar {A : Type} (e : excecao) : resultado A :=
  Exc (texto_excecao e).

(** The text an f-string prints for a decoded value. *)
Definition texto (j : json) : string :=
  match j with
  | JNull => "None"
  | JBool true => "True"
  | JBool false => "False"
  | JInt n => Py.str_int n
  | JStr s => s
  | _ => repr_outro j
  end.

(** [gerar_hash] (lines 55-57). *)
Definition gerar_hash (empresa data valor : json) : string :=
  md5_hex_utf8 (texto empresa ++ "-" ++ texto data ++ "-" ++ texto valor).

(** [nota[k]]. *)
Definition subscrito (nota : json) (k : string) : resultado json :=
  match nota with
  | JObj o =>
      match dict_get o k with
      | Some v => Ok v
      | None => levantar (KeyError k)
      end
  | _ => levantar (NaoIndexavel nota)
  end.

(** The values a [for] loop takes over a decoded value: the items of a
    list, the keys of a dict, the characters of a text. *)
Definition iterar (j : json) : resultado (list json) :=
  match j with
  | JArr l => Ok l
  | JObj o => Ok (map (fun kv => JStr (fst kv)) o)
  | JStr s => Ok (map (fun c => JStr (String c "")) (list_ascii_of_string s))
  | _ => levantar (NaoIteravel j)
  end.

(** The INSERT of lines 107-116: the values are bound in order, the
    UNIQUE constraint on the hash is checked, the row takes the next
    id. *)
Definition inserir (b : banco) (e d v st : json) (cadastrado : Z)
    (arq : json) (detalhes rec_hash : string) : resultado banco :=
  ge <- guardar_texto e ;;
  gd <- guardar_texto d ;;
  gv <- guardar_texto v ;;
  gst <- guardar_texto st ;;
  garq <- guardar_texto arq ;;
  if existe_hash rec_hash b then levantar IntegrityError
  else
    let novo := Z.max (seq b) (maior_id (notas b)) + 1 in
    Ok {| notas := notas b
                   ++ [{| id := novo; empresa := ge; data := gd;
                          valor := gv; status := gst;
                          is_cadastrado := cadastrado;
                          arquivo_base64 := garq;
                          detalhes_json := detalhes;
                          hash_registro := rec_hash |}];
          seq := novo |}.

(** The loop of lines 100-119, with its two counters. *)
Fixpoint laco_notas (novas_notas : list json) (b : banco)
    (salvas ignoradas : Z) : resultado (banco * Z * Z) :=
  match novas_notas with
  | [] => Ok (b, salvas, ignoradas)
  | nota :: resto =>
      e <- subscrito nota "empresa" ;;
      d <- subscrito nota "data" ;;
      v <- subscrito nota "valor" ;;
      let rec_hash := gerar_hash e d v in
      if existe_hash rec_hash b
      then laco_notas resto b salvas (ignoradas + 1)
      else
        st <- subscrito nota "status" ;;
        cad <- subscrito nota "isCadastrado" ;;
        arq <- subscrito nota "arquivoBase64" ;;
        det <- subscrito nota "detalhesCompletos" ;;
        b' <- inserir b e d v st (if verdadeiro cad then 1 else 0) arq
                (json_dumps det) rec_hash ;;
        laco_notas resto b' (salvas + 1) ignoradas
  end.

(** The message of lines 124-126. *)
Definition mensagem (salvas ignoradas : Z) : string :=
  Py.str_int salvas ++ " notas salvas."
  ++ (if 0 <? ignoradas
      then " (" ++ Py.str_int ignoradas ++ " duplicatas " ++ ja
           ++ " existiam)"
      else "").

(** [save_notas] (lines 91-130) on the body [request.json] delivers, or
    the exception it raises.  The rows inserted are kept by the commit of
    line 121.  When an exception ends the route before it, the route
    neither rolls back nor closes: the connection is left open with its
    INSERTs uncommitted, and it is sqlite that rolls them back when the
    connection object is collected, which CPython does when the call
    returns and its frame is released.  The second component is the
    table from then on: it is the table as it was.  While an abandoned
    connection is still alive it holds the write lock, and a save or an
    update from another connection answers 500 with ['database is
    locked'] after the busy timeout; that interval is not part of this
    state, and the properties below are about requests served outside
    it. *)
Definition save_notas (request_json : resultado json) (b : banco)
  : resposta * banco :=
  match (novas_notas <- request_json ;;
         itens <- iterar novas_notas ;;
         laco_notas itens b 0 0) with
  | Ok (b', salvas, ignoradas) =>
      (Salvo (mensagem salvas ignoradas) ignoradas, b')
  | Exc e => (Erro e, b)
  end.

(** The dictionary of a row (lines 74-83). *)
Definition dicionario (row : nota) : resultado Saida.t :=
  det <- (if String.eqb (detalhes_json row) "" then Ok (JObj [])
          else json_loads (detalhes_json row)) ;;
  Ok {| Saida.id := id row;
        Saida.empresa := empresa row;
        Saida.data := data row;
        Saida.valor := valor row;
        Saida.status := status row;
        Saida.isCadastrado := negb (is_cadastrado row =? 0);
        Saida.arquivoBase64 := arquivo_base64 row;
        Saida.detalhesCompletos := det |}.

Fixpoint laco_rows (rows : list nota) (notas : list Saida.t)
  : resultado (list Saida.t) :=
  match rows with
  | [] => Ok notas
  | row :: resto =>
      d <- dicionario row ;;
      laco_rows resto (notas ++ [d])
  end.

(** [get_notas] (lines 63-87). *)
Definition get_notas (b : banco) : resposta :=
  match laco_rows (ordenar_desc (notas b)) [] with
  | Ok l => Lista l
  | Exc e => Erro e
  end.

(** The UPDATE of line 139: the rows whose id equals the bound text take
    the flag. *)
Definition atualizar (b : banco) (flag : Z) (id_url : string) : banco :=
  {| notas :=
       map (fun n =>
              match inteiro_do_texto id_url with
              | Some k =>
                  if k =? id n
                  then {| id := id n; empresa := empresa n; data := data n;
                          valor := valor n; status := status n;
                          is_cadastrado := flag;
                          arquivo_base64 := arquivo_base64 n;
                          detalhes_json := detalhes_json n;
                          hash_registro := hash_registro n |}
                  else n
              | None => n
              end) (notas b);
     seq := seq b |}.

(** [update_nota] (lines 134-144); [id_url] is the text of the URL. *)
Definition update_nota (id_url : string) (request_json : resultado json)
    (b : banco) : resposta * banco :=
  match (dados <- request_json ;;
         cad <- subscrito dados "isCadastrado" ;;
         Ok (if verdadeiro cad then 1 else 0)) with
  | Ok flag => (Mensagem "Status atualizado!", atualizar b flag id_url)
  | Exc e => (Erro e, b)
  end.

End Rotas.

(** ** Vocabulary of the properties of the store *)

(** The ids grow along the rows, above [piso]. *)
Fixpoint ids_crescentes (piso : Z) (l : list nota) : Prop :=
  match l with
  | [] => True
  | n :: r => piso < id n /\ ids_crescentes (id n) r
  end.

(** The state the routes keep: positive ids growing in insertion order
    and not above the remembered one, and pairwise distinct hashes. *)
Definition integro (b : banco) : Prop :=
  ids_crescentes 0 (notas b)
  /\ Forall (fun n => id n <= seq b) (notas b)
  /\ NoDup (map hash_registro (notas b)).

(** Two rows that differ at most by the registration flag. *)
Definition mesma_nota (n m : nota) : Prop :=
  id n = id m /\ empresa n = empresa m /\ data n = data m
  /\ valor n = valor m /\ status n = status m
  /\ arquivo_base64 n = arquivo_base64 m
  /\ detalhes_json n = detalhes_json m
  /\ hash_registro n = hash_registro m.

(** The text [gerar_hash] digests for the three fields of a note. *)
Definition texto_chave `{Servicos} (e d v : json) : string :=
  texto e ++ "-" ++ texto d ++ "-" ++ texto v.

(** The note has its three key fields and a row of the table carries
    their hash. *)
Definition chave_guardada `{Servicos} (b : banco) (nota : json) : Prop :=
  exists e d v,
    subscrito nota "empresa" = Ok e /\ subscrito nota "data" = Ok d
    /\ subscrito nota "valor" = Ok v
    /\ existe_hash (gerar_hash e d v) b = true.

(** The listed dictionary [d] with the registration flag [c]. *)
Definition com_cadastro (c : bool) (d : Saida.t) : Saida.t :=
  {| Saida.id := Saida.id d;
     Saida.empresa := Saida.empresa d;
     Saida.data := Saida.data d;
     Saida.valor := Saida.valor d;
     Saida.status := Saida.status d;
     Saida.isCadastrado := c;
     Saida.arquivoBase64 := Saida.arquivoBase64 d;
     Saida.detalhesCompletos := Saida.detalhesCompletos d |}.

(** ** Sample data *)

Definition servicos_exemplo : Servicos :=
  {| md5_hex_utf8 := fun s => s;
     repr_outro := fun _ => "?";
     json_dumps := fun _ => "{}";
     json_loads := fun _ => Ok (JObj []);
     guardar_texto := fun j =>
       match j with
       | JStr s => Ok (SText s)
       | JNull => Ok SNull
       | _ => Exc "Error binding parameter"
       end;
     inteiro_do_texto := fun s =>
       if digit_group s then Some (Py.digits_value s) else None;
     texto_excecao := fun _ => "erro" |}.

Definition nota_exemplo (e d v : string) : json :=
  JObj [("empresa", JStr e); ("data", JStr d); ("valor", JStr v);
        ("status", JStr "Emitida"); ("isCadastrado", JBool false);
        ("arquivoBase64", JStr "UEsDBA=="); ("detalhesCompletos", JObj [])].

Definition banco_vazio : banco := init_db None.

(** A batch of three notes, the second one repeating the first, and the
    table after it is saved. *)
Definition lote_exemplo : json :=
  JArr [nota_exemplo "ACME" "01/01/2024" "R$ 10,00";
        nota_exemplo "ACME" "01/01/2024" "R$ 10,00";
        nota_exemplo "Beta" "02/01/2024" "R$ 5,00"].

Definition banco_exemplo : banco :=
  snd (save_notas (H := servicos_exemplo) (Ok lote_exemplo) banco_vazio).

End Banco.

(* ================================================================== *)
(** * Facts on the text primitives *)
(* ================================================================== *)

Module PyFacts.

#[local] Arguments Ascii.eqb : simpl never.

Lemma str_app_assoc (a b c : string) : (a ++ b) ++ c = a ++ (b ++ c).
Proof. induction a as [|x a IH]; simpl; [reflexivity | now rewrite IH]. Qed.

Lemma str_app_nil_r (a : string) : a ++ "" = a.
Proof. induction a as [|x a IH]; simpl; [reflexivity | now rewrite IH]. Qed.

Lemma all_chars_app p a b :
  all_chars p (a ++ b) = all_chars p a && all_chars p b.
Proof.
  induction a as [|x a IH]; simpl; [reflexivity |].
  now rewrite IH, andb_assoc.
Qed.

Lemma all_chars_impl (p q : ascii -> bool) s :
  (forall c, p c = true -> q c = true) ->
  all_chars p s = true -> all_chars q s = true.
Proof.
  intros Hpq; induction s as [|x s IH]; simpl; [reflexivity |].
  intros Hx; apply andb_true_iff in Hx as [Hx Hs].
  now rewrite (Hpq _ Hx), IH.
Qed.

Lemma prefix_empty s : prefix "" s = true.
Proof. now destruct s. Qed.

Lemma prefix_cons a p b s :
  prefix (String a p) (String b s) = Ascii.eqb a b && prefix p s.
Proof.
  cbn [prefix]. destruct (ascii_dec a b) as [->|Hne].
  - now rewrite Ascii.eqb_refl.
  - apply Ascii.eqb_neq in Hne. now rewrite Hne.
Qed.

Lemma replace_from_cons old new c r :
  Py.replace_from old new O (String c r)
  = if prefix old (String c r)
    then new ++ Py.replace_from old new (Nat.pred (String.length old)) r
    else String c (Py.replace_from old new O r).
Proof. reflexivity. Qed.

(** Replacing a one-character pattern is [subst_char]. *)
Lemma replace_char c new s :
  Py.replace (String c "") new s = subst_char c new s.
Proof.
  unfold Py.replace.
  induction s as [|a s IH]; [reflexivity |].
  rewrite replace_from_cons, prefix_cons, prefix_empty, andb_true_r.
  cbn [subst_char String.length Nat.pred]. now rewrite IH.
Qed.

Lemma subst_char_app c new a b :
  subst_char c new (a ++ b) = subst_char c new a ++ subst_char c new b.
Proof.
  induction a as [|x a IH]; simpl; [reflexivity |].
  destruct (Ascii.eqb c x); rewrite IH;
    [now rewrite str_app_assoc | reflexivity].
Qed.

Lemma subst_char_absent c new s :
  all_chars (fun a => negb (Ascii.eqb c a)) s = true ->
  subst_char c new s = s.
Proof.
  induction s as [|x s IH]; simpl; [reflexivity |].
  intros Hx; apply andb_true_iff in Hx as [Hx Hs].
  apply negb_true_iff in Hx. rewrite Hx. now rewrite IH.
Qed.

(** Once replaced by a text that does not hold it, a character is gone. *)
Lemma subst_char_gone c new s :
  all_chars (fun a => negb (Ascii.eqb c a)) new = true ->
  all_chars (fun a => negb (Ascii.eqb c a)) (subst_char c new s) = true.
Proof.
  intros Hnew. induction s as [|x s IH]; cbn [subst_char all_chars];
    [reflexivity |].
  destruct (Ascii.eqb c x) eqn:Hx.
  - now rewrite all_chars_app, Hnew, IH.
  - cbn [all_chars]. now rewrite Hx, IH.
Qed.

(** The two-character pattern ['R$'] and the texts without [R]. *)
Lemma replace_RS_app a b :
  all_chars (fun c => negb (Ascii.eqb "R" c)) a = true ->
  Py.replace "R$" "" (a ++ b) = a ++ Py.replace "R$" "" b.
Proof.
  unfold Py.replace.
  induction a as [|x a IH]; [reflexivity |].
  cbn [all_chars append].
  intros Hx; apply andb_true_iff in Hx as [Hx Hs].
  apply negb_true_iff in Hx.
  rewrite replace_from_cons, prefix_cons, Hx. cbn [andb].
  now rewrite IH.
Qed.

Lemma replace_RS_absent s :
  all_chars (fun a => negb (Ascii.eqb "R" a)) s = true ->
  Py.replace "R$" "" s = s.
Proof.
  intros Hs. rewrite <- (str_app_nil_r s) at 1.
  now rewrite replace_RS_app, str_app_nil_r.
Qed.

Lemma replace_RS_head s :
  Py.replace "R$" "" ("R$" ++ s) = Py.replace "R$" "" s.
Proof.
  unfold Py.replace. cbn [append].
  rewrite replace_from_cons, !prefix_cons, prefix_empty, !Ascii.eqb_refl.
  reflexivity.
Qed.

(** Stripping. *)
Lemma lstrip_app sp ws s :
  all_chars sp ws = true ->
  Py.lstrip_with sp (ws ++ s) = Py.lstrip_with sp s.
Proof.
  induction ws as [|x ws IH]; simpl; [reflexivity |].
  intros Hx; apply andb_true_iff in Hx as [Hx Hs].
  now rewrite Hx, IH.
Qed.



Lemma rstrip_none sp s :
  all_chars (fun c => negb (sp c)) s = true -> Py.rstrip_with sp s = s.
Proof.
  induction s as [|x s IH]; simpl; [reflexivity |].
  intros Hx; apply andb_true_iff in Hx as [Hx Hs].
  rewrite (IH Hs). apply negb_true_iff in Hx.
  destruct s; [now rewrite Hx | reflexivity].
Qed.

Lemma lstrip_none sp s :
  all_chars (fun c => negb (sp c)) s = true -> Py.lstrip_with sp s = s.
Proof.
  destruct s as [|x s]; simpl; [reflexivity |].
  intros Hx; apply andb_true_iff in Hx as [Hx _].
  apply negb_true_iff in Hx. now rewrite Hx.
Qed.

(** The slice [s[:n]] is a prefix of [s] of length [min n (len s)]. *)
Lemma slice_to_length n s :
  String.length (Py.slice_to n s) = Nat.min n (String.length s).
Proof.
  revert s; induction n as [|n IH]; intros [|c r]; simpl; try reflexivity.
  now rewrite IH.
Qed.

Lemma slice_to_prefix n s : exists rest, s = Py.slice_to n s ++ rest.
Proof.
  revert s; induction n as [|n IH]; intros s.
  - exists s. now destruct s.
  - destruct s as [|c r]; [now exists "" |].
    destruct (IH r) as (rest & Hr). exists rest. simpl. now rewrite <- Hr.
Qed.




End PyFacts.

(* ================================================================== *)
(** * Facts on [float(str)] and on the cleaning of currency texts *)
(* ================================================================== *)

Module MoedaFacts.

Import PyFacts.

#[local] Arguments Ascii.eqb : simpl never.

Lemma to_ascii_id s :
  all_chars (fun c => Py.ord c <? 127) s = true -> PyFloat.to_ascii s = s.
Proof.
  induction s as [|x s IH]; cbn [all_chars PyFloat.to_ascii];
    [reflexivity |].
  intros Hx; apply andb_true_iff in Hx as [Hx Hs].
  now rewrite Hx, IH.
Qed.

Lemma drop_underscores_id prev s :
  Ascii.eqb prev "_" = false ->
  all_chars (fun c => negb (Ascii.eqb c "_")) s = true ->
  PyFloat.drop_underscores prev s = Some s.
Proof.
  revert prev.
  induction s as [|x s IH]; intros prev Hp;
    cbn [all_chars PyFloat.drop_underscores].
  - now rewrite Hp.
  - intros Hx; apply andb_true_iff in Hx as [Hx Hs].
    apply negb_true_iff in Hx. rewrite Hx, Hp. cbn [andb].
    now rewrite (IH x Hx Hs).
Qed.

Lemma span_digits_app ds rest :
  all_chars Py.isdigit ds = true -> no_digit_head rest = true ->
  Py.span_digits (ds ++ rest) = (ds, rest).
Proof.
  intros Hds Hrest.
  induction ds as [|x ds IH]; cbn [append all_chars] in *.
  - destruct rest as [|c r]; [reflexivity |].
    cbn [Py.span_digits no_digit_head] in *.
    apply negb_true_iff in Hrest. now rewrite Hrest.
  - apply andb_true_iff in Hds as [Hx Hs].
    cbn [Py.span_digits]. now rewrite Hx, (IH Hs).
Qed.

Lemma read_sign_digit c r :
  Py.isdigit c = true ->
  PyFloat.read_sign (String c r) = (false, String c r).
Proof. by_char c. Qed.




Lemma digit_group_spec g :
  digit_group g = true ->
  (exists c r, g = String c r) /\ all_chars Py.isdigit g = true.
Proof.
  unfold digit_group. intros Hg; apply andb_true_iff in Hg as [Hne Hd].
  split; [| assumption].
  destruct g as [|c r]; [discriminate | now exists c, r].
Qed.





End MoedaFacts.

(* ================================================================== *)
(** * Facts on the texts [float] accepts *)
(* ================================================================== *)

Module FloatFacts.
Import PyFacts.
#[local] Arguments Ascii.eqb : simpl never.



(** ** What the stages of [float] accept *)

Lemma span_digits_spec s ds rest :
  Py.span_digits s = (ds, rest) ->
  s = ds ++ rest /\ all_chars Py.isdigit ds = true.
Proof.
  revert ds rest. induction s as [|c s IH]; intros ds rest; cbn [Py.span_digits].
  - intros [= <- <-]. now split.
  - destruct (Py.isdigit c) eqn:Hc.
    + destruct (Py.span_digits s) as [ds' rest'].
      intros [= <- <-]. destruct (IH ds' rest' eq_refl) as [-> Hd].
      cbn [append all_chars]. now rewrite Hc, Hd.
    + intros [= <- <-]. now split.
Qed.



















(** ** What the cleaning keeps *)








End FloatFacts.

(* ================================================================== *)
(** * Decimal digits *)
(* ================================================================== *)

Module DigitFacts.
Import PyFacts.

Lemma digit_char_spec d :
  0 <= d < 10 ->
  Py.isdigit (Py.digit_char d) = true /\ Py.digit_value (Py.digit_char d) = d.
Proof.
  intros Hd.
  assert (Hc : d = 0 \/ d = 1 \/ d = 2 \/ d = 3 \/ d = 4 \/ d = 5 \/ d = 6
               \/ d = 7 \/ d = 8 \/ d = 9) by lia.
  repeat (destruct Hc as [-> | Hc]; [now split |]). subst d. now split.
Qed.

Lemma digits_value_from_app a s t :
  Py.digits_value_from a (s ++ t)
  = Py.digits_value_from (Py.digits_value_from a s) t.
Proof.
  revert a. induction s as [|c s IH]; intros a; cbn; [reflexivity |].
  apply IH.
Qed.

Lemma digits_value_from_shift a s :
  Py.digits_value_from a s
  = a * 10 ^ Z.of_nat (String.length s) + Py.digits_value s.
Proof.
  unfold Py.digits_value. revert a.
  induction s as [|c s IH]; intros a.
  - cbn. lia.
  - cbn [Py.digits_value_from String.length]. rewrite IH, (IH (10 * 0 + _)).
    rewrite Nat2Z.inj_succ, Z.pow_succ_r by lia. lia.
Qed.

(** What the digit loop writes in front of [acc]: the decimal writing of
    [n], most significant digit first, without leading zero. *)
Lemma digits_fuel_spec k :
  forall n acc,
    0 <= n < 2 ^ Z.of_nat (S k) ->
    exists ds,
      Py.digits_fuel (S k) n acc = ds ++ acc
      /\ all_chars Py.isdigit ds = true
      /\ (0 < String.length ds)%nat
      /\ Py.digits_value ds = n
      /\ n < 10 ^ Z.of_nat (String.length ds)
      /\ (n < 10 -> String.length ds = 1%nat)
      /\ (10 <= n -> 10 ^ Z.of_nat (String.length ds - 1) <= n).
Proof.
  induction k as [|k IH]; intros n acc Hn.
  - assert (Hd : 0 <= n mod 10 < 10) by (apply Z.mod_pos_bound; lia).
    destruct (digit_char_spec _ Hd) as [Hdig Hval].
    change (2 ^ Z.of_nat 1) with 2 in Hn.
    cbn [Py.digits_fuel].
    destruct (n <? 10) eqn:Hlt; [| apply Z.ltb_ge in Hlt; lia].
    exists (String (Py.digit_char (n mod 10)) "").
    cbn [append all_chars String.length]. rewrite Hdig.
    unfold Py.digits_value. cbn [Py.digits_value_from]. rewrite Hval.
    rewrite Z.mod_small by lia.
    repeat split; try reflexivity; try lia.
  - assert (Hd : 0 <= n mod 10 < 10) by (apply Z.mod_pos_bound; lia).
    destruct (digit_char_spec _ Hd) as [Hdig Hval].
    remember (S k) as k1. cbn [Py.digits_fuel]. subst k1.
    destruct (n <? 10) eqn:Hlt.
    + apply Z.ltb_lt in Hlt.
      exists (String (Py.digit_char (n mod 10)) "").
      cbn [append all_chars String.length]. rewrite Hdig.
      unfold Py.digits_value. cbn [Py.digits_value_from]. rewrite Hval.
      rewrite Z.mod_small by lia.
      repeat split; try reflexivity; try lia.
    + apply Z.ltb_ge in Hlt.
      assert (Hq : 0 <= n / 10 < 2 ^ Z.of_nat (S k)).
      { split; [apply Z.div_pos; lia |].
        apply Z.div_lt_upper_bound; [lia |].
        rewrite (Nat2Z.inj_succ (S k)), Z.pow_succ_r in Hn by lia. lia. }
      destruct (IH (n / 10) (String (Py.digit_char (n mod 10)) acc) Hq)
        as (ds & Hds & Hall & Hlen & Hv & Hup & Hone & Hlow).
      exists (ds ++ String (Py.digit_char (n mod 10)) "").
      rewrite Hds, str_app_assoc. cbn [append].
      split; [reflexivity |].
      rewrite all_chars_app, Hall. cbn [all_chars]. rewrite Hdig.
      split; [reflexivity |].
      assert (Hl : String.length (ds ++ String (Py.digit_char (n mod 10)) "")
                   = S (String.length ds)).
      { clear. induction ds as [|c ds IHd]; cbn; [reflexivity |].
        now rewrite IHd. }
      rewrite Hl.
      split; [lia |].
      split.
      { unfold Py.digits_value. rewrite digits_value_from_app.
        cbn [Py.digits_value_from]. fold (Py.digits_value ds).
        rewrite Hv, Hval. pose proof (Z.div_mod n 10). lia. }
      rewrite Nat2Z.inj_succ, Z.pow_succ_r by lia.
      split; [pose proof (Z.div_mod n 10); lia |].
      split; [lia |].
      intros _. replace (S (String.length ds) - 1)%nat
        with (String.length ds) by lia.
      destruct (Z.lt_ge_cases (n / 10) 10) as [Hs | Hb].
      * pose proof (Z.div_mod n 10).
        rewrite (Hone Hs). change (10 ^ Z.of_nat 1) with 10. lia.
      * specialize (Hlow Hb).
        replace (Z.of_nat (String.length ds))
          with (Z.succ (Z.of_nat (String.length ds - 1))) by lia.
        rewrite Z.pow_succ_r by lia. pose proof (Z.div_mod n 10). lia.
Qed.

(** The decimal writing of a natural number: digits only, at least one,
    and the number can be read back from it. *)
Lemma digits_spec n :
  0 <= n ->
  all_chars Py.isdigit (Py.digits n) = true
  /\ (0 < String.length (Py.digits n))%nat
  /\ Py.digits_value (Py.digits n) = n
  /\ n < 10 ^ Z.of_nat (String.length (Py.digits n))
  /\ (n < 10 -> String.length (Py.digits n) = 1%nat)
  /\ (10 <= n -> 10 ^ Z.of_nat (String.length (Py.digits n) - 1) <= n).
Proof.
  intros Hn. unfold Py.digits.
  assert (Hb : 0 <= n < 2 ^ Z.of_nat (S (Z.to_nat (Z.log2 n)))).
  { split; [assumption |].
    rewrite Nat2Z.inj_succ, Z2Nat.id by apply Z.log2_nonneg.
    destruct (Z.eq_dec n 0) as [-> | Hz]; [reflexivity |].
    apply Z.log2_spec. lia. }
  destruct (digits_fuel_spec _ n "" Hb) as (ds & -> & H1 & H2 & H3 & H4).
  rewrite str_app_nil_r. repeat split; tauto.
Qed.

(** Length of [digits n] against powers of ten. *)
Lemma digits_length_le n k :
  0 <= n < 10 ^ Z.of_nat k -> (1 <= k)%nat ->
  (String.length (Py.digits n) <= k)%nat.
Proof.
  intros [Hn Hk] H1.
  destruct (digits_spec n Hn) as (_ & Hpos & _ & _ & Hone & Hlow).
  destruct (Z_lt_le_dec n 10) as [Hs|Hb].
  - rewrite (Hone Hs). exact H1.
  - specialize (Hlow Hb).
    destruct (le_lt_dec (String.length (Py.digits n)) k) as [Hle|Hgt];
      [exact Hle | exfalso].
    assert (10 ^ Z.of_nat k <= 10 ^ Z.of_nat (String.length (Py.digits n) - 1)).
    { apply Z.pow_le_mono_r; lia. }
    lia.
Qed.

Lemma digits_length_gt n k :
  10 ^ Z.of_nat k <= n -> (k < String.length (Py.digits n))%nat.
Proof.
  intros Hk.
  assert (Hn : 0 <= n).
  { pose proof (Z.pow_nonneg 10 (Z.of_nat k)). lia. }
  destruct (digits_spec n Hn) as (_ & _ & _ & Hup & _).
  destruct (le_lt_dec (String.length (Py.digits n)) k) as [Hle|Hgt];
    [exfalso | exact Hgt].
  assert (10 ^ Z.of_nat (String.length (Py.digits n)) <= 10 ^ Z.of_nat k).
  { apply Z.pow_le_mono_r; lia. }
  lia.
Qed.

End DigitFacts.

(* ================================================================== *)
(** * Signs *)
(* ================================================================== *)

Module SinalFacts.
Import PyFacts MoedaFacts FloatFacts DigitFacts.
#[local] Arguments Ascii.eqb : simpl never.

(** ** The sign of a rounded float *)









(** ** What the cleaning and the parser keep *)

Section Mantido.

Variable p : ascii -> bool.





Hypothesis Hponto : p "." = true.
Hypothesis Hbranco : p " " = true.
Hypothesis Hinterr : p "?" = true.




End Mantido.














End SinalFacts.

(** ** Cleaning of a currency text, step by step (line 50) *)

Section Limpeza.

Import PyFacts MoedaFacts.

Variables (esp1 esp2 esp3 g frac : string) (grupos : list string).
Hypothesis Hesp1 : all_chars Py.isspace esp1 = true.
Hypothesis Hesp2 : all_chars Py.isspace esp2 = true.
Hypothesis Hesp3 : all_chars Py.isspace esp3 = true.
Hypothesis Hgrupos : forallb digit_group (g :: grupos) = true.
Hypothesis Hfrac : all_chars Py.isdigit frac = true.

Local Abbreviation pontuado := (String.concat "." (g :: grupos)).
Local Abbreviation inteiro := (String.concat "" (g :: grupos)).









End Limpeza.

(* ================================================================== *)
(** * Properties of the specification *)
(* ================================================================== *)

Section Normalizador.

Context `{Bibliotecas}.

Lemma limpar_moeda_numero v : numero (limpar_moeda v) = true.
Proof.
  destruct v; cbn; try reflexivity;
    match goal with |- context [PyFloat.of_str ?t] =>
      now destruct (PyFloat.of_str t) end.
Qed.




End Normalizador.

Section Formato.

Context `{Bibliotecas}.

(** Below one thousand no group separator is printed, and the display
    form is the intended one. *)
Lemma formatar_moeda_sem_milhar :
  formatar_moeda (VFloat (PyFloat.of_decimal false 1250 (-2)))
  = Ok "R$ 12,50"
  /\ formatar_moeda (VInt 0) = Ok "R$ 0,00"
  /\ formatar_moeda (VFloat (PyFloat.of_decimal false 999 0))
     = Ok "R$ 999,00".
Proof. repeat split; vm_compute; reflexivity. Qed.

(** C2.  Display form of the amounts.  On the float 1234.56 the
    formatting expression of lines 233-235 yields ["R$ 1,234,56"]: the
    thousands separator printed by [',.2f'] stays a comma, since only
    the point is replaced; the text ["R$ 1.234,56"] that the
    specification gives for this value is not produced.  No text the
    expression produces holds a point. *)
Theorem formatar_moeda_milhar :
  limpar_moeda (VStr "R$ 1.234,56") = VFloat f_1234_56
  /\ formatar_moeda (VFloat f_1234_56) = Ok "R$ 1,234,56"
  /\ formatar_moeda (VFloat f_1234_56) <> Ok "R$ 1.234,56"
  /\ forall v s, formatar_moeda v = Ok s ->
       all_chars (fun a => negb (Ascii.eqb "." a)) s = true.
Proof.
  split; [vm_compute; reflexivity |].
  split; [vm_compute; reflexivity |].
  split; [vm_compute; discriminate |].
  intros v s. unfold formatar_moeda.
  destruct (to_float v) as [f|e]; cbn [bind]; [| discriminate].
  intros [= <-]. rewrite PyFacts.replace_char.
  now apply PyFacts.subst_char_gone.
Qed.

End Formato.

Section Valores.

Context `{Bibliotecas}.

Lemma posicao_ausente k cols :
  contem k cols = false -> posicao k cols = None.
Proof.
  induction cols as [|c cols IH]; cbn; [reflexivity |].
  destruct (String.eqb k c); cbn; [discriminate |].
  intros Hc. now rewrite (IH Hc).
Qed.

Lemma row_get_ausente cols row k default :
  contem k cols = false -> row_get cols row k default = default.
Proof. intros Hc. unfold row_get. now rewrite (posicao_ausente _ _ Hc). Qed.





End Valores.

Section Linha.

Context `{Bibliotecas}.

Lemma bind_ok {A B : Type} (r : resultado A) (k : A -> resultado B) b :
  bind r k = Ok b -> exists a, r = Ok a /\ k a = Ok b.
Proof. destruct r as [a|e]; cbn; [now exists a | discriminate]. Qed.

Lemma atribuir_ok ws coord v ws' :
  atribuir ws coord v = Ok ws' -> ws' = (coord, v) :: ws.
Proof.
  unfold atribuir. destruct (vincular v); [discriminate |].
  now intros [= <-].
Qed.

(** The cells of the payment line and of the net total. *)
Lemma montar_planilha_celulas cols index row item ws :
  montar_planilha cols index row item = Ok ws ->
  celula ws "A15" = Some (VStr (descricao cols row))
  /\ celula ws "C15" = Some (val_desc cols row)
  /\ celula ws "D15" = Some (val_devido cols row)
  /\ exists liquido,
       py_sub (val_devido cols row) (val_desc cols row) = Ok liquido
       /\ celula ws "D17" = Some liquido.
Proof.
  unfold montar_planilha. intros Hm.
  do 22 (let w := fresh "ws" in
         let Hw := fresh "Hws" in
         apply bind_ok in Hm as (w & Hw & Hm);
         apply atribuir_ok in Hw; subst w).
  apply bind_ok in Hm as (liquido & Hsub & Hm).
  apply atribuir_ok in Hm. subst ws.
  repeat split; try reflexivity.
  exists liquido. now split.
Qed.

(** The fields of the record of a row that was processed, and its
    worksheet. *)
Lemma processar_linha_ok cols m d index row a1 a2 item ws :
  processar_linha cols m d index row a1 a2 = Ok (item, ws) ->
  temp_id item = index
  /\ nome_arquivo item = montar_nome_arquivo index (nome_cliente cols row)
  /\ respFin item = nome_cliente cols row
  /\ cpf item = py_or (row_get cols row "CPF/CNPJ" VNone)
                  (py_or (row_get cols row "CPF" VNone) (VStr "-"))
  /\ cpfResp item = row_get cols row "CPF Resp"
                      (row_get cols row "CPF/CNPJ" (VStr "-"))
  /\ titulo item = row_get cols row Titulo (VStr Servico)
  /\ especie item = row_get cols row Especie (VStr "NF-e")
  /\ data item = data_emissao cols row a1 m d
  /\ formatar_moeda (val_devido cols row) = Ok (vDevido item)
  /\ formatar_moeda (val_receb cols row) = Ok (vReceb item)
  /\ formatar_moeda (val_desc cols row) = Ok (vDesc item)
  /\ (exists item0, montar_planilha cols index row item0 = Ok ws)
  /\ salvar_base64 ws = Ok (arquivo item).
Proof.
  unfold processar_linha, montar_item. intros Hp.
  apply bind_ok in Hp as (item0 & Hitem & Hp).
  apply bind_ok in Hitem as (vd & Hvd & Hitem).
  apply bind_ok in Hitem as (vr & Hvr & Hitem).
  apply bind_ok in Hitem as (vs & Hvs & Hitem).
  injection Hitem as <-.
  apply bind_ok in Hp as (ws0 & Hws & Hp).
  apply bind_ok in Hp as (b64 & Hsave & Hp).
  injection Hp as <- <-. cbn.
  repeat split; try assumption.
  eexists; eassumption.
Qed.

(** What the rendered document of a processed row shows: the description
    built at line 284 and the difference of the two amounts. *)
Lemma processar_linha_documento cols m d index row a1 a2 item ws :
  processar_linha cols m d index row a1 a2 = Ok (item, ws) ->
  celula ws "A15" = Some (VStr (descricao cols row))
  /\ exists liquido,
       py_sub (val_devido cols row) (val_desc cols row) = Ok liquido
       /\ celula ws "D17" = Some liquido.
Proof.
  intros Hp. apply processar_linha_ok in Hp.
  destruct Hp as (_ & _ & _ & _ & _ & _ & _ & _ & _ & _ & _ & Hws & _).
  destruct Hws as (item0 & Hws).
  apply montar_planilha_celulas in Hws as (HA & _ & _ & HD).
  now split.
Qed.

Lemma row_get_presente cols row k d1 d2 :
  contem k cols = true -> row_get cols row k d1 = row_get cols row k d2.
Proof.
  unfold row_get. destruct (posicao k cols) eqn:Hp; [reflexivity |].
  intros Hc. exfalso. revert Hc Hp.
  induction cols as [|c cols IH]; cbn; [discriminate |].
  destruct (String.eqb k c); cbn; [discriminate |].
  destruct (posicao k cols); [discriminate | auto].
Qed.

(** With both columns in the table, the description of the document is
    made of the species and the title of the record. *)
Lemma descricao_colunas_presentes cols m d index row a1 a2 item ws :
  contem Especie cols = true -> contem Titulo cols = true ->
  processar_linha cols m d index row a1 a2 = Ok (item, ws) ->
  descricao cols row = str (especie item) ++ " - " ++ str (titulo item).
Proof.
  intros He Ht Hp. apply processar_linha_ok in Hp.
  destruct Hp as (_ & _ & _ & _ & _ & Htit & Hesp & _).
  rewrite Htit, Hesp. unfold descricao.
  now rewrite (row_get_presente _ _ _ (VStr Servico) (VStr "NF-e") He),
    (row_get_presente _ _ _ (VStr "") (VStr Servico) Ht).
Qed.

(** C7.  Description and net total of the rendered document.  For a row
    of a table that has neither the species nor the title column, the
    description cell of the document is the text of line 284 with its own
    placeholders, ['Servico - '] (with c-cedilla), while the record
    carries the species ['NF-e'] and the title ['Servico']; the net total
    cell is the difference of the two amounts. *)
Theorem descricao_sem_colunas m d index a1 a2 item ws :
  processar_linha [] m d index [] a1 a2 = Ok (item, ws) ->
  celula ws "A15" = Some (VStr (Servico ++ " - "))
  /\ especie item = VStr "NF-e"
  /\ titulo item = VStr Servico
  /\ VStr (Servico ++ " - ")
     <> VStr (str (especie item) ++ " - " ++ str (titulo item))
  /\ celula ws "D17" = Some (VInt 0).
Proof.
  intros Hp.
  destruct (processar_linha_documento _ _ _ _ _ _ _ _ _ Hp)
    as (HA & liquido & Hsub & HD).
  apply processar_linha_ok in Hp.
  destruct Hp as (_ & _ & _ & _ & _ & Htit & Hesp & _).
  cbn in Hsub. injection Hsub as <-.
  rewrite Htit, Hesp. repeat split; try assumption.
  cbn. discriminate.
Qed.

End Linha.

Section Resolucao.

Context `{Bibliotecas}.

(** The first loop returns the cell of the first candidate, in the order
    of the list, that is a column of the table with a non-null cell. *)
Lemma laco_buscas_primeiro cols row antes b depois nome :
  forallb (fun x => negb (achado cols row x)) antes = true ->
  achado cols row b = true ->
  laco_buscas cols row (antes ++ b :: depois)%list nome
  = row_get cols row b VNone.
Proof.
  unfold achado. intros Hantes Hb.
  induction antes as [|x antes IH]; cbn [app laco_buscas forallb] in *.
  - now rewrite Hb.
  - apply andb_true_iff in Hantes as [Hx Hantes].
    apply negb_true_iff in Hx. rewrite Hx. now apply IH.
Qed.

Lemma laco_buscas_nenhum cols row bs nome :
  forallb (fun x => negb (achado cols row x)) bs = true ->
  laco_buscas cols row bs nome = nome.
Proof.
  unfold achado. induction bs as [|x bs IH]; cbn [laco_buscas forallb];
    [reflexivity |].
  intros Hx; apply andb_true_iff in Hx as [Hx Hbs].
  apply negb_true_iff in Hx. rewrite Hx. now apply IH.
Qed.

(** A value found by the first loop that is not the text ['Consumidor']
    is the customer name; the second loop is not run. *)
Lemma nome_cliente_busca_exata cols row antes b depois :
  buscas = (antes ++ b :: depois)%list ->
  forallb (fun x => negb (achado cols row x)) antes = true ->
  achado cols row b = true ->
  eq_str (row_get cols row b VNone) "Consumidor" = false ->
  nome_cliente cols row = row_get cols row b VNone.
Proof.
  intros Hbs Hantes Hb Hne. unfold nome_cliente. rewrite Hbs.
  rewrite (laco_buscas_primeiro _ _ _ _ _ _ Hantes Hb). now rewrite Hne.
Qed.

(** When the first loop finds nothing, the name is what the second loop
    gives. *)
Lemma nome_cliente_segunda_passagem cols row :
  forallb (fun x => negb (achado cols row x)) buscas = true ->
  nome_cliente cols row
  = laco_colunas cols row cols (VStr "Consumidor").
Proof.
  intros Hn. unfold nome_cliente.
  now rewrite (laco_buscas_nenhum _ _ _ _ Hn).
Qed.

(** C4.  Customer name.  In the table with headers ['RESP FIN'] and
    ['Nome'], on the row whose cells are ['Joao'] and ['Consumidor'], the
    first loop stops at the candidate ['Nome'], present and non-null,
    with the value ['Consumidor']; the test of line 214 then compares
    that value with the placeholder, the second loop runs, and the name
    returned is ['Joao'], the cell of the header ['RESP FIN'] that no
    exact candidate names. *)
Theorem nome_cliente_sentinela :
  let cols := ["RESP FIN"; "Nome"] in
  let row := [VStr "Joao"; VStr "Consumidor"] in
  forallb (fun x => negb (achado cols row x)) ["Resp. Fin"; "Resp Fin"; "Resp. Fin."]
  = true
  /\ achado cols row "Nome" = true
  /\ laco_buscas cols row buscas (VStr "Consumidor") = VStr "Consumidor"
  /\ nome_cliente cols row = VStr "Joao"
  /\ nome_cliente cols row <> row_get cols row "Nome" VNone.
Proof.
  cbv zeta. repeat split; try (vm_compute; reflexivity).
  vm_compute. discriminate.
Qed.

(** Without its own column, the tax id of the responsible is the cell of
    ['CPF/CNPJ'], or ['-'] when the table has no such column; it is the
    tax id of the record when that cell is true for [or]. *)
Lemma cpfResp_ausente cols m d index row a1 a2 item ws :
  contem "CPF Resp" cols = false ->
  processar_linha cols m d index row a1 a2 = Ok (item, ws) ->
  cpfResp item = row_get cols row "CPF/CNPJ" (VStr "-")
  /\ (truthy (row_get cols row "CPF/CNPJ" VNone) = true ->
      cpfResp item = cpf item)
  /\ (contem "CPF/CNPJ" cols = false -> contem "CPF" cols = false ->
      cpfResp item = cpf item).
Proof.
  intros Hc Hp. apply processar_linha_ok in Hp.
  destruct Hp as (_ & _ & _ & Hcpf & Hresp & _).
  rewrite Hresp, Hcpf, (row_get_ausente _ _ _ _ Hc).
  split; [reflexivity | split].
  - intros Ht. unfold py_or at 1. rewrite Ht.
    destruct (contem "CPF/CNPJ" cols) eqn:Hk.
    + now apply row_get_presente.
    + rewrite (row_get_ausente _ _ _ VNone Hk) in Ht. discriminate.
  - intros Hk Hk'.
    now rewrite !(row_get_ausente _ _ "CPF/CNPJ" _ Hk),
      (row_get_ausente _ _ "CPF" _ Hk').
Qed.

(** C5.  Tax id of the responsible.  On a row of a table whose only
    column is ['CPF'], the record has the tax id of that column, while
    the tax id of the responsible, read at line 237 from ['CPF Resp'] and
    then from ['CPF/CNPJ'] only, is the placeholder ['-']. *)
Theorem cpfResp_so_cpf m d index a1 a2 item ws :
  processar_linha ["CPF"] m d index [VStr "12345678900"] a1 a2
  = Ok (item, ws) ->
  contem "CPF Resp" ["CPF"] = false
  /\ cpf item = VStr "12345678900"
  /\ cpfResp item = VStr "-"
  /\ cpfResp item <> cpf item.
Proof.
  intros Hp. apply processar_linha_ok in Hp.
  destruct Hp as (_ & _ & _ & Hcpf & Hresp & _).
  rewrite Hcpf, Hresp. repeat split; try reflexivity.
  vm_compute. discriminate.
Qed.

End Resolucao.

Section Lote.

Context `{Bibliotecas}.

(** ** The loop *)

Lemma laco_linhas_ok cols indice m d relogio rows :
  forall i feitos out,
    laco_linhas cols indice m d relogio i rows feitos = Ok out ->
    exists novos,
      out = (feitos ++ novos)%list
      /\ List.length novos = List.length rows
      /\ forall j row, nth_error rows j = Some row ->
           exists item ws,
             linha_em cols indice m d relogio (i + j) row = Ok (item, ws)
             /\ nth_error novos j = Some item.
Proof.
  induction rows as [|row rows IH]; intros i feitos out Hrun.
  - cbn in Hrun. injection Hrun as <-. exists []. rewrite app_nil_r.
    repeat split. intros [|j] r Hj; discriminate.
  - cbn [laco_linhas] in Hrun.
    apply bind_ok in Hrun as ([item ws] & Hrow & Hrest).
    apply IH in Hrest as (novos & -> & Hlen & Hnth).
    exists (item :: novos). rewrite <- app_assoc. cbn [fst app].
    repeat split; [cbn; now rewrite Hlen |].
    intros [|j] r Hj.
    + cbn in Hj. injection Hj as <-. exists item, ws.
      unfold linha_em. rewrite Nat.add_0_r. now split.
    + cbn in Hj. destruct (Hnth j r Hj) as (it & w & Hit & Hn).
      exists it, w. replace (i + S j)%nat with (S i + j)%nat by lia.
      now split.
Qed.

Lemma laco_linhas_exc cols indice m d relogio rows :
  forall i feitos j row e,
    nth_error rows j = Some row ->
    linha_em cols indice m d relogio (i + j) row = Exc e ->
    exists e', laco_linhas cols indice m d relogio i rows feitos = Exc e'.
Proof.
  induction rows as [|r rows IH]; intros i feitos j row e Hj Hexc.
  - destruct j; discriminate.
  - cbn [laco_linhas]. destruct j as [|j].
    + cbn in Hj. injection Hj as ->. unfold linha_em in Hexc.
      rewrite Nat.add_0_r in Hexc. rewrite Hexc. now exists e.
    + cbn in Hj.
      destruct (processar_linha cols m d (indice i) r _ _) as [p|e0];
        cbn [bind]; [| now exists e0].
      apply (IH (S i) _ j row e Hj).
      now replace (S i + j)%nat with (i + S j)%nat by lia.
Qed.

(** The loop returns when every iteration does. *)
Lemma laco_linhas_total cols indice m d relogio rows :
  forall i feitos,
    (forall j row, nth_error rows j = Some row ->
       exists p, linha_em cols indice m d relogio (i + j) row = Ok p) ->
    exists out, laco_linhas cols indice m d relogio i rows feitos = Ok out.
Proof.
  induction rows as [|r rows IH]; intros i feitos Hall.
  - now exists feitos.
  - cbn [laco_linhas].
    destruct (Hall O r eq_refl) as (p & Hp). unfold linha_em in Hp.
    rewrite Nat.add_0_r in Hp. rewrite Hp. cbn [bind].
    apply IH. intros j row Hj.
    replace (S i + j)%nat with (i + S j)%nat by lia. now apply Hall.
Qed.

(** ** The route *)

Lemma jsonify_ok itens out :
  jsonify itens = Ok out ->
  out = itens /\ forallb item_serializavel itens = true.
Proof.
  unfold jsonify. destruct (forallb item_serializavel itens);
    [| discriminate].
  intros [= <-]. now split.
Qed.

(** The route answers with JSON as soon as the table is read, every
    iteration returns and no record holds a numpy integer or boolean. *)
Lemma processar_notas_retorna req relogio file df :
  dict_get (files req) "file" = Some file ->
  ler_arquivo file = Ok df ->
  (forall i row, nth_error (linhas df) i = Some row ->
     exists item ws,
       linha_em (map Py.strip (columns df)) (index df)
         (modo_data (form req)) (data_custom (form req)) relogio i row
       = Ok (item, ws)
       /\ item_serializavel item = true) ->
  exists itens, processar_notas req relogio = Json itens.
Proof.
  intros Hf Hdf Hall. unfold processar_notas, corpo.
  rewrite Hf, Hdf. cbn [bind].
  destruct (laco_linhas_total (map Py.strip (columns df)) (index df)
              (modo_data (form req)) (data_custom (form req)) relogio
              (linhas df) O [])
    as (out & Hout).
  { intros j row Hj. destruct (Hall j row Hj) as (item & ws & Hl & _).
    now exists (item, ws). }
  rewrite Hout. cbn [bind]. unfold jsonify.
  assert (Hs : forallb item_serializavel out = true).
  { apply forallb_forall. intros item Hin.
    apply In_nth_error in Hin as (i & Hi).
    apply laco_linhas_ok in Hout as (novos & -> & Hlen & Hnth).
    cbn [app] in Hi.
    assert (Hlt : (i < List.length (linhas df))%nat).
    { rewrite <- Hlen. apply nth_error_Some. now rewrite Hi. }
    destruct (nth_error (linhas df) i) as [row|] eqn:Hrow;
      [| apply nth_error_None in Hrow; lia].
    destruct (Hnth i row Hrow) as (item' & ws' & Hl' & Hi').
    rewrite Hi in Hi'. injection Hi' as <-.
    destruct (Hall i row Hrow) as (item2 & ws2 & Hl2 & Hser).
    cbn [Nat.add] in Hl'. rewrite Hl' in Hl2. now injection Hl2 as <- _. }
  rewrite Hs. now exists out.
Qed.

(** A JSON answer lists, in order, the records of all the rows of the
    table that was read, and each record could be serialised. *)
Lemma processar_notas_json req relogio itens :
  processar_notas req relogio = Json itens ->
  exists file df,
    dict_get (files req) "file" = Some file
    /\ ler_arquivo file = Ok df
    /\ List.length itens = List.length (linhas df)
    /\ forall i row, nth_error (linhas df) i = Some row ->
         exists item ws,
           linha_em (map Py.strip (columns df)) (index df)
             (modo_data (form req)) (data_custom (form req)) relogio i row
           = Ok (item, ws)
           /\ nth_error itens i = Some item.
Proof.
  unfold processar_notas.
  destruct (dict_get (files req) "file") as [file|]; [| discriminate].
  destruct (corpo file (form req) relogio) as [out|e] eqn:Hc;
    [| discriminate].
  intros [= <-]. unfold corpo in Hc.
  apply bind_ok in Hc as (df & Hdf & Hc).
  apply bind_ok in Hc as (feitos & Hloop & Hjson).
  apply jsonify_ok in Hjson as [-> _].
  apply laco_linhas_ok in Hloop as (novos & -> & Hlen & Hnth).
  exists file, df. cbn [app]. repeat split; assumption.
Qed.

(** Each record of a JSON answer is the record of the row at its
    position. *)
Lemma processar_notas_item req relogio itens i item :
  processar_notas req relogio = Json itens ->
  nth_error itens i = Some item ->
  exists df row ws,
    nth_error (linhas df) i = Some row
    /\ linha_em (map Py.strip (columns df)) (index df)
         (modo_data (form req)) (data_custom (form req)) relogio i row
       = Ok (item, ws).
Proof.
  intros Hj Hi.
  apply processar_notas_json in Hj as (file & df & _ & _ & Hlen & Hnth).
  assert (Hlt : (i < List.length (linhas df))%nat).
  { rewrite <- Hlen. apply nth_error_Some. now rewrite Hi. }
  destruct (nth_error (linhas df) i) as [row|] eqn:Hrow;
    [| apply nth_error_None in Hrow; lia].
  destruct (Hnth i row Hrow) as (item' & ws & Hl & Hi').
  rewrite Hi in Hi'. injection Hi' as <-.
  now exists df, row, ws.
Qed.

(** C8.  Order of the output and display name.  A JSON answer has exactly
    one record per row of the table, in the order of the rows.  The
    record of the row at zero-based position [i] carries the index label
    of that row, not its position, the customer name resolved on the
    row, and the display name made of ["NF-"], the decimal writing of
    1000 plus the label, [" - "] and the slice [[:30]] of the text of
    the name, which is its prefix of 30 characters, or the whole text
    when it is shorter.  The display name is the one the specification
    gives when the label of the row is its position, as it is with the
    default index.  It is not on the table that [read_csv] delivers for
    data rows one field longer than the header: with the labels 7 and 9
    the display names are ["NF-1007 - Ana"] and ["NF-1009 - Bia"], not
    ["NF-1000 - Ana"] and ["NF-1001 - Bia"]. *)
Theorem processar_notas_ordem req relogio itens :
  processar_notas req relogio = Json itens ->
  exists file df,
    dict_get (files req) "file" = Some file
    /\ ler_arquivo file = Ok df
    /\ List.length itens = List.length (linhas df)
    /\ (forall i row, nth_error (linhas df) i = Some row ->
          exists item,
            let nome := nome_cliente (map Py.strip (columns df)) row in
            nth_error itens i = Some item
            /\ temp_id item = index df i
            /\ respFin item = nome
            /\ nome_arquivo item
               = "NF-" ++ Py.str_int (1000 + index df i) ++ " - "
                 ++ Py.slice_to 30 (str nome)
            /\ (index df i = Z.of_nat i ->
                nome_arquivo item
                = "NF-" ++ Py.str_int (1000 + Z.of_nat i) ++ " - "
                  ++ Py.slice_to 30 (str nome))
            /\ String.length (Py.slice_to 30 (str nome))
               = Nat.min 30 (String.length (str nome))
            /\ exists resto, str nome = Py.slice_to 30 (str nome) ++ resto)
    /\ (df = tabela_rotulos ->
        map temp_id itens = [7; 9]
        /\ map nome_arquivo itens = ["NF-1007 - Ana"; "NF-1009 - Bia"]
        /\ map nome_arquivo itens <> ["NF-1000 - Ana"; "NF-1001 - Bia"]).
Proof.
  intros Hj.
  apply processar_notas_json in Hj as (file & df & Hf & Hdf & Hlen & Hnth).
  exists file, df.
  split; [assumption |]. split; [assumption |]. split; [assumption |].
  assert (Hrows : forall i row, nth_error (linhas df) i = Some row ->
            exists item,
              nth_error itens i = Some item
              /\ temp_id item = index df i
              /\ respFin item = nome_cliente (map Py.strip (columns df)) row
              /\ nome_arquivo item
                 = "NF-" ++ Py.str_int (1000 + index df i) ++ " - "
                   ++ Py.slice_to 30
                        (str (nome_cliente (map Py.strip (columns df)) row))).
  { intros i row Hrow.
    destruct (Hnth i row Hrow) as (item & ws & Hl & Hi).
    unfold linha_em in Hl. apply processar_linha_ok in Hl.
    destruct Hl as (Hid & Hnome & Hresp & _).
    exists item. repeat split; assumption. }
  split.
  - intros i row Hrow.
    destruct (Hrows i row Hrow) as (item & Hi & Hid & Hresp & Hnome).
    exists item. cbv zeta.
    split; [assumption |]. split; [assumption |]. split; [assumption |].
    split; [assumption |].
    split; [intros Hpos; now rewrite <- Hpos |].
    split; [apply PyFacts.slice_to_length | apply PyFacts.slice_to_prefix].
  - intros ->.
    destruct (Hrows 0%nat _ eq_refl) as (a & Ha & Hida & _ & Hna).
    destruct (Hrows 1%nat _ eq_refl) as (b & Hb & Hidb & _ & Hnb).
    destruct itens as [|a' [|b' [|c' itens]]]; try discriminate Hlen.
    cbn in Ha, Hb. injection Ha as ->. injection Hb as ->.
    cbn [map]. rewrite Hida, Hidb, Hna, Hnb.
    split; [reflexivity |]. split; [reflexivity | discriminate].
Qed.

(** C9.  All or nothing.  The answer of the route is either the JSON list
    of the records of all the rows of the table, or one error message
    with status 400 or 500 and no record; and when the iteration of any
    single row raises, the answer is an error with status 500. *)
Theorem processar_notas_tudo_ou_nada req relogio :
  ((exists itens file df,
      processar_notas req relogio = Json itens
      /\ dict_get (files req) "file" = Some file
      /\ ler_arquivo file = Ok df
      /\ List.length itens = List.length (linhas df))
   \/ (exists e status,
         processar_notas req relogio = ErroHttp e status
         /\ (status = 400 \/ status = 500)))
  /\ (forall file df i row e,
        dict_get (files req) "file" = Some file ->
        ler_arquivo file = Ok df ->
        nth_error (linhas df) i = Some row ->
        linha_em (map Py.strip (columns df)) (index df)
          (modo_data (form req)) (data_custom (form req)) relogio i row
        = Exc e ->
        exists e', processar_notas req relogio = ErroHttp e' 500).
Proof.
  split.
  - destruct (processar_notas req relogio) as [itens|e status] eqn:Hr.
    + left. apply processar_notas_json in Hr
        as (file & df & Hf & Hdf & Hlen & _).
      now exists itens, file, df.
    + right. exists e, status. split; [reflexivity |].
      unfold processar_notas in Hr.
      destruct (dict_get (files req) "file") as [file|].
      * destruct (corpo file (form req) relogio); [discriminate |].
        injection Hr as _ <-. now right.
      * injection Hr as _ <-. now left.
  - intros file df i row e Hf Hdf Hrow Hexc.
    unfold processar_notas, corpo. rewrite Hf, Hdf. cbn [bind].
    destruct (laco_linhas_exc _ _ _ _ relogio (linhas df) O [] i row e
                Hrow Hexc) as (e' & He').
    rewrite He'. now exists e'.
Qed.

(** ** Date policy *)

Lemma data_emissao_padrao cols row agora m d :
  (m <> "escolher" /\ m <> "venda")
  \/ (m = "escolher" /\ (d = "" \/ Datetime.strptime_Ymd d = None)) ->
  data_emissao cols row agora m d = Datetime.strftime_dmY agora.
Proof.
  unfold data_emissao. intros [[He Hv] | [-> Hd]].
  - apply String.eqb_neq in He, Hv. now rewrite He, Hv.
  - destruct Hd as [-> | Hd]; [reflexivity |].
    rewrite String.eqb_refl, Hd. cbn [andb].
    now destruct (negb (d =? "")%string).
Qed.

(** The iteration depends on the date mode through the emission date
    only. *)
Lemma laco_linhas_mesma_data cols indice m d m' d' relogio rows :
  (forall row agora,
     data_emissao cols row agora m d = data_emissao cols row agora m' d') ->
  forall i feitos,
    laco_linhas cols indice m d relogio i rows feitos
    = laco_linhas cols indice m' d' relogio i rows feitos.
Proof.
  intros Hd. induction rows as [|row rows IH]; intros i feitos;
    [reflexivity |].
  cbn [laco_linhas]. unfold processar_linha. rewrite Hd.
  destruct (montar_item cols (indice i) row _ _) as [item|e];
    cbn [bind]; [| reflexivity].
  destruct (montar_planilha cols (indice i) row item) as [ws|e];
    cbn [bind]; [| reflexivity].
  destruct (salvar_base64 ws) as [b|e]; cbn [bind]; [| reflexivity].
  apply IH.
Qed.

(** When the date policy gives the current date on every row, the answer
    is the answer of the default mode, and each record is dated by the
    clock reading of its iteration. *)
Lemma processar_notas_data_padrao req relogio :
  (forall cols row agora,
     data_emissao cols row agora (modo_data (form req))
       (data_custom (form req)) = Datetime.strftime_dmY agora) ->
  processar_notas req relogio = processar_notas (sem_modo req) relogio
  /\ forall itens i item,
       processar_notas req relogio = Json itens ->
       nth_error itens i = Some item ->
       data item = Datetime.strftime_dmY (relogio (2 * i)%nat).
Proof.
  intros Hd. split.
  - unfold processar_notas, sem_modo, corpo. cbn [files form].
    destruct (dict_get (files req) "file") as [file|]; [| reflexivity].
    destruct (ler_arquivo file) as [df|e]; cbn [bind]; [| reflexivity].
    rewrite (laco_linhas_mesma_data _ _ _ _ (modo_data [])
               (data_custom []));
      [reflexivity |].
    intros row agora. now rewrite Hd.
  - intros itens i item Hj Hi.
    destruct (processar_notas_item _ _ _ _ _ Hj Hi)
      as (df & row & ws & _ & Hl).
    unfold linha_em in Hl. apply processar_linha_ok in Hl.
    destruct Hl as (_ & _ & _ & _ & _ & _ & _ & Hdata & _).
    now rewrite Hdata, Hd.
Qed.

(** ** Dates in the form YYYY-MM-DD *)

Lemma days_in_month_max y m : Datetime.days_in_month y m <= 31.
Proof.
  unfold Datetime.days_in_month.
  destruct (m =? 2); [destruct (Datetime.is_leap y); lia |].
  destruct ((m =? 4) || (m =? 6) || (m =? 9) || (m =? 11)); lia.
Qed.

Lemma valid_date_bounds y m d :
  Datetime.valid_date y m d = true ->
  1 <= y <= 9999 /\ 1 <= m <= 12 /\ 1 <= d <= 31.
Proof.
  unfold Datetime.valid_date. intros Hv.
  repeat (apply andb_true_iff in Hv as [Hv ?]).
  pose proof (days_in_month_max y m).
  repeat match goal with
         | Hx : (_ <=? _) = true |- _ => apply Z.leb_le in Hx
         end.
  lia.
Qed.

(** The year on four digits. *)
Lemma zfill_4 y :
  0 <= y < 10 ^ Z.of_nat 4 ->
  exists a b c d,
    Py.zfill 4 (Py.digits y) = String a (String b (String c (String d "")))
    /\ Py.isdigit a && Py.isdigit b && Py.isdigit c && Py.isdigit d = true
    /\ Py.digits_value (String a (String b (String c (String d "")))) = y.
Proof.
  intros [Hy Hy'].
  destruct (DigitFacts.digits_spec y Hy) as (Hd & Hpos & Hv & _).
  pose proof (DigitFacts.digits_length_le y 4 (conj Hy Hy')
                ltac:(auto with arith)) as Hle.
  unfold Py.zfill.
  destruct (Py.digits y) as [|a [|b [|c [|d [|x rest]]]]] eqn:Hdig;
    cbn [String.length] in *; try lia;
    cbn [Nat.sub Py.zeros append]; cbn [all_chars] in Hd;
    repeat (apply andb_true_iff in Hd as [? Hd]);
    unfold Py.digits_value in *; cbn [Py.digits_value_from] in *.
  all: change (Py.isdigit "0") with true;
    change (Py.digit_value "0") with 0.
  - exists "0"%char, "0"%char, "0"%char, a.
    split; [reflexivity |]. change (Py.isdigit "0") with true.
    change (Py.digit_value "0") with 0.
    split; [rewrite !andb_true_l; assumption | lia].
  - exists "0"%char, "0"%char, a, b.
    split; [reflexivity |]. change (Py.isdigit "0") with true.
    change (Py.digit_value "0") with 0.
    split; [| lia].
    rewrite !andb_true_l.
    repeat match goal with
           | Hx : Py.isdigit _ = true |- _ => rewrite Hx; clear Hx
           end.
    reflexivity.
  - exists "0"%char, a, b, c.
    split; [reflexivity |]. change (Py.isdigit "0") with true.
    change (Py.digit_value "0") with 0.
    split; [| lia].
    rewrite !andb_true_l.
    repeat match goal with
           | Hx : Py.isdigit _ = true |- _ => rewrite Hx; clear Hx
           end.
    reflexivity.
  - exists a, b, c, d.
    split; [reflexivity |].
    split; [| lia].
    repeat match goal with
           | Hx : Py.isdigit _ = true |- _ => rewrite Hx; clear Hx
           end.
    reflexivity.
Qed.

(** Month and day on two digits each, after the year. *)
Lemma match_mes_dia (y m d : Z) :
  1 <= m <= 12 -> 1 <= d <= 31 ->
  Datetime.re_literal "-"
    (Datetime.re_alts Datetime.re_m (fun m' =>
       Datetime.re_literal "-"
         (Datetime.re_alts Datetime.re_d (fun d' r => Some (y, m', d', r)))))
    ("-" ++ Py.zfill 2 (Py.digits m) ++ "-" ++ Py.zfill 2 (Py.digits d))
  = Some (y, m, d, "").
Proof.
  intros Hm Hd.
  destruct m as [|pm|pm]; try lia.
  destruct d as [|pd|pd]; try lia.
  do 4 (try destruct pm as [pm|pm|]; try lia);
    do 5 (try destruct pd as [pd|pd|]; try lia); reflexivity.
Qed.

(** A date that exists, written YYYY-MM-DD, is parsed, and printed back
    as DD/MM/YYYY with the same day, month and year. *)
Lemma strptime_data_iso y m d :
  Datetime.valid_date y m d = true ->
  Datetime.strptime_Ymd (data_iso y m d) = Some (Datetime.mk y m d 0 0 0 0)
  /\ Datetime.strftime_dmY (Datetime.mk y m d 0 0 0 0) = data_br y m d.
Proof.
  intros Hv. destruct (valid_date_bounds _ _ _ Hv) as (Hy & Hm & Hd).
  split.
  - destruct (zfill_4 y) as (a & b & c & e & Hz & Hdig & Hval);
      [change (10 ^ Z.of_nat 4) with 10000; lia |].
    unfold Datetime.strptime_Ymd, Datetime.match_Ymd, data_iso.
    rewrite Hz. cbn [append Datetime.re_Y]. rewrite Hdig, Hval.
    pose proof (match_mes_dia y m d Hm Hd) as Hmd.
    cbn [append] in Hmd. rewrite Hmd. now rewrite Hv.
  - unfold Datetime.strftime_dmY, data_br, Py.str_int.
    cbn [Datetime.day Datetime.month Datetime.year].
    replace (d <? 0) with false by (symmetry; apply Z.ltb_ge; lia).
    replace (m <? 0) with false by (symmetry; apply Z.ltb_ge; lia).
    replace (y <? 0) with false by (symmetry; apply Z.ltb_ge; lia).
    reflexivity.
Qed.

(** C6.  Custom date policy.  In the mode ['escolher'], when the custom
    date is parsed, the emission date of every row is the parsed date
    printed as DD/MM/YYYY, and a JSON answer has one record per row of
    the table, each one dated so.  Every date that exists, written
    YYYY-MM-DD, is parsed and printed with the same day, month and year:
    ["2024-03-05"] gives ["05/03/2024"].  With a custom date that
    [strptime] rejects, as ["not-a-date"] is, the answer is the answer
    of the default mode on the same table with the same clock: nothing
    is raised for the date, and each record is dated by the clock
    reading of its iteration. *)
Theorem data_emissao_escolher req relogio :
  modo_data (form req) = "escolher" ->
  (forall dt,
     Datetime.strptime_Ymd (data_custom (form req)) = Some dt ->
     (forall cols row agora,
        data_emissao cols row agora (modo_data (form req))
          (data_custom (form req)) = Datetime.strftime_dmY dt)
     /\ forall itens,
          processar_notas req relogio = Json itens ->
          exists file df,
            dict_get (files req) "file" = Some file
            /\ ler_arquivo file = Ok df
            /\ List.length itens = List.length (linhas df)
            /\ forall i row, nth_error (linhas df) i = Some row ->
                 exists item,
                   nth_error itens i = Some item
                   /\ data item = Datetime.strftime_dmY dt)
  /\ (forall y m d,
        Datetime.valid_date y m d = true ->
        Datetime.strptime_Ymd (data_iso y m d)
        = Some (Datetime.mk y m d 0 0 0 0)
        /\ Datetime.strftime_dmY (Datetime.mk y m d 0 0 0 0)
           = data_br y m d)
  /\ (data_iso 2024 3 5 = "2024-03-05" /\ data_br 2024 3 5 = "05/03/2024")
  /\ (Datetime.strptime_Ymd (data_custom (form req)) = None ->
      processar_notas req relogio = processar_notas (sem_modo req) relogio
      /\ forall itens i item,
           processar_notas req relogio = Json itens ->
           nth_error itens i = Some item ->
           data item = Datetime.strftime_dmY (relogio (2 * i)%nat))
  /\ Datetime.strptime_Ymd "not-a-date" = None.
Proof.
  intros Hm.
  split; [| split; [| split; [| split; [| reflexivity]]]].
  - intros dt Hdt.
    assert (Hd : forall cols row agora,
               data_emissao cols row agora (modo_data (form req))
                 (data_custom (form req)) = Datetime.strftime_dmY dt).
    { intros cols row agora. unfold data_emissao. rewrite Hm, Hdt.
      destruct (data_custom (form req)) as [|c r];
        [discriminate Hdt | reflexivity]. }
    split; [exact Hd |].
    intros itens Hj.
    apply processar_notas_json in Hj
      as (file & df & Hf & Hdf & Hlen & Hnth).
    exists file, df.
    split; [assumption |]. split; [assumption |]. split; [assumption |].
    intros i row Hrow.
    destruct (Hnth i row Hrow) as (item & ws & Hl & Hi).
    exists item. split; [assumption |].
    unfold linha_em in Hl. apply processar_linha_ok in Hl.
    destruct Hl as (_ & _ & _ & _ & _ & _ & _ & Hdata & _).
    now rewrite Hdata.
  - exact strptime_data_iso.
  - split; reflexivity.
  - intros Hd. apply processar_notas_data_padrao.
    intros cols row agora. apply data_emissao_padrao.
    right. split; [assumption | now right].
Qed.

(** C10.  Default date policy.  When the date mode is missing from the
    form (it is then ['atual']), or is any text other than ['escolher']
    and ['venda'], or is ['escolher'] with an empty custom date, the
    emission date of every row is the current date in the form
    DD/MM/YYYY: the answer is the answer of the default mode, and each
    record is dated by the clock reading of its iteration.  The dispatch
    is a total function: it raises nothing. *)
Theorem data_emissao_atual req relogio :
  dict_get (form req) "modoData" = None
  \/ (modo_data (form req) <> "escolher" /\ modo_data (form req) <> "venda")
  \/ (modo_data (form req) = "escolher" /\ data_custom (form req) = "") ->
  (dict_get (form req) "modoData" = None -> modo_data (form req) = "atual")
  /\ (forall cols row agora,
        data_emissao cols row agora (modo_data (form req))
          (data_custom (form req)) = Datetime.strftime_dmY agora)
  /\ processar_notas req relogio = processar_notas (sem_modo req) relogio
  /\ forall itens i item,
       processar_notas req relogio = Json itens ->
       nth_error itens i = Some item ->
       data item = Datetime.strftime_dmY (relogio (2 * i)%nat).
Proof.
  intros Hmodo.
  assert (Hfalta : dict_get (form req) "modoData" = None ->
                   modo_data (form req) = "atual").
  { intros Hn. unfold modo_data. now rewrite Hn. }
  assert (Hd : forall cols row agora,
             data_emissao cols row agora (modo_data (form req))
               (data_custom (form req)) = Datetime.strftime_dmY agora).
  { intros cols row agora. apply data_emissao_padrao.
    destruct Hmodo as [Hn | [Hne | [He Hc]]].
    - left. rewrite (Hfalta Hn). split; discriminate.
    - now left.
    - right. split; [assumption | now left]. }
  split; [assumption | split; [assumption |]].
  now apply processar_notas_data_padrao.
Qed.

End Lote.

(* ================================================================== *)
(** * The properties on sample data *)
(* ================================================================== *)



(** [formatar_moeda_milhar] on one million and a half: no point in the
    text. *)
Lemma formatar_moeda_milhar_witness :
  formatar_moeda (VInt 1500000) = Ok "R$ 1,500,000,00"
  /\ all_chars (fun a => negb (Ascii.eqb "." a)) "R$ 1,500,000,00" = true.
Proof.
  split; [reflexivity |].
  exact (proj2 (proj2 (proj2 (formatar_moeda_milhar
                                (H := bibliotecas_exemplo))))
           (VInt 1500000) "R$ 1,500,000,00" eq_refl).
Defined.



(** [cpfResp_so_cpf] on a processed row. *)
Lemma cpfResp_so_cpf_witness :
  exists item ws,
    processar_linha (H := bibliotecas_exemplo) ["CPF"] "atual" "" 0
      [VStr "12345678900"] agora_exemplo agora_exemplo = Ok (item, ws)
    /\ cpf item = VStr "12345678900"
    /\ cpfResp item = VStr "-".
Proof.
  eexists. eexists. split; [reflexivity |].
  refine ((fun P => conj (proj1 (proj2 P)) (proj1 (proj2 (proj2 P))))
            (cpfResp_so_cpf (H := bibliotecas_exemplo) "atual" "" 0
               agora_exemplo agora_exemplo _ _ eq_refl)).
Defined.

(** [descricao_sem_colunas] on a processed row. *)
Lemma descricao_sem_colunas_witness :
  exists item ws,
    processar_linha (H := bibliotecas_exemplo) [] "atual" "" 0 []
      agora_exemplo agora_exemplo = Ok (item, ws)
    /\ celula ws "A15" = Some (VStr (Servico ++ " - "))
    /\ especie item = VStr "NF-e"
    /\ titulo item = VStr Servico.
Proof.
  eexists. eexists. split; [reflexivity |].
  refine ((fun P => conj (proj1 P)
                      (conj (proj1 (proj2 P)) (proj1 (proj2 (proj2 P)))))
            (descricao_sem_colunas (H := bibliotecas_exemplo) "atual" "" 0
               agora_exemplo agora_exemplo _ _ eq_refl)).
Defined.

(** [data_emissao_escolher] on the sample table: with the custom date
    ["2024-03-05"] the answer has two records, both dated
    ["05/03/2024"]; with an invalid custom date the answer is the one of
    the default mode. *)
Lemma data_emissao_escolher_witness :
  (exists itens item0 item1,
     processar_notas (H := bibliotecas_exemplo)
       (requisicao_exemplo "escolher" "2024-03-05") relogio_exemplo
     = Json itens
     /\ List.length itens = 2%nat
     /\ nth_error itens 0 = Some item0 /\ data item0 = "05/03/2024"
     /\ nth_error itens 1 = Some item1 /\ data item1 = "05/03/2024")
  /\ processar_notas (H := bibliotecas_exemplo)
       (requisicao_exemplo "escolher" "not-a-date") relogio_exemplo
     = processar_notas (H := bibliotecas_exemplo)
         (sem_modo (requisicao_exemplo "escolher" "not-a-date"))
         relogio_exemplo.
Proof.
  split.
  - destruct (proj2 (proj1 (data_emissao_escolher (H := bibliotecas_exemplo)
                       (requisicao_exemplo "escolher" "2024-03-05")
                       relogio_exemplo eq_refl)
                       (Datetime.mk 2024 3 5 0 0 0 0) eq_refl)
                _ eq_refl)
      as (file & df & Hf & Hdf & Hlen & Hnth).
    cbn in Hf. injection Hf as <-.
    cbn in Hdf. injection Hdf as <-.
    destruct (Hnth 0%nat _ eq_refl) as (item0 & H0 & Hd0).
    destruct (Hnth 1%nat _ eq_refl) as (item1 & H1 & Hd1).
    eexists. exists item0, item1.
    split; [reflexivity |].
    split; [exact Hlen |].
    split; [exact H0 |]. split; [exact Hd0 |].
    split; [exact H1 | exact Hd1].
  - exact (proj1 (proj1 (proj2 (proj2 (proj2
             (data_emissao_escolher (H := bibliotecas_exemplo)
                (requisicao_exemplo "escolher" "not-a-date")
                relogio_exemplo eq_refl)))) eq_refl)).
Defined.

(** [processar_notas_ordem] on the table whose rows are labelled 7 and
    9: two records, numbered by the labels. *)
Lemma processar_notas_ordem_witness :
  exists itens,
    processar_notas (H := bibliotecas_rotulos)
      (requisicao_exemplo "atual" "") relogio_exemplo = Json itens
    /\ List.length itens = 2%nat
    /\ map temp_id itens = [7; 9]
    /\ map nome_arquivo itens = ["NF-1007 - Ana"; "NF-1009 - Bia"].
Proof.
  eexists. split; [reflexivity |].
  destruct (processar_notas_ordem (H := bibliotecas_rotulos)
              (requisicao_exemplo "atual" "") relogio_exemplo _ eq_refl)
    as (file & df & Hf & Hdf & Hlen & _ & Hrot).
  cbn in Hf. injection Hf as <-.
  cbn in Hdf. injection Hdf as <-.
  split; [exact Hlen |].
  destruct (Hrot eq_refl) as (Hid & Hnome & _).
  split; [exact Hid | exact Hnome].
Defined.

(** [processar_notas_tudo_ou_nada] when the serialisation of the first
    row fails: the answer is an error of status 500. *)
Lemma processar_notas_tudo_ou_nada_witness :
  exists e',
    processar_notas (H := bibliotecas_falha)
      (requisicao_exemplo "atual" "") relogio_exemplo = ErroHttp e' 500.
Proof.
  exact (proj2 (processar_notas_tudo_ou_nada (H := bibliotecas_falha)
                  (requisicao_exemplo "atual" "") relogio_exemplo)
           {| filename := "notas.csv"; conteudo := "" |} tabela_exemplo
           O [VStr "Maria"; VStr "R$ 1.234,56"; VStr "R$ 34,56"]
           "falha ao salvar" eq_refl eq_refl eq_refl eq_refl).
Defined.

(** [data_emissao_atual] without the date mode, with an unknown mode and
    with the mode ['escolher'] and no custom date: the first record is
    dated by the clock. *)
Lemma data_emissao_atual_witness :
  (exists itens item,
     processar_notas (H := bibliotecas_exemplo)
       (sem_modo (requisicao_exemplo "" "")) relogio_exemplo = Json itens
     /\ nth_error itens 0 = Some item
     /\ data item = "04/11/2026")
  /\ data_emissao (H := bibliotecas_exemplo) ["Data"] [VStr "01/02/2020"]
       agora_exemplo "semanal" "2024-03-05" = "04/11/2026"
  /\ data_emissao (H := bibliotecas_exemplo) ["Data"] [VStr "01/02/2020"]
       agora_exemplo "escolher" "" = "04/11/2026".
Proof.
  split; [| split].
  - eexists. eexists. split; [reflexivity |]. split; [reflexivity |].
    exact (proj2 (proj2 (proj2
             (data_emissao_atual (H := bibliotecas_exemplo)
                (sem_modo (requisicao_exemplo "" "")) relogio_exemplo
                (or_introl eq_refl)))) _ O _ eq_refl eq_refl).
  - refine (proj1 (proj2
              (data_emissao_atual (H := bibliotecas_exemplo)
                 (requisicao_exemplo "semanal" "2024-03-05")
                 relogio_exemplo _)) _ _ _).
    right. left. split; discriminate.
  - refine (proj1 (proj2
              (data_emissao_atual (H := bibliotecas_exemplo)
                 (requisicao_exemplo "escolher" "") relogio_exemplo _))
              _ _ _).
    right. right. split; reflexivity.
Defined.

(* ================================================================== *)
(** * Reading the display form back (lines 46-52 and 233-235) *)
(* ================================================================== *)

Module VoltaFacts.
Import PyFacts MoedaFacts FloatFacts DigitFacts.
#[local] Arguments Ascii.eqb : simpl never.

Lemma str_length_app a b :
  String.length (a ++ b) = (String.length a + String.length b)%nat.
Proof. induction a as [|c a IH]; cbn; [reflexivity | now rewrite IH]. Qed.

Lemma signed_class c :
  signed c = true ->
  negb (Ascii.eqb "R" c) && negb (Ascii.eqb "," c)
  && negb (Ascii.eqb c "_") && negb (Py.isspace c)
  && negb (Py.c_isspace c) && (Py.ord c <? 127) = true.
Proof. unfold signed, plain. by_char c. Qed.

Lemma grouped_class c :
  grouped c = true ->
  negb (Ascii.eqb "R" c) && negb (Ascii.eqb "." c) && negb (Py.isspace c)
  = true.
Proof. unfold grouped. by_char c. Qed.

Lemma plain_not_digit c :
  plain c = true -> Py.isdigit c = false -> c = "."%char.
Proof.
  unfold plain. intros Hp Hd. rewrite Hd in Hp. cbn in Hp.
  apply Ascii.eqb_eq in Hp. now subst.
Qed.

Lemma span_digits_rest s ds rest :
  Py.span_digits s = (ds, rest) -> no_digit_head rest = true.
Proof.
  revert ds rest. induction s as [|c s IH]; intros ds rest;
    cbn [Py.span_digits].
  - now intros [= <- <-].
  - destruct (Py.isdigit c) eqn:Hc.
    + destruct (Py.span_digits s) as [ds' rest'] eqn:Hs.
      intros [= <- <-]. now apply (IH ds').
    + intros [= <- <-]. cbn. now rewrite Hc.
Qed.

(** [float] on an optional minus sign, digits, a point and a plain
    rest: the rest must be digits to the end. *)
Lemma of_str_signed neg c ip rest :
  all_chars Py.isdigit (String c ip) = true ->
  all_chars plain rest = true ->
  PyFloat.of_str (PyFloat.sign_text neg ++ String c ip ++ "." ++ rest)
  = match snd (Py.span_digits rest) with
    | EmptyString =>
        Some (PyFloat.of_decimal neg (Py.digits_value (String c ip ++ rest))
                (- Z.of_nat (String.length rest)))
    | _ => None
    end.
Proof.
  intros Hip Hrest.
  set (t := PyFloat.sign_text neg ++ String c ip ++ "." ++ rest).
  assert (Hall : all_chars signed t = true).
  { unfold t. rewrite !all_chars_app.
    rewrite (all_chars_impl Py.isdigit signed (String c ip));
      [| intros x Hx; unfold signed, plain; now rewrite Hx | assumption].
    rewrite (all_chars_impl plain signed rest);
      [| intros x Hx; unfold signed; now rewrite Hx | assumption].
    now destruct neg. }
  unfold PyFloat.of_str.
  rewrite to_ascii_id
    by (revert Hall; apply all_chars_impl; class_of signed_class).
  rewrite drop_underscores_id; [| reflexivity |
    revert Hall; apply all_chars_impl; class_of signed_class].
  rewrite lstrip_none
    by (revert Hall; apply all_chars_impl; class_of signed_class).
  rewrite rstrip_none
    by (revert Hall; apply all_chars_impl; class_of signed_class).
  pose proof Hip as Hc. cbn [all_chars] in Hc.
  apply andb_true_iff in Hc as [Hc _].
  assert (Hsign : PyFloat.read_sign t = (neg, String c ip ++ "." ++ rest)).
  { unfold t. destruct neg; [reflexivity |].
    cbn [PyFloat.sign_text append]. now apply read_sign_digit. }
  unfold PyFloat.read_decimal. rewrite Hsign.
  change (String c ip ++ "." ++ rest) with (String c ip ++ String "." rest).
  rewrite (span_digits_app (String c ip) (String "." rest) Hip eq_refl).
  rewrite Ascii.eqb_refl.
  destruct (Py.span_digits rest) as [fp s3] eqn:Hsp.
  pose proof (span_digits_rest _ _ _ Hsp) as Hhead.
  apply span_digits_spec in Hsp as [Hr Hfp].
  cbn [append snd].
  destruct s3 as [|x s3].
  - rewrite str_app_nil_r in Hr. subst fp.
    cbn [PyFloat.read_exponent]. reflexivity.
  - assert (Hx : x = "."%char).
    { apply plain_not_digit.
      - rewrite Hr, all_chars_app in Hrest.
        apply andb_true_iff in Hrest as [_ Hrest]. cbn [all_chars] in Hrest.
        now apply andb_true_iff in Hrest as [Hrest _].
      - cbn in Hhead. now apply negb_true_iff in Hhead. }
    subst x. cbn [PyFloat.read_exponent].
    replace (Ascii.eqb "." "e" || Ascii.eqb "." "E") with false
      by reflexivity.
    reflexivity.
Qed.

(** The two decimals printed by ['.2f']. *)
Lemma zfill_2 r :
  0 <= r < 100 ->
  all_chars Py.isdigit (Py.zfill 2 (Py.digits r)) = true
  /\ String.length (Py.zfill 2 (Py.digits r)) = 2%nat
  /\ forall acc,
       Py.digits_value_from acc (Py.zfill 2 (Py.digits r)) = 100 * acc + r.
Proof.
  intros [Hr Hr'].
  destruct (digits_spec r Hr) as (Hd & Hpos & Hv & _ & Hone & _).
  pose proof (digits_length_le r 2 (conj Hr Hr') (le_S _ _ (le_n 1))) as Hle.
  unfold Py.zfill.
  destruct (Py.digits r) as [|a [|b [|x rest]]] eqn:Hdig;
    cbn [String.length] in *; try lia.
  - cbn [Nat.sub Py.zeros append all_chars String.length].
    split; [cbn [all_chars] in *; now rewrite Hd | split; [reflexivity |]].
    intros acc. unfold Py.digits_value in Hv.
    cbn [Py.digits_value_from] in *.
    change (Py.digit_value "0") with 0. lia.
  - cbn [Nat.sub Py.zeros append].
    split; [exact Hd | split; [reflexivity |]].
    intros acc. unfold Py.digits_value in Hv.
    cbn [Py.digits_value_from] in *. lia.
Qed.

(** Grouping. *)
Lemma group_short ds :
  (String.length ds <= 3)%nat -> PyFloat.group_thousands ds = ds.
Proof.
  destruct ds as [|a [|b [|c [|d r]]]]; cbn [String.length]; intros Hl;
    try reflexivity; lia.
Qed.

Lemma group_grouped ds :
  all_chars Py.isdigit ds = true ->
  all_chars grouped (PyFloat.group_thousands ds) = true.
Proof.
  induction ds as [|c r IH]; [reflexivity |].
  cbn [all_chars PyFloat.group_thousands].
  intros Hc; apply andb_true_iff in Hc as [Hc Hr].
  assert (Hg : grouped c = true) by (unfold grouped; now rewrite Hc).
  destruct ((0 <? String.length r)%nat && (String.length r mod 3 =? 0)%nat);
    cbn [all_chars]; rewrite Hg, (IH Hr); reflexivity.
Qed.

Lemma group_long ds :
  all_chars Py.isdigit ds = true -> (4 <= String.length ds)%nat ->
  exists c ip tail,
    PyFloat.group_thousands ds = String c ip ++ "," ++ tail
    /\ all_chars Py.isdigit (String c ip) = true
    /\ all_chars grouped tail = true.
Proof.
  induction ds as [|c r IH]; cbn [String.length]; [lia |].
  cbn [all_chars]. intros Hc Hl; apply andb_true_iff in Hc as [Hc Hr].
  cbn [PyFloat.group_thousands].
  destruct ((0 <? String.length r)%nat && (String.length r mod 3 =? 0)%nat)
    eqn:Hm.
  - exists c, "", (PyFloat.group_thousands r).
    split; [reflexivity |]. cbn [all_chars]. rewrite Hc.
    split; [reflexivity | now apply group_grouped].
  - assert (Hr4 : (4 <= String.length r)%nat).
    { destruct (String.length r) as [|[|[|[|n]]]] eqn:Hn; try lia.
      cbn in Hm. discriminate. }
    destruct (IH Hr Hr4) as (c' & ip & tail & Hg & Hd & Ht).
    exists c, (String c' ip), tail. rewrite Hg.
    split; [reflexivity |]. split; [| exact Ht].
    cbn [all_chars] in *. now rewrite Hc.
Qed.

Lemma hundredths_nonneg m e : 0 <= PyFloat.hundredths m e.
Proof.
  unfold PyFloat.hundredths.
  destruct (0 <=? e) eqn:He.
  - apply Z.leb_le in He.
    pose proof (Z.pow_pos_nonneg 2 e). lia.
  - apply Z.leb_gt in He.
    assert (Hd : 0 < 2 ^ (- e)) by (apply Z.pow_pos_nonneg; lia).
    unfold PyFloat.div_half_even.
    assert (0 <= Z.pos m * 100 / 2 ^ (- e)) by (apply Z.div_pos; lia).
    destruct (2 * ((Z.pos m * 100) mod 2 ^ (- e)) ?= 2 ^ (- e));
      [destruct (Z.even _) | |]; lia.
Qed.

Section Volta.

Context `{Bibliotecas}.

(** The text [float] receives when [limpar_moeda] is given the display
    form of a number: sign, grouped integer part with points for the
    commas, point, decimals. *)
Lemma texto_limpo_formatado neg g dd :
  all_chars grouped g = true ->
  all_chars Py.isdigit dd = true ->
  texto_limpo (Py.replace "." "," ("R$ " ++ PyFloat.sign_text neg ++ g ++ "." ++ dd))
  = PyFloat.sign_text neg ++ subst_char "," "." g ++ "." ++ dd.
Proof.
  intros Hg Hdd. unfold texto_limpo. rewrite !replace_char.
  set (sg := PyFloat.sign_text neg).
  assert (Hsg : sg = "" \/ sg = "-") by (destruct neg; auto).
  assert (Hsgp : forall new, subst_char "." new sg = sg)
    by (intros new; destruct Hsg as [-> | ->]; reflexivity).
  assert (Hsgc : forall new, subst_char "," new sg = sg)
    by (intros new; destruct Hsg as [-> | ->]; reflexivity).
  assert (Hgp : forall new, subst_char "." new g = g).
  { intros new. apply subst_char_absent. revert Hg.
    apply all_chars_impl. class_of grouped_class. }
  assert (Hdp : forall new, subst_char "." new dd = dd).
  { intros new. apply subst_char_absent. revert Hdd.
    apply all_chars_impl. by_char c. }
  assert (Hdc : forall new, subst_char "," new dd = dd).
  { intros new. apply subst_char_absent. revert Hdd.
    apply all_chars_impl. by_char c. }
  change ("R$ " ++ sg ++ g ++ "." ++ dd)
    with ("R$ " ++ (sg ++ (g ++ ("." ++ dd)))).
  rewrite !subst_char_app, Hsgp, Hgp, Hdp.
  change (subst_char "." "," "R$ ") with "R$ ".
  change (subst_char "." "," ".") with ",".
  change ("R$ " ++ sg ++ g ++ "," ++ dd)
    with ("R$" ++ (" " ++ (sg ++ (g ++ ("," ++ dd))))).
  rewrite replace_RS_head.
  rewrite replace_RS_absent.
  2:{ rewrite !all_chars_app.
      rewrite (all_chars_impl grouped _ g) ;
        [| class_of grouped_class | exact Hg].
      rewrite (all_chars_impl Py.isdigit
                 (fun a => negb (Ascii.eqb "R" a)) dd);
        [| by_char c | exact Hdd].
      destruct Hsg as [-> | ->]; reflexivity. }
  rewrite !subst_char_app, Hsgp, Hgp, Hdp, Hsgc, Hdc.
  change (subst_char "." "" " ") with " ".
  change (subst_char "." "" ",") with ",".
  change (subst_char "," "." " ") with " ".
  change (subst_char "," "." ",") with ".".
  unfold Py.strip. cbn [append Py.lstrip_with].
  change (Py.isspace " ") with true. cbv iota.
  assert (Hns : all_chars (fun c => negb (Py.isspace c))
                  (sg ++ subst_char "," "." g ++ String "." dd) = true).
  { rewrite !all_chars_app. cbn [all_chars].
    rewrite (all_chars_impl Py.isdigit
               (fun a => negb (Py.isspace a)) dd);
      [| by_char c | exact Hdd].
    assert (Hg' : all_chars (fun c => negb (Py.isspace c))
                    (subst_char "," "." g) = true).
    { clear -Hg. induction g as [|x g IH]; [reflexivity |].
      cbn [all_chars subst_char] in *.
      apply andb_true_iff in Hg as [Hx Hg].
      destruct (Ascii.eqb "," x) eqn:Hc.
      - cbn [append all_chars]. now rewrite (IH Hg).
      - cbn [all_chars]. rewrite (IH Hg), andb_true_r.
        apply grouped_class in Hx.
        repeat (apply andb_true_iff in Hx as [Hx ?]); assumption. }
    rewrite Hg'. destruct Hsg as [-> | ->]; reflexivity. }
  rewrite lstrip_none by exact Hns.
  now rewrite rstrip_none by exact Hns.
Qed.


Lemma subst_comma_digits ds :
  all_chars Py.isdigit ds = true -> subst_char "," "." ds = ds.
Proof.
  intros Hd. apply subst_char_absent. revert Hd.
  apply all_chars_impl. by_char c.
Qed.

Lemma subst_comma_plain g :
  all_chars grouped g = true ->
  all_chars plain (subst_char "," "." g) = true.
Proof.
  induction g as [|x g IH]; [reflexivity |].
  cbn [all_chars subst_char]. intros Hx.
  apply andb_true_iff in Hx as [Hx Hg].
  destruct (Ascii.eqb "," x) eqn:Hc.
  - cbn [append all_chars]. now rewrite (IH Hg).
  - cbn [all_chars]. rewrite (IH Hg), andb_true_r.
    unfold grouped in Hx. rewrite Hc, orb_false_r in Hx.
    unfold plain. now rewrite Hx.
Qed.

(** X1.  Reading the display form back.  The display text that
    [formatar_moeda] builds for a float, handed to [limpar_moeda], reads
    as the float nearest to the printed amount when the amount is below
    1000.00 in magnitude, and as 0.0 from 1000.00 on: the group commas
    become points, and [float] rejects a text with two points.  Zeros,
    infinities and NaN are read back as they are. *)
Theorem limpar_moeda_de_formatar_moeda f :
  exists s,
    formatar_moeda (VFloat f) = Ok s
    /\ limpar_moeda (VStr s) = VFloat (ida_e_volta f).
Proof.
  unfold formatar_moeda. cbn [to_float bind].
  eexists; split; [reflexivity |].
  cbn [limpar_moeda str].
  destruct f as [sg | sg | | sg m e].
  - destruct sg; vm_compute; reflexivity.
  - destruct sg; vm_compute; reflexivity.
  - vm_compute; reflexivity.
  - cbn [PyFloat.format_2f ida_e_volta].
    pose proof (hundredths_nonneg m e) as Hc0.
    set (c := PyFloat.hundredths m e) in *.
    assert (Hq0 : 0 <= c / 100) by (apply Z.div_pos; lia).
    assert (Hr : 0 <= c mod 100 < 100) by (apply Z.mod_pos_bound; lia).
    destruct (digits_spec (c / 100) Hq0) as (Hd & Hpos & Hv & _).
    destruct (zfill_2 (c mod 100) Hr) as (Hdd & Hlen & Hval).
    rewrite texto_limpo_formatado;
      [| now apply group_grouped | exact Hdd].
    destruct (c <? 100000) eqn:Hlt.
    + apply Z.ltb_lt in Hlt.
      assert (Hq : 0 <= c / 100 < 10 ^ Z.of_nat 3).
      { split; [exact Hq0 |]. apply Z.div_lt_upper_bound; [lia |].
        change (10 ^ Z.of_nat 3) with 1000. lia. }
      pose proof (digits_length_le _ 3 Hq ltac:(lia)) as Hl.
      rewrite (group_short _ Hl), (subst_comma_digits _ Hd).
      destruct (Py.digits (c / 100)) as [|c0 ip] eqn:Hdig;
        [cbn in Hpos; lia |].
      rewrite (of_str_signed sg c0 ip _ Hd).
      2:{ revert Hdd. apply all_chars_impl.
          intros x Hx. unfold plain. now rewrite Hx. }
      rewrite <- (str_app_nil_r (Py.zfill 2 (Py.digits (c mod 100)))) at 1.
      rewrite (span_digits_app _ "" Hdd eq_refl). cbn [snd].
      rewrite Hlen. unfold Py.digits_value at 1.
      rewrite digits_value_from_app, Hval.
      change (Py.digits_value_from 0 (String c0 ip))
        with (Py.digits_value (String c0 ip)).
      rewrite Hv.
      replace (100 * (c / 100) + c mod 100) with c
        by (rewrite (Z.div_mod c 100) at 1; lia).
      reflexivity.
    + apply Z.ltb_ge in Hlt.
      assert (Hq : 10 ^ Z.of_nat 3 <= c / 100).
      { change (10 ^ Z.of_nat 3) with 1000.
        apply Z.div_le_lower_bound; lia. }
      pose proof (digits_length_gt _ 3 Hq) as Hl.
      destruct (group_long _ Hd Hl) as (c0 & ip & tail & Hg & Hip & Ht).
      rewrite Hg.
      change (String c0 ip ++ "," ++ tail)
        with (String c0 ip ++ ("," ++ tail)).
      rewrite !subst_char_app, (subst_comma_digits _ Hip).
      change (subst_char "," "." ",") with ".".
      rewrite !str_app_assoc.
      set (rest := subst_char "," "." tail
                     ++ "." ++ Py.zfill 2 (Py.digits (c mod 100))).
      assert (Hrest : all_chars plain rest = true).
      { unfold rest. rewrite !all_chars_app, (subst_comma_plain _ Ht).
        rewrite (all_chars_impl Py.isdigit plain
                   (Py.zfill 2 (Py.digits (c mod 100))));
          [reflexivity | | exact Hdd].
        intros x Hx. unfold plain. now rewrite Hx. }
      rewrite (of_str_signed sg c0 ip rest Hip Hrest).
      destruct (Py.span_digits rest) as [fp s3] eqn:Hsp.
      apply span_digits_spec in Hsp as [Hfp Hdig].
      destruct s3 as [|x s3]; [exfalso | reflexivity].
      rewrite str_app_nil_r in Hfp. rewrite <- Hfp in Hdig.
      unfold rest in Hdig. rewrite !all_chars_app in Hdig.
      cbn [all_chars] in Hdig.
      change (Py.isdigit ".") with false in Hdig.
      rewrite andb_false_r in Hdig. discriminate.
Qed.

End Volta.
End VoltaFacts.

(* ================================================================== *)
(** * More on the processing route (lines 149-322) *)
(* ================================================================== *)

Module NotasFacts.
Import PyFacts MoedaFacts FloatFacts DigitFacts VoltaFacts.
#[local] Arguments Ascii.eqb : simpl never.

Section Nome.

Context `{Bibliotecas}.

Lemma contem_In k cols : contem k cols = true -> In k cols.
Proof.
  unfold contem. intros Hc. apply existsb_exists in Hc as (x & Hx & He).
  apply String.eqb_eq in He. now subst.
Qed.



Lemma laco_buscas_origem cols row bs nome :
  laco_buscas cols row bs nome = nome
  \/ exists b, In b bs /\ achado cols row b = true
       /\ laco_buscas cols row bs nome = row_get cols row b VNone.
Proof.
  induction bs as [|b bs IH]; cbn [laco_buscas]; [now left |].
  destruct (contem b cols && notna (row_get cols row b VNone)) eqn:Hb.
  - right. exists b. split; [now left |]. now split.
  - destruct IH as [IH | (x & Hx & Ha & IH)]; [now left |].
    right. exists x. split; [now right |]. now split.
Qed.

Lemma laco_colunas_origem cols row cs nome :
  laco_colunas cols row cs nome = nome
  \/ exists col, In col cs /\ achado_limpo cols row col = true
       /\ laco_colunas cols row cs nome = row_get cols row col VNone.
Proof.
  induction cs as [|c cs IH]; cbn [laco_colunas]; [now left |].
  destruct (contem (limpa c) chaves_limpas
            && notna (row_get cols row c VNone)) eqn:Hc.
  - right. exists c. split; [now left |]. now split.
  - destruct IH as [IH | (x & Hx & Ha & IH)]; [now left |].
    right. exists x. split; [now right |]. now split.
Qed.


(** X3.  Where the customer name comes from.  The name is never a null
    value (None, NaN); it is the text ['Consumidor'] or the cell of a
    column of the table whose label is one of the exact candidates or
    cleans to one of the four keys. *)
Theorem nome_cliente_origem cols row :
  notna (nome_cliente cols row) = true
  /\ (nome_cliente cols row = VStr "Consumidor"
      \/ exists col,
           In col cols
           /\ (In col buscas \/ contem (limpa col) chaves_limpas = true)
           /\ nome_cliente cols row = row_get cols row col VNone).
Proof.
  unfold nome_cliente.
  destruct (laco_buscas_origem cols row buscas (VStr "Consumidor"))
    as [H1 | (b & Hb & Ha & H1)].
  - rewrite H1.
    change (eq_str (VStr "Consumidor") "Consumidor") with true. cbv iota.
    destruct (laco_colunas_origem cols row cols (VStr "Consumidor"))
      as [H2 | (c & Hc & Hac & H2)]; rewrite H2.
    + split; [reflexivity | now left].
    + unfold achado_limpo in Hac. apply andb_true_iff in Hac as [Hk Hnn].
      split; [assumption |]. right. exists c.
      split; [assumption |]. split; [now right | reflexivity].
  - rewrite H1. unfold achado in Ha. apply andb_true_iff in Ha as [Hk Hnn].
    destruct (eq_str (row_get cols row b VNone) "Consumidor") eqn:He.
    + destruct (laco_colunas_origem cols row cols (row_get cols row b VNone))
        as [H2 | (c & Hc & Hac & H2)]; rewrite H2.
      * split; [assumption |]. right. exists b.
        split; [now apply contem_In |]. split; [now left | reflexivity].
      * unfold achado_limpo in Hac.
        apply andb_true_iff in Hac as [Hk' Hnn'].
        split; [assumption |]. right. exists c.
        split; [assumption |]. split; [now right | reflexivity].
    + split; [assumption |]. right. exists b.
      split; [now apply contem_In |]. split; [now left | reflexivity].
Qed.

End Nome.

Section Registro.

Context `{Bibliotecas}.

(** What an iteration that returns has computed: the record before the
    document is attached, the worksheet built from it, and the text of
    the serialised workbook. *)
Lemma processar_linha_partes cols m d index row a1 a2 item ws :
  processar_linha cols m d index row a1 a2 = Ok (item, ws) ->
  exists item0,
    montar_item cols index row (data_emissao cols row a1 m d) a2 = Ok item0
    /\ montar_planilha cols index row item0 = Ok ws
    /\ salvar_base64 ws = Ok (arquivo item)
    /\ temp_id item = temp_id item0 /\ respFin item = respFin item0
    /\ origem item = origem item0 /\ cpf item = cpf item0
    /\ vDevido item = vDevido item0 /\ vDesc item = vDesc item0
    /\ data item = data item0 /\ venc item = venc item0.
Proof.
  unfold processar_linha. intros Hp.
  apply bind_ok in Hp as (item0 & Hitem & Hp).
  apply bind_ok in Hp as (ws0 & Hws & Hp).
  apply bind_ok in Hp as (b64 & Hsave & Hp).
  injection Hp as <- <-. exists item0. cbn.
  repeat (split; [first [assumption | reflexivity] |]). reflexivity.
Qed.

Lemma montar_item_campos cols index row emissao agora item0 :
  montar_item cols index row emissao agora = Ok item0 ->
  temp_id item0 = index
  /\ respFin item0 = nome_cliente cols row
  /\ formatar_moeda (val_devido cols row) = Ok (vDevido item0)
  /\ formatar_moeda (val_desc cols row) = Ok (vDesc item0)
  /\ data item0 = emissao.
Proof.
  unfold montar_item. intros Hitem.
  apply bind_ok in Hitem as (vd & Hvd & Hitem).
  apply bind_ok in Hitem as (vr & Hvr & Hitem).
  apply bind_ok in Hitem as (vs & Hvs & Hitem).
  injection Hitem as <-. cbn. repeat split; assumption.
Qed.

Lemma atribuir_aceite ws coord v ws' :
  atribuir ws coord v = Ok ws' -> vincular v = None.
Proof. unfold atribuir. now destruct (vincular v). Qed.

(** The cells of the worksheet that repeat the record, and the binding
    of every value. *)
Lemma montar_planilha_registro cols index row item0 ws :
  montar_planilha cols index row item0 = Ok ws ->
  celula ws "B4" = Some (VInt (1000 + index))
  /\ celula ws "D4" = Some (VStr (data item0))
  /\ celula ws "B8" = Some (nome_cliente cols row)
  /\ celula ws "B9" = Some (cpf item0)
  /\ celula ws "B10" = Some (origem item0)
  /\ celula ws "B15" = Some (VStr (venc item0))
  /\ celula ws "C15" = Some (val_desc cols row)
  /\ celula ws "D15" = Some (val_devido cols row)
  /\ Forall (fun cv => vincular (snd cv) = None) ws
  /\ NoDup (map fst ws)
  /\ List.length ws = 23%nat.
Proof.
  unfold montar_planilha. intros Hm.
  do 22 (let w := fresh "ws" in
         let Hw := fresh "Hws" in
         apply bind_ok in Hm as (w & Hw & Hm);
         pose proof (atribuir_aceite _ _ _ _ Hw);
         apply atribuir_ok in Hw; subst w).
  apply bind_ok in Hm as (liquido & Hsub & Hm).
  pose proof (atribuir_aceite _ _ _ _ Hm).
  apply atribuir_ok in Hm. subst ws.
  repeat (split; [reflexivity |]).
  split; [repeat (constructor; [assumption |]); constructor |].
  split; [| reflexivity].
  cbn [map fst].
  repeat (constructor;
          [cbn [In]; intros Hin;
           repeat (destruct Hin as [Hin | Hin]; [discriminate Hin |]);
           exact Hin |]).
  constructor.
Qed.

(** X4.  The document agrees with the record.  For a row that was
    processed, the worksheet shows the number 1000 + index of the record
    in B4, its emission date in D4, its customer name in B8, its tax id
    in B9, its origin in B10 and its due date in B15; the cells C15 and
    D15 hold the numbers whose display forms are the fields [vDesc] and
    [vDevido] of the record.  The worksheet has 23 cells with a value,
    at distinct coordinates, and each value was accepted by the
    binding. *)
Theorem planilha_conforme cols m d index row a1 a2 item ws :
  processar_linha cols m d index row a1 a2 = Ok (item, ws) ->
  celula ws "B4" = Some (VInt (1000 + temp_id item))
  /\ celula ws "D4" = Some (VStr (data item))
  /\ celula ws "B8" = Some (respFin item)
  /\ celula ws "B9" = Some (cpf item)
  /\ celula ws "B10" = Some (origem item)
  /\ celula ws "B15" = Some (VStr (venc item))
  /\ (exists c15 d15,
        celula ws "C15" = Some c15 /\ celula ws "D15" = Some d15
        /\ numero c15 = true /\ numero d15 = true
        /\ formatar_moeda c15 = Ok (vDesc item)
        /\ formatar_moeda d15 = Ok (vDevido item))
  /\ Forall (fun cv => vincular (snd cv) = None) ws
  /\ NoDup (map fst ws)
  /\ List.length ws = 23%nat.
Proof.
  intros Hp.
  apply processar_linha_partes in Hp
    as (item0 & Hitem & Hws & _ & Hid & Hresp & Horig & Hcpf & Hvd & Hvs
        & Hdata & Hvenc).
  apply montar_item_campos in Hitem as (Hid0 & Hresp0 & Hfd & Hfs & _).
  apply montar_planilha_registro in Hws
    as (HB4 & HD4 & HB8 & HB9 & HB10 & HB15 & HC15 & HD15 & Hall & Hnd
        & Hlen).
  rewrite Hid, Hid0, Hdata, Hresp, Hresp0, Hcpf, Horig, Hvenc, Hvd, Hvs.
  split; [assumption |]. split; [assumption |]. split; [assumption |].
  split; [assumption |]. split; [assumption |]. split; [assumption |].
  split.
  - exists (val_desc cols row), (val_devido cols row).
    split; [assumption |]. split; [assumption |].
    split; [apply limpar_moeda_numero |].
    split; [apply limpar_moeda_numero |]. now split.
  - split; [assumption |]. now split.
Qed.

(** X5.  The tax id of a record.  It is the cell ['CPF/CNPJ'] when that
    cell is true, else the cell ['CPF'] when that one is true, else the
    text ['-']; it is therefore always a true value.  A float NaN is
    true: an empty ['CPF/CNPJ'] cell, which the reader delivers as NaN,
    is taken as the tax id even when the cell ['CPF'] is filled. *)
Theorem cpf_resolvido cols m d index row a1 a2 item ws :
  processar_linha cols m d index row a1 a2 = Ok (item, ws) ->
  let a := row_get cols row "CPF/CNPJ" VNone in
  let b := row_get cols row "CPF" VNone in
  truthy (cpf item) = true
  /\ (truthy a = true -> cpf item = a)
  /\ (truthy a = false -> truthy b = true -> cpf item = b)
  /\ (truthy a = false -> truthy b = false -> cpf item = VStr "-")
  /\ (a = NaN -> cpf item = NaN).
Proof.
  intros Hp a b. apply processar_linha_ok in Hp.
  destruct Hp as (_ & _ & _ & Hcpf & _).
  fold a b in Hcpf. rewrite Hcpf. unfold py_or.
  split; [| split; [| split; [| split]]].
  - destruct (truthy a) eqn:Ha; [assumption |].
    destruct (truthy b) eqn:Hb; [assumption | reflexivity].
  - now intros ->.
  - now intros -> ->.
  - now intros -> ->.
  - intros ->. reflexivity.
Qed.

End Registro.

Section Datas.

Context `{Bibliotecas}.

Lemma data_emissao_modo_venda cols row agora custom :
  let cel := row_get cols row "Data" VNone in
  (forall dt, contem "Data" cols = true -> cel = VDatetime dt ->
     data_emissao cols row agora "venda" custom = Datetime.strftime_dmY dt)
  /\ (contem "Data" cols = true -> notna cel = true ->
      (forall dt, cel <> VDatetime dt) ->
      data_emissao cols row agora "venda" custom = str cel)
  /\ (contem "Data" cols = false \/ notna cel = false ->
      data_emissao cols row agora "venda" custom
      = Datetime.strftime_dmY agora).
Proof.
  intros cel. unfold data_emissao. fold cel.
  change (String.eqb "venda" "escolher") with false.
  change (String.eqb "venda" "venda") with true. cbv iota. cbn [andb].
  split; [| split].
  - intros dt -> ->. reflexivity.
  - intros -> Hn Hd. rewrite Hn. cbn [andb].
    destruct cel; try reflexivity. now contradiction (Hd d).
  - intros [-> | ->]; [reflexivity | now rewrite andb_false_r].
Qed.

(** X6.  Emission date in mode ['venda'].  In a JSON answer to a request
    whose date mode is ['venda'], the record of row [i] is dated by the
    cell ['Data'] of the row: printed as day/month/year when the cell is
    a datetime, copied as [str] prints it when it is any other non-null
    value (a text is taken as it is, unchecked); when the table has no
    column ['Data'] or the cell is null, the date is the clock reading
    of the iteration.  The custom date of the form plays no part. *)
Theorem data_emissao_venda req relogio itens :
  modo_data (form req) = "venda" ->
  processar_notas req relogio = Json itens ->
  exists file df,
    dict_get (files req) "file" = Some file
    /\ ler_arquivo file = Ok df
    /\ forall i row,
         nth_error (linhas df) i = Some row ->
         exists item,
           nth_error itens i = Some item
           /\ let cols := map Py.strip (columns df) in
              let cel := row_get cols row "Data" VNone in
              (forall dt, contem "Data" cols = true -> cel = VDatetime dt ->
                 data item = Datetime.strftime_dmY dt)
              /\ (contem "Data" cols = true -> notna cel = true ->
                  (forall dt, cel <> VDatetime dt) ->
                  data item = str cel)
              /\ (contem "Data" cols = false \/ notna cel = false ->
                  data item = Datetime.strftime_dmY (relogio (2 * i)%nat)).
Proof.
  intros Hmodo Hj.
  apply processar_notas_json in Hj as (file & df & Hf & Hdf & _ & Hnth).
  exists file, df. split; [assumption |]. split; [assumption |].
  intros i row Hrow.
  destruct (Hnth i row Hrow) as (item & ws & Hl & Hi).
  exists item. split; [assumption |].
  unfold linha_em in Hl. apply processar_linha_ok in Hl.
  destruct Hl as (_ & _ & _ & _ & _ & _ & _ & Hdata & _).
  rewrite Hdata, Hmodo.
  apply data_emissao_modo_venda.
Qed.

End Datas.

Section Nomes.

Context `{Bibliotecas}.

Lemma str_int_app_inj x y r r' :
  no_digit_head r = true -> no_digit_head r' = true ->
  Py.str_int x ++ r = Py.str_int y ++ r' -> x = y.
Proof.
  intros Hr Hr'. unfold Py.str_int.
  assert (Hpos : forall a b, 0 <= a -> 0 <= b ->
            Py.digits a ++ r = Py.digits b ++ r' -> a = b).
  { intros a b Ha Hb He.
    destruct (digits_spec a Ha) as (Hda & _ & Hva & _).
    destruct (digits_spec b Hb) as (Hdb & _ & Hvb & _).
    apply (f_equal Py.span_digits) in He.
    rewrite (span_digits_app _ _ Hda Hr), (span_digits_app _ _ Hdb Hr') in He.
    injection He as He _.
    apply (f_equal Py.digits_value) in He. now rewrite Hva, Hvb in He. }
  assert (Hmix : forall t b s s', 0 <= b ->
            String "-" t ++ s = Py.digits b ++ s' -> False).
  { intros t b s s' Hb He.
    destruct (digits_spec b Hb) as (Hdb & Hlen & _).
    destruct (Py.digits b) as [|c u]; [cbn in Hlen; lia |].
    cbn [append] in He. injection He as Hc _. subst c.
    cbn [all_chars] in Hdb. apply andb_true_iff in Hdb as [Hc _].
    vm_compute in Hc. discriminate Hc. }
  destruct (x <? 0) eqn:Hx; destruct (y <? 0) eqn:Hy; intros He.
  - apply Z.ltb_lt in Hx. apply Z.ltb_lt in Hy.
    cbn [append] in He. injection He as He.
    apply Hpos in He; lia.
  - apply Z.ltb_ge in Hy. exfalso. now apply (Hmix _ _ _ _ Hy He).
  - apply Z.ltb_ge in Hx. exfalso. symmetry in He.
    now apply (Hmix _ _ _ _ Hx He).
  - apply Z.ltb_ge in Hx. apply Z.ltb_ge in Hy. now apply Hpos.
Qed.

Lemma montar_nome_arquivo_inj i j n n' :
  montar_nome_arquivo i n = montar_nome_arquivo j n' -> i = j.
Proof.
  unfold montar_nome_arquivo.
  remember (1000 + i) as x eqn:Hx. remember (1000 + j) as y eqn:Hy.
  intros He. cbn [append] in He. injection He as He.
  apply str_int_app_inj in He; [lia | reflexivity | reflexivity].
Qed.

(** X7.  When display names are distinct.  In a JSON answer, the record
    at position [i] carries the index label of row [i], and two records
    whose rows have different labels never carry the same
    [nome_arquivo], whatever the customer names are; so the records at
    different positions of a table with the default index, where the
    label of a row is its position, have distinct display names.  Two
    records whose rows have the same label, as the rows of a CSV whose
    first fields repeat have, carry the same display name as soon as the
    texts of their customer names agree on their first 30 characters. *)
Theorem nome_arquivo_distintos req relogio itens i j a b :
  processar_notas req relogio = Json itens ->
  nth_error itens i = Some a -> nth_error itens j = Some b ->
  exists file df,
    dict_get (files req) "file" = Some file
    /\ ler_arquivo file = Ok df
    /\ temp_id a = index df i /\ temp_id b = index df j
    /\ (index df i <> index df j -> nome_arquivo a <> nome_arquivo b)
    /\ (index df i = Z.of_nat i -> index df j = Z.of_nat j -> i <> j ->
        nome_arquivo a <> nome_arquivo b)
    /\ (index df i = index df j ->
        Py.slice_to 30 (str (respFin a)) = Py.slice_to 30 (str (respFin b)) ->
        nome_arquivo a = nome_arquivo b).
Proof.
  intros Hj Ha Hb.
  apply processar_notas_json in Hj as (file & df & Hf & Hdf & Hlen & Hnth).
  exists file, df. split; [assumption |]. split; [assumption |].
  assert (Hitem : forall k item, nth_error itens k = Some item ->
            temp_id item = index df k
            /\ nome_arquivo item
               = montar_nome_arquivo (index df k) (respFin item)).
  { intros k item Hk.
    assert (Hlt : (k < List.length (linhas df))%nat).
    { rewrite <- Hlen. apply nth_error_Some. now rewrite Hk. }
    destruct (nth_error (linhas df) k) as [row|] eqn:Hrow;
      [| apply nth_error_None in Hrow; lia].
    destruct (Hnth k row Hrow) as (item' & ws & Hl & Hk').
    rewrite Hk in Hk'. injection Hk' as <-.
    unfold linha_em in Hl. apply processar_linha_ok in Hl.
    destruct Hl as (Hid & Hnome & Hresp & _).
    split; [assumption |]. now rewrite Hnome, Hresp. }
  destruct (Hitem i a Ha) as (Hia & Hna).
  destruct (Hitem j b Hb) as (Hib & Hnb).
  assert (Hdif : index df i <> index df j ->
                 nome_arquivo a <> nome_arquivo b).
  { intros Hne Heq. apply Hne. rewrite Hna, Hnb in Heq.
    now apply montar_nome_arquivo_inj in Heq. }
  split; [assumption |]. split; [assumption |].
  split; [assumption |].
  split.
  - intros Hi Hk Hij. apply Hdif. lia.
  - intros Hlab Hpre. rewrite Hna, Hnb. unfold montar_nome_arquivo.
    now rewrite Hlab, Hpre.
Qed.

End Nomes.

Section Ponto.

Context `{Bibliotecas}.

Lemma digit_plain_class c :
  Py.isdigit c = true ->
  negb (Ascii.eqb "R" c) && negb (Ascii.eqb "," c) && negb (Ascii.eqb "." c)
  && negb (Ascii.eqb c "_") && negb (Py.isspace c)
  && negb (Py.c_isspace c) && (Py.ord c <? 127) = true.
Proof. by_char c. Qed.

(** [float] on a run of digits. *)
Lemma of_str_digits c ds :
  all_chars Py.isdigit (String c ds) = true ->
  PyFloat.of_str (String c ds)
  = Some (PyFloat.of_decimal false (Py.digits_value (String c ds)) 0).
Proof.
  intros Hall. unfold PyFloat.of_str.
  rewrite to_ascii_id
    by (revert Hall; apply all_chars_impl; class_of digit_plain_class).
  rewrite drop_underscores_id; [| reflexivity |
    revert Hall; apply all_chars_impl; class_of digit_plain_class].
  rewrite lstrip_none
    by (revert Hall; apply all_chars_impl; class_of digit_plain_class).
  rewrite rstrip_none
    by (revert Hall; apply all_chars_impl; class_of digit_plain_class).
  pose proof Hall as Hc. cbn [all_chars] in Hc.
  apply andb_true_iff in Hc as [Hc _].
  unfold PyFloat.read_decimal. rewrite (read_sign_digit c _ Hc).
  rewrite <- (str_app_nil_r (String c ds)) at 1.
  rewrite (span_digits_app (String c ds) "" Hall eq_refl).
  rewrite str_app_nil_r. reflexivity.
Qed.

(** X8.  A point is always a thousands separator.  On a text made of
    digits, a point and digits, with or without the currency symbol in
    front, [limpar_moeda] drops the point and reads the integer that all
    the digits spell: ['1234.56'] reads as 123456.0, not as 1234.56. *)
Theorem limpar_moeda_ponto_decimal (simbolo : bool) ip fp :
  digit_group ip = true -> all_chars Py.isdigit fp = true ->
  limpar_moeda (VStr ((if simbolo then "R$ " else "") ++ ip ++ "." ++ fp))
  = VFloat (PyFloat.of_decimal false (Py.digits_value (ip ++ fp)) 0).
Proof.
  intros Hip Hfp. apply digit_group_spec in Hip as ((c & r & ->) & Hip).
  cbn [limpar_moeda str]. unfold texto_limpo.
  assert (Hnum : Py.replace "R$" ""
                   ((if simbolo then "R$ " else "") ++ String c r ++ "." ++ fp)
                 = (if simbolo then " " else "") ++ String c r ++ "." ++ fp).
  { assert (Habs : all_chars (fun a => negb (Ascii.eqb "R" a))
                     (String c r ++ "." ++ fp) = true).
    { rewrite !all_chars_app.
      rewrite (all_chars_impl Py.isdigit _ (String c r));
        [| class_of digit_plain_class | exact Hip].
      rewrite (all_chars_impl Py.isdigit
                 (fun a => negb (Ascii.eqb "R" a)) fp);
        [reflexivity | class_of digit_plain_class | exact Hfp]. }
    destruct simbolo.
    - change ("R$ " ++ String c r ++ "." ++ fp)
        with ("R$" ++ (" " ++ (String c r ++ "." ++ fp))).
      rewrite replace_RS_head.
      apply replace_RS_absent. cbn [append all_chars]. exact Habs.
    - now apply replace_RS_absent. }
  rewrite Hnum, !replace_char.
  assert (Hp : forall ds, all_chars Py.isdigit ds = true ->
                 subst_char "." "" ds = ds).
  { intros ds Hds. apply subst_char_absent. revert Hds.
    apply all_chars_impl. class_of digit_plain_class. }
  assert (Hcm : forall ds, all_chars Py.isdigit ds = true ->
                  subst_char "," "." ds = ds).
  { intros ds Hds. apply subst_char_absent. revert Hds.
    apply all_chars_impl. class_of digit_plain_class. }
  assert (Hdig : all_chars Py.isdigit (String c r ++ fp) = true)
    by now rewrite all_chars_app, Hip, Hfp.
  assert (Hlimpo : Py.strip
                     (subst_char "," "."
                        (subst_char "." ""
                           ((if simbolo then " " else "")
                            ++ String c r ++ "." ++ fp)))
                   = String c r ++ fp).
  { rewrite !subst_char_app, (Hp _ Hip), (Hp _ Hfp), (Hcm _ Hip),
      (Hcm _ Hfp).
    change (subst_char "," "." (subst_char "." "" ".")) with "".
    replace (subst_char "," "." (subst_char "." "" (if simbolo then " " else "")))
      with (if simbolo then " " else "") by now destruct simbolo.
    change ("" ++ fp) with fp.
    unfold Py.strip.
    assert (Hns : all_chars (fun a => negb (Py.isspace a))
                    (String c r ++ fp) = true)
      by (revert Hdig; apply all_chars_impl; class_of digit_plain_class).
    destruct simbolo.
    - rewrite (lstrip_app Py.isspace " " _ eq_refl).
      now rewrite lstrip_none, rstrip_none.
    - change ("" ++ String c r ++ fp) with (String c r ++ fp).
      now rewrite lstrip_none, rstrip_none. }
  rewrite Hlimpo.
  change (String c r ++ fp) with (String c (r ++ fp)) in *.
  now rewrite (of_str_digits _ _ Hdig).
Qed.

End Ponto.

Section Retorno.

Context `{Bibliotecas}.






End Retorno.
End NotasFacts.

(* ================================================================== *)
(** * The store routes (lines 19-144) *)
(* ================================================================== *)

Module BancoFacts.

Import Banco.


Section Fatos.

Context `{Servicos}.

Lemma ligar_ok {A B : Type} (r : resultado A) (k : A -> resultado B) b :
  bind r k = Ok b -> exists a, r = Ok a /\ k a = Ok b.
Proof. destruct r as [a|e]; cbn; [now exists a | discriminate]. Qed.

Lemma existe_hash_In h b :
  existe_hash h b = true <-> In h (map hash_registro (notas b)).
Proof.
  unfold existe_hash. split.
  - intros He. apply existsb_exists in He as (n & Hn & He).
    apply String.eqb_eq in He. apply in_map_iff. exists n. now split.
  - intros Hi. apply in_map_iff in Hi as (n & He & Hn).
    apply existsb_exists. exists n. split; [assumption |].
    now apply String.eqb_eq.
Qed.

Lemma maior_id_acima l n : In n l -> id n <= maior_id l.
Proof.
  induction l as [|m l IH]; [contradiction |].
  change (maior_id (m :: l)) with (Z.max (id m) (maior_id l)).
  intros [-> | Hn]; [lia |]. specialize (IH Hn). lia.
Qed.

Lemma ids_crescentes_fim piso l n :
  ids_crescentes piso l -> piso < id n ->
  (forall m, In m l -> id m < id n) ->
  ids_crescentes piso (l ++ [n]).
Proof.
  revert piso. induction l as [|m l IH]; intros piso Hl Hp Hn;
    cbn in *; [now split |].
  destruct Hl as [Hm Hl]. split; [assumption |].
  apply IH; [assumption | apply Hn; now left | intros x Hx; apply Hn; now right].
Qed.

Lemma ids_crescentes_acima piso l n :
  ids_crescentes piso l -> In n l -> piso < id n.
Proof.
  revert piso. induction l as [|m l IH]; intros piso Hl Hn;
    cbn in *; [contradiction |].
  destruct Hl as [Hm Hl]. destruct Hn as [-> | Hn]; [assumption |].
  specialize (IH _ Hl Hn). lia.
Qed.

(** ** The INSERT *)

Lemma inserir_ok b e d v st c arq det h b' :
  inserir b e d v st c arq det h = Ok b' ->
  existe_hash h b = false
  /\ exists n,
       notas b' = (notas b ++ [n])%list
       /\ hash_registro n = h
       /\ id n = Z.max (seq b) (maior_id (notas b)) + 1
       /\ seq b' = id n.
Proof.
  unfold inserir. intros Hi.
  apply ligar_ok in Hi as (ge & _ & Hi).
  apply ligar_ok in Hi as (gd & _ & Hi).
  apply ligar_ok in Hi as (gv & _ & Hi).
  apply ligar_ok in Hi as (gst & _ & Hi).
  apply ligar_ok in Hi as (garq & _ & Hi).
  destruct (existe_hash h b); [discriminate |].
  injection Hi as <-. split; [reflexivity |].
  eexists. cbn. repeat split.
Qed.

Lemma inserir_integro b e d v st c arq det h b' :
  integro b -> inserir b e d v st c arq det h = Ok b' -> integro b'.
Proof.
  intros (Hc & Hs & Hd) Hi.
  apply inserir_ok in Hi as (Hn & n & Hnotas & Hh & Hid & Hseq).
  unfold integro. rewrite Hnotas, Hseq.
  assert (Hacima : forall m, In m (notas b) -> id m < id n).
  { intros m Hm. pose proof (maior_id_acima _ _ Hm). lia. }
  split; [| split].
  - apply ids_crescentes_fim; try assumption.
    rewrite Forall_forall in Hs. destruct (notas b) as [|m l] eqn:Hl.
    + cbn in Hid. lia.
    + specialize (Hacima m (or_introl eq_refl)).
      cbn in Hc. lia.
  - apply Forall_app. split.
    + rewrite Forall_forall. intros m Hm. specialize (Hacima m Hm). lia.
    + constructor; [lia | constructor].
  - rewrite map_app. cbn [map]. rewrite Hh.
    apply NoDup_app; [assumption | repeat constructor; intros [] |].
    intros x Hx [<- | []]. apply existe_hash_In in Hx. congruence.
Qed.

(** ** The loop of [save_notas] *)

Lemma existe_hash_mais h b b' novas :
  notas b' = (notas b ++ novas)%list ->
  existe_hash h b = true -> existe_hash h b' = true.
Proof.
  intros Hn Hb. apply existe_hash_In. rewrite Hn, map_app.
  apply in_or_app. left. now apply existe_hash_In.
Qed.

Lemma chave_guardada_mais b b' novas nota :
  notas b' = (notas b ++ novas)%list ->
  chave_guardada b nota -> chave_guardada b' nota.
Proof.
  intros Hn (e & d & v & He & Hd & Hv & Hh). exists e, d, v.
  split; [assumption |]. split; [assumption |]. split; [assumption |].
  now apply (existe_hash_mais _ b b' novas).
Qed.

Lemma laco_notas_ok l :
  forall b salvas ignoradas b' salvas' ignoradas',
    laco_notas l b salvas ignoradas = Ok (b', salvas', ignoradas') ->
    exists novas,
      notas b' = (notas b ++ novas)%list
      /\ salvas' = salvas + Z.of_nat (List.length novas)
      /\ (salvas' - salvas) + (ignoradas' - ignoradas)
         = Z.of_nat (List.length l)
      /\ ignoradas <= ignoradas'
      /\ (integro b -> integro b')
      /\ Forall (chave_guardada b') l.
Proof.
  induction l as [|nota l IH]; intros b s i b' s' i' Hl.
  - cbn in Hl. injection Hl as <- <- <-. exists [].
    rewrite app_nil_r. cbn [List.length].
    split; [reflexivity |]. split; [lia |]. split; [lia |].
    split; [lia |]. split; [auto | constructor].
  - cbn [laco_notas] in Hl.
    apply ligar_ok in Hl as (e & He & Hl).
    apply ligar_ok in Hl as (d & Hd & Hl).
    apply ligar_ok in Hl as (v & Hv & Hl).
    destruct (existe_hash (gerar_hash e d v) b) eqn:Hh.
    + apply IH in Hl as (novas & Hn & Hs & Hc & Hi & Hint & Hall).
      exists novas. cbn [List.length].
      split; [assumption |]. split; [assumption |]. split; [lia |].
      split; [lia |]. split; [assumption |].
      constructor; [| assumption].
      apply (chave_guardada_mais b b' novas); [assumption |].
      now exists e, d, v.
    + apply ligar_ok in Hl as (st & _ & Hl).
      apply ligar_ok in Hl as (cad & _ & Hl).
      apply ligar_ok in Hl as (arq & _ & Hl).
      apply ligar_ok in Hl as (det & _ & Hl).
      apply ligar_ok in Hl as (b1 & Hins & Hl).
      pose proof (inserir_ok _ _ _ _ _ _ _ _ _ _ Hins)
        as (_ & n & Hn1 & Hhn & _ & _).
      apply IH in Hl as (novas & Hn & Hs & Hc & Hi & Hint & Hall).
      exists (n :: novas). rewrite Hn, Hn1, <- app_assoc.
      cbn [List.length app].
      split; [reflexivity |]. split; [lia |]. split; [lia |].
      split; [lia |]. split.
      * intros Hb. apply Hint.
        now apply (inserir_integro _ _ _ _ _ _ _ _ _ _ Hb Hins).
      * constructor; [| assumption].
        apply (chave_guardada_mais b1 b' novas); [assumption |].
        exists e, d, v.
        split; [assumption |]. split; [assumption |].
        split; [assumption |].
        apply existe_hash_In. rewrite Hn1, map_app. apply in_or_app.
        right. cbn. now left.
Qed.

Lemma laco_notas_repetido l :
  forall b salvas ignoradas,
    Forall (chave_guardada b) l ->
    laco_notas l b salvas ignoradas
    = Ok (b, salvas, ignoradas + Z.of_nat (List.length l)).
Proof.
  induction l as [|nota l IH]; intros b s i Hall.
  - cbn. now rewrite Z.add_0_r.
  - inversion Hall as [|x y (e & d & v & He & Hd & Hv & Hh) Hl]; subst.
    cbn [laco_notas]. rewrite He, Hd, Hv. cbn [bind]. rewrite Hh.
    rewrite (IH _ _ _ Hl).
    replace (i + 1 + Z.of_nat (List.length l))
      with (i + Z.of_nat (List.length (nota :: l)));
      [reflexivity | cbn [List.length]; lia].
Qed.

Lemma laco_notas_exc l1 :
  forall b salvas ignoradas nota l2 e,
    subscrito nota "empresa" = Exc e
    \/ subscrito nota "data" = Exc e
    \/ subscrito nota "valor" = Exc e ->
    exists e',
      laco_notas (l1 ++ nota :: l2) b salvas ignoradas = Exc e'.
Proof.
  induction l1 as [|x l1 IH]; intros b s i nota l2 e He.
  - cbn [app laco_notas].
    destruct (subscrito nota "empresa") as [xe|e1]; cbn [bind];
      [| now exists e1].
    destruct (subscrito nota "data") as [xd|e1]; cbn [bind];
      [| now exists e1].
    destruct (subscrito nota "valor") as [xv|e1]; cbn [bind];
      [| now exists e1].
    destruct He as [He | [He | He]]; discriminate.
  - cbn [app laco_notas].
    destruct (subscrito x "empresa") as [xe|e1]; cbn [bind];
      [| now exists e1].
    destruct (subscrito x "data") as [xd|e1]; cbn [bind];
      [| now exists e1].
    destruct (subscrito x "valor") as [xv|e1]; cbn [bind];
      [| now exists e1].
    destruct (existe_hash (gerar_hash xe xd xv) b);
      [now apply (IH _ _ _ _ _ e) |].
    destruct (subscrito x "status") as [a1|e1]; cbn [bind];
      [| now exists e1].
    destruct (subscrito x "isCadastrado") as [a2|e1]; cbn [bind];
      [| now exists e1].
    destruct (subscrito x "arquivoBase64") as [a3|e1]; cbn [bind];
      [| now exists e1].
    destruct (subscrito x "detalhesCompletos") as [a4|e1]; cbn [bind];
      [| now exists e1].
    destruct (inserir b xe xd xv a1 _ a3 _ _) as [b1|e1]; cbn [bind];
      [| now exists e1].
    now apply (IH _ _ _ _ _ e).
Qed.

(** ** [save_notas] *)

(** A save that reports has run the loop to its end. *)
Lemma save_notas_salvo request_json b message duplicates b' :
  save_notas request_json b = (Salvo message duplicates, b') ->
  exists body itens salvas,
    request_json = Ok body
    /\ iterar body = Ok itens
    /\ laco_notas itens b 0 0 = Ok (b', salvas, duplicates)
    /\ message = mensagem salvas duplicates.
Proof.
  unfold save_notas. intros Hs.
  destruct request_json as [body|e]; cbn [bind] in Hs; [| discriminate].
  destruct (iterar body) as [itens|e] eqn:Hit; cbn [bind] in Hs;
    [| discriminate].
  destruct (laco_notas itens b 0 0) as [[[b1 s1] i1]|e] eqn:Hl;
    [| discriminate].
  injection Hs as <- <- <-.
  exists body, itens, s1. now repeat split.
Qed.

(** X11.  What a save reports.  When [save_notas] answers with its
    report, the body was iterable; the table is the old one followed by
    the rows inserted, in order; the rows inserted and the duplicates
    counted add up to the number of items of the body; the message
    spells these two counts; and afterwards the key of every item of the
    body is in the table. *)
Theorem save_notas_relatorio request_json b message duplicates b' :
  save_notas request_json b = (Salvo message duplicates, b') ->
  exists body itens novas,
    request_json = Ok body
    /\ iterar body = Ok itens
    /\ notas b' = (notas b ++ novas)%list
    /\ Z.of_nat (List.length novas) + duplicates
       = Z.of_nat (List.length itens)
    /\ 0 <= duplicates
    /\ message = mensagem (Z.of_nat (List.length novas)) duplicates
    /\ Forall (chave_guardada b') itens.
Proof.
  intros Hs.
  apply save_notas_salvo in Hs as (body & itens & s1 & Hb & Hit & Hl & Hm).
  apply laco_notas_ok in Hl as (novas & Hn & Hsal & Hc & Hi & _ & Hall).
  exists body, itens, novas.
  split; [assumption |]. split; [assumption |]. split; [assumption |].
  split; [lia |]. split; [lia |]. split; [| assumption].
  rewrite Hm. f_equal. lia.
Qed.

(** X12.  Saving twice.  The same body sent again right after a save that
    reported inserts nothing: every item is counted as a duplicate and
    the table stays as it is. *)
Theorem save_notas_repetido request_json b message duplicates b' :
  save_notas request_json b = (Salvo message duplicates, b') ->
  exists itens,
    (exists body, request_json = Ok body /\ iterar body = Ok itens)
    /\ save_notas request_json b'
       = (Salvo (mensagem 0 (Z.of_nat (List.length itens)))
            (Z.of_nat (List.length itens)), b').
Proof.
  intros Hs.
  apply save_notas_salvo in Hs as (body & itens & s1 & -> & Hit & Hl & _).
  apply laco_notas_ok in Hl as (_ & _ & _ & _ & _ & _ & Hall).
  exists itens. split; [now exists body |].
  unfold save_notas. cbn [bind]. rewrite Hit. cbn [bind].
  now rewrite (laco_notas_repetido _ _ _ _ Hall).
Qed.

(** X13.  A malformed note aborts the batch.  When an item of the list
    lacks one of the fields ['empresa'], ['data'], ['valor'] (or is not
    an object), the route answers with an error and the table is left as
    it was: the notes that precede the item in the batch are not
    saved. *)
Theorem save_notas_aborta b l1 nota l2 e :
  subscrito nota "empresa" = Exc e
  \/ subscrito nota "data" = Exc e
  \/ subscrito nota "valor" = Exc e ->
  exists e', save_notas (Ok (JArr (l1 ++ nota :: l2))) b = (Erro e', b).
Proof.
  intros He. unfold save_notas. cbn [bind iterar].
  destruct (laco_notas_exc l1 b 0 0 nota l2 e He) as (e' & ->).
  now exists e'.
Qed.

(** Where the hyphen falls between two fields makes no difference to the
    key. *)
Lemma texto_chave_hifen a x d v :
  texto_chave (JStr (a ++ "-" ++ x)) (JStr d) v
  = texto_chave (JStr a) (JStr (x ++ "-" ++ d)) v.
Proof.
  unfold texto_chave. cbn [texto].
  now rewrite !PyFacts.str_app_assoc.
Qed.

(** X14.  Notes told apart by the joined text only.  Two notes whose
    three key fields, printed and joined by hyphens, spell the same text
    are one note for the store, whatever the fields are: saved together,
    the second one is counted as a duplicate and at most one row is
    added.  So are a company ['a-b'] dated ['c'] and a company ['a']
    dated ['b-c']. *)
Theorem save_notas_chaves_iguais b o1 o2 e1 d1 v1 e2 d2 v2
    message duplicates b' :
  subscrito (JObj o1) "empresa" = Ok e1 ->
  subscrito (JObj o1) "data" = Ok d1 ->
  subscrito (JObj o1) "valor" = Ok v1 ->
  subscrito (JObj o2) "empresa" = Ok e2 ->
  subscrito (JObj o2) "data" = Ok d2 ->
  subscrito (JObj o2) "valor" = Ok v2 ->
  texto_chave e1 d1 v1 = texto_chave e2 d2 v2 ->
  save_notas (Ok (JArr [JObj o1; JObj o2])) b
  = (Salvo message duplicates, b') ->
  1 <= duplicates
  /\ (List.length (notas b') <= S (List.length (notas b)))%nat.
Proof.
  intros He1 Hd1 Hv1 He2 Hd2 Hv2 Hk Hs.
  assert (Hh : gerar_hash e2 d2 v2 = gerar_hash e1 d1 v1).
  { unfold gerar_hash. unfold texto_chave in Hk. now rewrite Hk. }
  unfold save_notas in Hs. cbn [bind iterar laco_notas] in Hs.
  rewrite He1, Hd1, Hv1, He2, Hd2, Hv2 in Hs. cbn [bind] in Hs.
  rewrite Hh in Hs.
  destruct (existe_hash (gerar_hash e1 d1 v1) b) eqn:Hex.
  - injection Hs as _ <- <-. split; [lia | lia].
  - destruct (subscrito (JObj o1) "status") as [a1|x]; cbn [bind] in Hs;
      [| discriminate].
    destruct (subscrito (JObj o1) "isCadastrado") as [a2|x];
      cbn [bind] in Hs; [| discriminate].
    destruct (subscrito (JObj o1) "arquivoBase64") as [a3|x];
      cbn [bind] in Hs; [| discriminate].
    destruct (subscrito (JObj o1) "detalhesCompletos") as [a4|x];
      cbn [bind] in Hs; [| discriminate].
    destruct (inserir b e1 d1 v1 a1 _ a3 _ _) as [b1|x] eqn:Hins;
      cbn [bind] in Hs; [| discriminate].
    apply inserir_ok in Hins as (_ & n & Hn & Hhn & _ & _).
    assert (Hex1 : existe_hash (gerar_hash e1 d1 v1) b1 = true).
    { apply existe_hash_In. rewrite Hn, map_app. apply in_or_app.
      right. cbn. now left. }
    rewrite Hex1 in Hs. injection Hs as _ <- <-.
    rewrite Hn, length_app. cbn. split; lia.
Qed.

(** ** The invariant *)

Lemma atualizar_campos b flag id_url :
  Forall2 mesma_nota (notas b) (notas (atualizar b flag id_url)).
Proof.
  unfold atualizar. cbn [notas].
  induction (notas b) as [|n l IH]; cbn [map]; constructor; [| exact IH].
  destruct (inteiro_do_texto id_url) as [k|];
    [destruct (k =? id n) |]; unfold mesma_nota; cbn; tauto.
Qed.

Lemma mesma_nota_ids l l' :
  Forall2 mesma_nota l l' ->
  map id l = map id l' /\ map hash_registro l = map hash_registro l'.
Proof.
  induction 1 as [|n m l l' Hnm _ [IH1 IH2]]; [now split |].
  destruct Hnm as (Hi & _ & _ & _ & _ & _ & _ & Hh).
  cbn [map]. now rewrite Hi, Hh, IH1, IH2.
Qed.

Lemma ids_crescentes_map piso l l' :
  map id l = map id l' -> ids_crescentes piso l -> ids_crescentes piso l'.
Proof.
  revert piso l'. induction l as [|n l IH]; intros piso [|m l'] Hm;
    try discriminate; [trivial |].
  cbn in Hm. injection Hm as Hi Hm. cbn. rewrite <- Hi.
  intros [Hp Hl]. split; [assumption |]. now apply IH.
Qed.

(** X15.  The state the routes keep.  The table [init_db] creates has the
    property, and [save_notas] and [update_nota] keep it whatever the
    request is: the ids are positive, grow in insertion order and are
    not above the largest id ever given (so no id is reused), and no two
    rows carry the same hash. *)
Theorem rotas_integro b :
  integro (init_db None)
  /\ (integro b ->
      (forall request_json, integro (snd (save_notas request_json b)))
      /\ (forall id_url request_json,
            integro (snd (update_nota id_url request_json b)))).
Proof.
  split.
  - cbn. split; [exact I |]. split; constructor.
  - intros Hb. split.
    + intros request_json. unfold save_notas.
      destruct request_json as [body|e]; cbn [bind snd]; [| assumption].
      destruct (iterar body) as [itens|e]; cbn [bind snd]; [| assumption].
      destruct (laco_notas itens b 0 0) as [[[b1 s1] i1]|e] eqn:Hl;
        cbn [snd]; [| assumption].
      apply laco_notas_ok in Hl as (_ & _ & _ & _ & _ & Hint & _).
      now apply Hint.
    + intros id_url request_json. unfold update_nota.
      destruct (_ <- request_json ;; _) as [flag|e]; cbn [snd];
        [| assumption].
      destruct Hb as (Hc & Hs & Hd).
      destruct (mesma_nota_ids _ _ (atualizar_campos b flag id_url))
        as [Hi Hh].
      split; [| split].
      * now apply (ids_crescentes_map _ _ _ Hi).
      * cbn [seq atualizar]. rewrite Forall_forall in *.
        intros m Hm. apply (in_map id) in Hm. rewrite <- Hi in Hm.
        apply in_map_iff in Hm as (n & <- & Hn). now apply Hs.
      * now rewrite <- Hh.
Qed.

(** The sample table is in that state. *)
Lemma integro_exemplo : integro banco_exemplo.
Proof.
  unfold integro. vm_compute.
  split; [repeat split; reflexivity |].
  split; [repeat constructor; discriminate |].
  repeat constructor; cbn; intuition discriminate.
Qed.

(** ** [get_notas] *)

Lemma inserir_desc_fim n l :
  Forall (fun m => id n < id m) l -> inserir_desc n l = (l ++ [n])%list.
Proof.
  induction 1 as [|m l Hm _ IH]; [reflexivity |].
  cbn [inserir_desc app].
  destruct (id m <=? id n) eqn:Hle; [apply Z.leb_le in Hle; lia |].
  now rewrite IH.
Qed.

Lemma ordenar_desc_rev l :
  forall piso, ids_crescentes piso l -> ordenar_desc l = rev l.
Proof.
  induction l as [|n l IH]; intros piso Hl; [reflexivity |].
  destruct Hl as [_ Hl]. cbn [rev].
  change (ordenar_desc (n :: l)) with (inserir_desc n (ordenar_desc l)).
  rewrite (IH _ Hl). apply inserir_desc_fim.
  apply Forall_forall. intros m Hm. apply in_rev in Hm.
  now apply (ids_crescentes_acima _ l).
Qed.

Lemma laco_rows_ok rows :
  forall acc l,
    laco_rows rows acc = Ok l ->
    exists novos,
      l = (acc ++ novos)%list
      /\ Forall2 (fun row d => dicionario row = Ok d) rows novos.
Proof.
  induction rows as [|row rows IH]; intros acc l Hl.
  - cbn in Hl. injection Hl as <-. exists []. rewrite app_nil_r.
    split; [reflexivity | constructor].
  - cbn [laco_rows] in Hl. apply ligar_ok in Hl as (d & Hd & Hl).
    apply IH in Hl as (novos & -> & Hall). exists (d :: novos).
    rewrite <- app_assoc. split; [reflexivity |]. now constructor.
Qed.

Lemma dicionario_id row d : dicionario row = Ok d -> Saida.id d = id row.
Proof.
  unfold dicionario. intros Hd. apply ligar_ok in Hd as (det & _ & Hd).
  now injection Hd as <-.
Qed.

Lemma dicionarios_ids rows l :
  Forall2 (fun row d => dicionario row = Ok d) rows l ->
  map Saida.id l = map id rows.
Proof.
  induction 1 as [|row d rows ds Hd _ IH]; [reflexivity |].
  cbn [map]. now rewrite (dicionario_id _ _ Hd), IH.
Qed.

(** The list answered is made of the dictionaries of the rows sorted by
    id, largest first. *)
Lemma get_notas_lista b l :
  get_notas b = Lista l ->
  Forall2 (fun row d => dicionario row = Ok d) (ordenar_desc (notas b)) l.
Proof.
  unfold get_notas.
  destruct (laco_rows (ordenar_desc (notas b)) []) as [l'|e] eqn:Hl;
    [| discriminate].
  intros [= <-]. now apply laco_rows_ok in Hl as (novos & -> & Hall).
Qed.

(** X16.  Newest first.  On a table in the state the routes keep, the
    list [get_notas] answers has one dictionary per row, in the reverse
    of the insertion order: the note saved last comes first. *)
Theorem get_notas_ordem b l :
  integro b ->
  get_notas b = Lista l ->
  Forall2 (fun row d => dicionario row = Ok d) (rev (notas b)) l
  /\ map Saida.id l = rev (map id (notas b))
  /\ List.length l = List.length (notas b).
Proof.
  intros (Hc & _ & _) Hg. apply get_notas_lista in Hg.
  rewrite (ordenar_desc_rev _ _ Hc) in Hg.
  split; [assumption |].
  pose proof (dicionarios_ids _ _ Hg) as Hids.
  split; [now rewrite Hids, map_rev |].
  apply (f_equal (@List.length Z)) in Hids.
  now rewrite !length_map, length_rev in Hids.
Qed.

(** X17.  Listing after a save.  After a save that reported, the list
    starts with the rows just inserted, the last one first, followed by
    the rows the table had before, in the order they were listed
    before. *)
Theorem get_notas_apos_save request_json b message duplicates b' l :
  integro b ->
  save_notas request_json b = (Salvo message duplicates, b') ->
  get_notas b' = Lista l ->
  exists novas,
    notas b' = (notas b ++ novas)%list
    /\ map Saida.id l
       = (rev (map id novas) ++ rev (map id (notas b)))%list.
Proof.
  intros Hb Hs Hg.
  apply save_notas_salvo in Hs as (body & itens & s1 & _ & _ & Hl & _).
  apply laco_notas_ok in Hl as (novas & Hn & _ & _ & _ & Hint & _).
  destruct (Hint Hb) as (Hc & _ & _).
  apply get_notas_lista in Hg. rewrite (ordenar_desc_rev _ _ Hc) in Hg.
  exists novas. split; [assumption |].
  rewrite (dicionarios_ids _ _ Hg), Hn, map_rev, map_app.
  apply rev_app_distr.
Qed.

(** ** [update_nota] *)

(** X18.  What an update does.  With a body that has the field
    ['isCadastrado'], the route answers ['Status atualizado!'] whether
    or not a row has the id of the URL; the rows keep their order and
    all their columns but the registration flag; a row whose id is the
    integer the URL text denotes takes the truth value of the field as
    0 or 1; when no row has that id, the table is unchanged. *)
Theorem update_nota_efeito id_url body cad b :
  subscrito body "isCadastrado" = Ok cad ->
  exists b',
    update_nota id_url (Ok body) b = (Mensagem "Status atualizado!", b')
    /\ seq b' = seq b
    /\ Forall2 mesma_nota (notas b) (notas b')
    /\ (forall n', In n' (notas b') ->
          inteiro_do_texto id_url = Some (id n') ->
          is_cadastrado n' = if verdadeiro cad then 1 else 0)
    /\ ((forall n, In n (notas b) ->
           inteiro_do_texto id_url <> Some (id n)) ->
        b' = b).
Proof.
  intros Hc. unfold update_nota. cbn [bind]. rewrite Hc. cbn [bind].
  eexists. split; [reflexivity |]. split; [reflexivity |].
  split; [apply atualizar_campos |]. split.
  - unfold atualizar. cbn [notas]. intros n' Hn' Hid.
    apply in_map_iff in Hn' as (n & <- & _).
    destruct (inteiro_do_texto id_url) as [k|] eqn:Hk; [| discriminate].
    destruct (k =? id n) eqn:He; [reflexivity |].
    injection Hid as ->. rewrite Z.eqb_refl in He. discriminate.
  - intros Hn. unfold atualizar. destruct b as [l s0]. cbn [notas seq] in *.
    f_equal. rewrite <- (map_id l) at 2. apply map_ext_in.
    intros n Hin. specialize (Hn n Hin).
    destruct (inteiro_do_texto id_url) as [k|]; [| reflexivity].
    destruct (k =? id n) eqn:He; [| reflexivity].
    apply Z.eqb_eq in He. subst k. now contradiction Hn.
Qed.

(** Sorting commutes with a change of the rows that keeps their ids. *)
Lemma inserir_desc_map (f : nota -> nota) n l :
  (forall m, id (f m) = id m) ->
  inserir_desc (f n) (map f l) = map f (inserir_desc n l).
Proof.
  intros Hf. induction l as [|m l IH]; [reflexivity |].
  cbn [map inserir_desc]. rewrite !Hf.
  destruct (id m <=? id n); [reflexivity |].
  cbn [map]. now rewrite IH.
Qed.

Lemma ordenar_desc_map (f : nota -> nota) l :
  (forall m, id (f m) = id m) ->
  ordenar_desc (map f l) = map f (ordenar_desc l).
Proof.
  intros Hf. induction l as [|n l IH]; [reflexivity |].
  change (ordenar_desc (map f (n :: l)))
    with (inserir_desc (f n) (ordenar_desc (map f l))).
  rewrite IH. now apply inserir_desc_map.
Qed.

Lemma laco_rows_map (f : nota -> nota) (g : Saida.t -> Saida.t) rows :
  (forall row d, dicionario row = Ok d -> dicionario (f row) = Ok (g d)) ->
  forall acc l,
    laco_rows rows acc = Ok l ->
    laco_rows (map f rows) (map g acc) = Ok (map g l).
Proof.
  intros Hfg. induction rows as [|row rows IH]; intros acc l Hl.
  - cbn in *. now injection Hl as <-.
  - cbn [laco_rows map] in *. apply ligar_ok in Hl as (d & Hd & Hl).
    rewrite (Hfg _ _ Hd). cbn [bind].
    apply IH in Hl. now rewrite map_app in Hl.
Qed.

(** X19.  Listing after an update.  If the table could be listed before
    an update whose body has the field ['isCadastrado'], it can be
    listed after it, and the new list is the old one, entry by entry,
    where each entry whose id is the integer the URL text denotes shows
    the truth value of the field as [isCadastrado], and every other
    entry is as before. *)
Theorem get_notas_apos_update id_url body cad b l0 :
  subscrito body "isCadastrado" = Ok cad ->
  get_notas b = Lista l0 ->
  get_notas (snd (update_nota id_url (Ok body) b))
  = Lista (map (fun d =>
                  match inteiro_do_texto id_url with
                  | Some k =>
                      if k =? Saida.id d
                      then com_cadastro (verdadeiro cad) d
                      else d
                  | None => d
                  end) l0).
Proof.
  intros Hc Hg. unfold update_nota. cbn [bind]. rewrite Hc. cbn [bind snd].
  unfold get_notas in *.
  destruct (laco_rows (ordenar_desc (notas b)) []) as [l|e] eqn:Hl;
    [| discriminate].
  injection Hg as <-. unfold atualizar. cbn [notas].
  set (f := fun n : nota =>
              match inteiro_do_texto id_url with
              | Some k =>
                  if k =? id n
                  then {| id := id n; empresa := empresa n; data := data n;
                          valor := valor n; status := status n;
                          is_cadastrado := if verdadeiro cad then 1 else 0;
                          arquivo_base64 := arquivo_base64 n;
                          detalhes_json := detalhes_json n;
                          hash_registro := hash_registro n |}
                  else n
              | None => n
              end).
  set (g := fun d : Saida.t =>
              match inteiro_do_texto id_url with
              | Some k =>
                  if k =? Saida.id d
                  then com_cadastro (verdadeiro cad) d
                  else d
              | None => d
              end).
  assert (Hf : forall m, id (f m) = id m).
  { intros m. unfold f. destruct (inteiro_do_texto id_url) as [k|];
      [destruct (k =? id m) |]; reflexivity. }
  assert (Hfg : forall row d,
             dicionario row = Ok d -> dicionario (f row) = Ok (g d)).
  { intros row d Hd. unfold f, g.
    pose proof (dicionario_id _ _ Hd) as Hid. rewrite Hid.
    destruct (inteiro_do_texto id_url) as [k|]; [| assumption].
    destruct (k =? id row); [| assumption].
    unfold dicionario in *. cbn [detalhes_json].
    apply ligar_ok in Hd as (det & Hdet & Hd). rewrite Hdet. cbn [bind].
    injection Hd as <-. unfold com_cadastro. cbn.
    now destruct (verdadeiro cad). }
  rewrite (ordenar_desc_map f _ Hf).
  pose proof (laco_rows_map f g _ Hfg [] l Hl) as Hm.
  cbn [map] in Hm. now rewrite Hm.
Qed.

End Fatos.
End BancoFacts.

(* ================================================================== *)
(** * The properties of the store and of the route on sample data *)
(* ================================================================== *)

Module BancoWit.
Import Banco BancoFacts.

(** [save_notas_relatorio] on the sample batch saved into the empty
    table: two rows inserted, one duplicate. *)
Lemma save_notas_relatorio_witness :
  save_notas (H := servicos_exemplo) (Ok lote_exemplo) banco_vazio
  = (Salvo (mensagem 2 1) 1, banco_exemplo)
  /\ exists body itens novas,
       Ok lote_exemplo = Ok body
       /\ iterar (H := servicos_exemplo) body = Ok itens
       /\ notas banco_exemplo = (notas banco_vazio ++ novas)%list
       /\ Z.of_nat (List.length novas) + 1 = Z.of_nat (List.length itens)
       /\ 0 <= 1
       /\ mensagem 2 1 = mensagem (Z.of_nat (List.length novas)) 1
       /\ Forall (chave_guardada (H := servicos_exemplo) banco_exemplo)
            itens.
Proof.
  split; [reflexivity |].
  exact (save_notas_relatorio (H := servicos_exemplo) (Ok lote_exemplo)
           banco_vazio (mensagem 2 1) 1 banco_exemplo eq_refl).
Defined.

(** [save_notas_repetido] on the sample batch: sent again, it is all
    duplicates. *)
Lemma save_notas_repetido_witness :
  save_notas (H := servicos_exemplo) (Ok lote_exemplo) banco_exemplo
  = (Salvo (mensagem 0 3) 3, banco_exemplo).
Proof.
  destruct (save_notas_repetido (H := servicos_exemplo) (Ok lote_exemplo)
              banco_vazio (mensagem 2 1) 1 banco_exemplo eq_refl)
    as (itens & (body & Hb & Hit) & Hs).
  injection Hb as <-. cbn in Hit. injection Hit as <-. exact Hs.
Defined.

(** [save_notas_aborta] on a batch whose second note has no date. *)
Lemma save_notas_aborta_witness :
  exists e',
    save_notas (H := servicos_exemplo)
      (Ok (JArr ([nota_exemplo "ACME" "01/01/2024" "R$ 10,00"]
                 ++ JObj [("empresa", JStr "Beta")] :: [])%list))
      banco_vazio
    = (Erro e', banco_vazio).
Proof.
  exact (save_notas_aborta (H := servicos_exemplo) banco_vazio
           [nota_exemplo "ACME" "01/01/2024" "R$ 10,00"]
           (JObj [("empresa", JStr "Beta")]) [] "erro"
           (or_intror (or_introl eq_refl))).
Defined.

(** [save_notas_chaves_iguais] on a company ['a-b'] dated ['c'] and a
    company ['a'] dated ['b-c']. *)
Lemma save_notas_chaves_iguais_witness :
  let r := save_notas (H := servicos_exemplo)
             (Ok (JArr [nota_exemplo "a-b" "c" "1";
                        nota_exemplo "a" "b-c" "1"])) banco_vazio in
  fst r = Salvo (mensagem 1 1) 1
  /\ 1 <= 1
  /\ (List.length (notas (snd r)) <= 1)%nat.
Proof.
  split; [reflexivity |].
  exact (save_notas_chaves_iguais (H := servicos_exemplo) banco_vazio
           [("empresa", JStr "a-b"); ("data", JStr "c"); ("valor", JStr "1");
            ("status", JStr "Emitida"); ("isCadastrado", JBool false);
            ("arquivoBase64", JStr "UEsDBA==");
            ("detalhesCompletos", JObj [])]
           [("empresa", JStr "a"); ("data", JStr "b-c"); ("valor", JStr "1");
            ("status", JStr "Emitida"); ("isCadastrado", JBool false);
            ("arquivoBase64", JStr "UEsDBA==");
            ("detalhesCompletos", JObj [])]
           (JStr "a-b") (JStr "c") (JStr "1")
           (JStr "a") (JStr "b-c") (JStr "1")
           (mensagem 1 1) 1 _
           eq_refl eq_refl eq_refl eq_refl eq_refl eq_refl eq_refl eq_refl).
Defined.

(** [rotas_integro] on the empty table and the sample batch. *)
Lemma rotas_integro_witness : integro banco_exemplo.
Proof.
  exact (proj1 (proj2 (rotas_integro (H := servicos_exemplo) banco_vazio)
                  (proj1 (rotas_integro (H := servicos_exemplo)
                            banco_vazio)))
           (Ok lote_exemplo)).
Defined.

(** [get_notas_ordem] on the sample table: the row of id 2 first. *)
Lemma get_notas_ordem_witness :
  exists l,
    get_notas (H := servicos_exemplo) banco_exemplo = Lista l
    /\ map Saida.id l = [2; 1].
Proof.
  eexists. split; [reflexivity |].
  exact (proj1 (proj2 (get_notas_ordem (H := servicos_exemplo)
                         banco_exemplo _ integro_exemplo eq_refl))).
Defined.

(** [get_notas_apos_save] on the sample table and one more note. *)
Lemma get_notas_apos_save_witness :
  let b' := snd (save_notas (H := servicos_exemplo)
                   (Ok (JArr [nota_exemplo "Gama" "03/01/2024" "R$ 1,00"]))
                   banco_exemplo) in
  exists l,
    get_notas (H := servicos_exemplo) b' = Lista l
    /\ exists novas,
         notas b' = (notas banco_exemplo ++ novas)%list
         /\ map Saida.id l
            = (rev (map id novas) ++ rev (map id (notas banco_exemplo)))%list.
Proof.
  eexists. split; [reflexivity |].
  exact (get_notas_apos_save (H := servicos_exemplo)
           (Ok (JArr [nota_exemplo "Gama" "03/01/2024" "R$ 1,00"]))
           banco_exemplo (mensagem 1 0) 0 _ _
           integro_exemplo eq_refl eq_refl).
Defined.

(** [update_nota_efeito] on the sample table and the id 2. *)
Lemma update_nota_efeito_witness :
  exists b',
    update_nota (H := servicos_exemplo) "2"
      (Ok (JObj [("isCadastrado", JBool true)])) banco_exemplo
    = (Mensagem "Status atualizado!", b')
    /\ seq b' = seq banco_exemplo
    /\ Forall2 mesma_nota (notas banco_exemplo) (notas b')
    /\ (forall n', In n' (notas b') ->
          inteiro_do_texto (Servicos := servicos_exemplo) "2"
          = Some (id n') ->
          is_cadastrado n' = 1)
    /\ ((forall n, In n (notas banco_exemplo) ->
           inteiro_do_texto (Servicos := servicos_exemplo) "2"
           <> Some (id n)) ->
        b' = banco_exemplo).
Proof.
  exact (update_nota_efeito (H := servicos_exemplo) "2"
           (JObj [("isCadastrado", JBool true)]) (JBool true)
           banco_exemplo eq_refl).
Defined.

(** [get_notas_apos_update] on the sample table and the id 2. *)
Lemma get_notas_apos_update_witness :
  exists l0,
    get_notas (H := servicos_exemplo) banco_exemplo = Lista l0
    /\ get_notas (H := servicos_exemplo)
         (snd (update_nota (H := servicos_exemplo) "2"
                 (Ok (JObj [("isCadastrado", JBool true)])) banco_exemplo))
       = Lista (map (fun d => if 2 =? Saida.id d
                              then com_cadastro true d else d) l0).
Proof.
  eexists. split; [reflexivity |].
  exact (get_notas_apos_update (H := servicos_exemplo) "2"
           (JObj [("isCadastrado", JBool true)]) (JBool true)
           banco_exemplo _ eq_refl eq_refl).
Defined.

End BancoWit.

Module NotasWit.
Import NotasFacts.


(** [planilha_conforme] on a processed row. *)
Lemma planilha_conforme_witness :
  exists item ws,
    processar_linha (H := bibliotecas_exemplo) ["Nome"; "V. Devido"]
      "atual" "" 7 [VStr "Ana"; VStr "R$ 12,50"] agora_exemplo agora_exemplo
    = Ok (item, ws)
    /\ celula ws "B4" = Some (VInt 1007)
    /\ celula ws "D4" = Some (VStr "04/11/2026")
    /\ celula ws "B8" = Some (VStr "Ana")
    /\ List.length ws = 23%nat.
Proof.
  eexists. eexists. split; [reflexivity |].
  destruct (planilha_conforme (H := bibliotecas_exemplo)
              ["Nome"; "V. Devido"] "atual" "" 7
              [VStr "Ana"; VStr "R$ 12,50"] agora_exemplo agora_exemplo
              _ _ eq_refl)
    as (HB4 & HD4 & HB8 & _ & _ & _ & _ & _ & _ & Hlen).
  split; [exact HB4 |]. split; [exact HD4 |]. split; [exact HB8 |].
  exact Hlen.
Defined.

(** [cpf_resolvido] on a row whose ['CPF/CNPJ'] cell is empty and whose
    ['CPF'] cell is filled. *)
Lemma cpf_resolvido_witness :
  exists item ws,
    processar_linha (H := bibliotecas_exemplo) ["CPF/CNPJ"; "CPF"]
      "atual" "" 0 [NaN; VStr "12345678900"] agora_exemplo agora_exemplo
    = Ok (item, ws)
    /\ truthy (cpf item) = true
    /\ cpf item = NaN.
Proof.
  eexists. eexists. split; [reflexivity |].
  refine ((fun P => conj (proj1 P)
                      (proj2 (proj2 (proj2 (proj2 P))) eq_refl))
            (cpf_resolvido (H := bibliotecas_exemplo) ["CPF/CNPJ"; "CPF"]
               "atual" "" 0 [NaN; VStr "12345678900"]
               agora_exemplo agora_exemplo _ _ eq_refl)).
Defined.

(** [data_emissao_venda] on the table with sale dates: a datetime cell,
    a text cell and an empty cell. *)
Lemma data_emissao_venda_witness :
  exists itens,
    processar_notas (H := bibliotecas_latin1)
      (requisicao_exemplo "venda" "2020-01-01") relogio_exemplo = Json itens
    /\ map data itens = ["05/03/2024"; "2024-03-05"; "04/11/2026"].
Proof.
  eexists. split; [reflexivity |].
  destruct (data_emissao_venda (H := bibliotecas_latin1)
              (requisicao_exemplo "venda" "2020-01-01") relogio_exemplo
              _ eq_refl eq_refl)
    as (file & df & Hf & Hdf & Hrow).
  cbn in Hf. injection Hf as <-.
  cbn in Hdf. injection Hdf as <-.
  destruct (Hrow 0%nat _ eq_refl) as (i0 & H0 & Hdt & _ & _).
  destruct (Hrow 1%nat _ eq_refl) as (i1 & H1 & _ & Htx & _).
  destruct (Hrow 2%nat _ eq_refl) as (i2 & H2 & _ & _ & Hna).
  cbn in H0, H1, H2.
  injection H0 as <-. injection H1 as <-. injection H2 as <-.
  exact (f_equal2 cons (Hdt _ eq_refl eq_refl)
           (f_equal2 cons
              (Htx eq_refl eq_refl (fun dt E => eq_ind (VStr "2024-03-05")
                 (fun v => match v with VStr _ => True | _ => False end)
                 I _ E))
              (f_equal2 cons (Hna (or_intror eq_refl)) eq_refl))).
Defined.

(** [nome_arquivo_distintos] on the two records of the table whose rows
    are labelled 7 and 9. *)
Lemma nome_arquivo_distintos_witness :
  exists itens a b,
    processar_notas (H := bibliotecas_rotulos)
      (requisicao_exemplo "atual" "") relogio_exemplo = Json itens
    /\ nth_error itens 0 = Some a /\ nth_error itens 1 = Some b
    /\ temp_id a = 7 /\ temp_id b = 9
    /\ nome_arquivo a <> nome_arquivo b.
Proof.
  eexists. eexists. eexists.
  split; [reflexivity |]. split; [reflexivity |]. split; [reflexivity |].
  destruct (nome_arquivo_distintos (H := bibliotecas_rotulos)
              (requisicao_exemplo "atual" "") relogio_exemplo _ 0%nat 1%nat
              _ _ eq_refl eq_refl eq_refl)
    as (file & df & Hf & Hdf & Ha & Hb & Hdif & _).
  cbn in Hf. injection Hf as <-.
  cbn in Hdf. injection Hdf as <-.
  split; [exact Ha |]. split; [exact Hb |].
  apply Hdif. discriminate.
Defined.

(** [limpar_moeda_ponto_decimal] on ['R$ 1234.56']. *)
Lemma limpar_moeda_ponto_decimal_witness :
  limpar_moeda (H := bibliotecas_exemplo) (VStr "R$ 1234.56")
  = VFloat (PyFloat.of_decimal false 123456 0).
Proof.
  exact (limpar_moeda_ponto_decimal (H := bibliotecas_exemplo) true
           "1234" "56" eq_refl eq_refl).
Defined.


End NotasWit.
